(** * Multi-head 3-D attention layer: a shallow embedding of
      [multi_head_attention_3d.py]

    The layer is one [torch.nn.Module] with a constructor ([__init__]), a
    forward pass ([forward]) and a helper ([split_heads]).  This file
    embeds the three of them, together with the part of the tensor library
    they call, and states the layer's properties about that embedding.

    Modelling decisions.
    - Python integers are [Z]; [%] and [//] are floor operations that raise
      [ZeroDivisionError] on a zero divisor.  An integer handed to the
      tensor library as a channel count or an extent must fit 64 bits.
    - A tensor is a shape (list of extents) and its elements in row-major
      order.  The objects that hold tensors, and what a call reads, creates
      and writes among them, are the subject of the section on the heap.
      The size of the memory is not represented.
    - Tensor elements are real numbers.  Rounding, overflow and NaN of
      single-precision arithmetic are not represented: a statement about
      elements gives the formula an element is computed by, and nothing is
      stated about sums, signs or bounds of computed elements.
    - A Python exception is a value of type [exn]; code that may raise lives
      in [result], code that also draws pseudo-random numbers lives in [M].
    - The pseudo-random generator is an arbitrary stream together with a
      cursor; the freshly initialised parameters of a layer are therefore
      arbitrary reals, which also covers parameters after training. *)

From Stdlib Require Import String Ascii.
From Stdlib Require Import List ZArith Bool Arith Lia.
From Stdlib Require Import QArith Qreals Reals Lra.
From Stdlib Require Import DecimalString.
Import ListNotations.

Close Scope Q_scope.
Close Scope R_scope.
Open Scope string_scope.
Open Scope list_scope.
Open Scope nat_scope.

Set Implicit Arguments.

(** ** Exceptions and the two monads *)

Inductive exn : Type :=
| ValueError (msg : string)
| ZeroDivisionError
| IndexError
| TypeError
| UnboundLocalError
| RuntimeError (msg : string).

Inductive result (A : Type) : Type :=
| Ok (a : A)
| Raise (e : exn).
Arguments Ok {A} a.
Arguments Raise {A} e.

Definition rbind {A B} (r : result A) (k : A -> result B) : result B :=
  match r with
  | Ok a => k a
  | Raise e => Raise e
  end.

Declare Scope py_scope.
Delimit Scope py_scope with py.
Notation "x <- e ;; k" := (rbind e (fun x => k))
  (at level 61, e at next level, right associativity) : py_scope.

(** The generator of pseudo-random numbers: [uniform n] is the [n]-th real
    drawn for a parameter, [coin n q] the [n]-th Bernoulli draw with success
    probability [q]; [cursor] counts the draws made so far. *)
Record Generator : Type := mkGenerator {
  uniform : nat -> R;
  coin : nat -> Q -> bool;
  cursor : nat
}.

Definition advance (g : Generator) (n : nat) : Generator :=
  mkGenerator (uniform g) (coin g) (cursor g + n).

Definition M (A : Type) : Type := Generator -> result (A * Generator).

Definition ret {A} (a : A) : M A := fun g => Ok (a, g).

Definition bind {A B} (m : M A) (k : A -> M B) : M B :=
  fun g => match m g with
           | Ok (a, g') => k a g'
           | Raise e => Raise e
           end.

Definition lift {A} (r : result A) : M A :=
  fun g => match r with
           | Ok a => Ok (a, g)
           | Raise e => Raise e
           end.

Definition raise {A} (e : exn) : M A := fun _ => Raise e.

Notation "x <~ e ;; k" := (bind e (fun x => k))
  (at level 61, e at next level, right associativity) : py_scope.

Open Scope py_scope.

(** ** Python integers and strings *)

Definition py_mod (a b : Z) : result Z :=
  if (b =? 0)%Z then Raise ZeroDivisionError else Ok (a mod b)%Z.

Definition py_floordiv (a b : Z) : result Z :=
  if (b =? 0)%Z then Raise ZeroDivisionError else Ok (a / b)%Z.

(** [int(a / b)]: true division followed by truncation toward zero.  The
    quotient of two integers of the size of a channel count is exact in
    double precision, so the result is the truncated quotient. *)
Definition py_int_truediv (a b : Z) : result Z :=
  if (b =? 0)%Z then Raise ZeroDivisionError else Ok (Z.quot a b).

(** A Python integer that is handed to the tensor library as an extent or a
    channel count is unpacked into a 64-bit integer; one outside
    [-2^63 .. 2^63 - 1] raises a [TypeError] there, before the library
    looks at its value. *)
Definition int64_min : Z := (-9223372036854775808)%Z.

Definition int64_max : Z := 9223372036854775807%Z.

Definition fits_int64 (z : Z) : bool :=
  (int64_min <=? z)%Z && (z <=? int64_max)%Z.

Definition py_size (z : Z) : result Z :=
  if fits_int64 z then Ok z else Raise TypeError.

(** ["%d" % z] *)
Definition fmt_d (z : Z) : string := NilZero.string_of_int (Z.to_int z).

Definition str_in (s : string) (l : list string) : bool :=
  existsb (String.eqb s) l.

(** ** Tensors *)

Record Tensor : Type := mkTensor {
  shape : list nat;
  data : list R
}.

Definition numel_of (s : list nat) : nat := fold_right Nat.mul 1 s.

Definition numel (t : Tensor) : nat := numel_of (shape t).

(** The representation invariant of a tensor. *)
Definition wf (t : Tensor) : Prop := length (data t) = numel t.

(** Row-major index arithmetic. *)
Fixpoint unravel (s : list nat) (j : nat) : list nat :=
  match s with
  | [] => []
  | _ :: s' => (j / numel_of s') :: unravel s' (j mod numel_of s')
  end.

Fixpoint ravel (s : list nat) (idx : list nat) : nat :=
  match s, idx with
  | _ :: s', i :: idx' => i * numel_of s' + ravel s' idx'
  | _, _ => 0
  end.

Definition get (t : Tensor) (idx : list nat) : R :=
  nth (ravel (shape t) idx) (data t) 0%R.

(** The tensor of shape [s] whose element at index [idx] is [f idx]. *)
Definition tabulate (s : list nat) (f : list nat -> R) : Tensor :=
  mkTensor s (map (fun j => f (unravel s j)) (seq 0 (numel_of s))).

Definition rsum (l : list R) : R := fold_right Rplus 0%R l.

(** [sum_upto n f] is f 0 + ... + f (n-1). *)
Definition sum_upto (n : nat) (f : nat -> R) : R := rsum (map f (seq 0 n)).

(** [x.shape[i]] *)
Definition shape_at (t : Tensor) (i : nat) : result nat :=
  match nth_error (shape t) i with
  | Some d => Ok d
  | None => Raise IndexError
  end.

(** [x.shape[-1]] *)
Definition shape_last (t : Tensor) : result nat :=
  match rev (shape t) with
  | d :: _ => Ok d
  | [] => Raise IndexError
  end.

(** *** Operations of the tensor library used by the layer

    Each definition gives the result the library documents for the call,
    and raises where the library raises.  On the calls a layer makes on a
    tensor of five axes the constructor of [exn] is the library's exception
    class, with a shortened message; on tensors of another rank it only
    records that the call fails. *)

(** [p] lists every axis [0 .. n-1] exactly once. *)
Definition is_perm (n : nat) (p : list nat) : bool :=
  (length p =? n) && forallb (fun a => existsb (Nat.eqb a) p) (seq 0 n).

Fixpoint index_of (a : nat) (p : list nat) : nat :=
  match p with
  | [] => 0
  | b :: p' => if a =? b then 0 else S (index_of a p')
  end.

(** [t.permute(p0, p1, ...)]: axis [i] of the result is axis [p[i]] of [t]. *)
Definition permute (t : Tensor) (p : list nat) : result Tensor :=
  if is_perm (length (shape t)) p then
    Ok (tabulate (map (fun a => nth a (shape t) 0) p)
          (fun idx =>
             get t (map (fun a => nth (index_of a p) idx 0)
                        (seq 0 (length p)))))
  else Raise (RuntimeError "permute: dims do not match the axes of the tensor").

(** [t.transpose(d0, d1)] *)
Definition transpose (t : Tensor) (d0 d1 : nat) : result Tensor :=
  let n := length (shape t) in
  if (d0 <? n) && (d1 <? n) then
    permute t (map (fun a => if a =? d0 then d1
                             else if a =? d1 then d0 else a) (seq 0 n))
  else Raise IndexError.

(** [t.view(d0, d1, ...)]: the elements are kept in order.  One extent may be
    given as [-1] and is then inferred.  (The layer takes views that split
    the last axis of a tensor or reshape a fresh matrix, which the layout of
    the tensor always admits.)  The extents are 64-bit integers: an extent
    read from the shape of a tensor is one, and a caller unpacks any other
    number with [py_size] first, as [split_heads] and [forward] do. *)
Definition view (t : Tensor) (dims : list Z) : result Tensor :=
  if existsb (fun d => (d <? -1)%Z) dims then
    Raise (RuntimeError "invalid shape dimension")
  else
    match count_occ Z.eq_dec dims (-1)%Z with
    | 0 =>
        let s := map Z.to_nat dims in
        if numel_of s =? numel t then Ok (mkTensor s (data t))
        else Raise (RuntimeError "shape is invalid for input size")
    | 1 =>
        let rest := numel_of (map Z.to_nat (remove Z.eq_dec (-1)%Z dims)) in
        if rest =? 0 then
          Raise (RuntimeError "the unspecified dimension cannot be inferred")
        else if numel t mod rest =? 0 then
          Ok (mkTensor
                (map (fun d => if (d =? -1)%Z then numel t / rest
                               else Z.to_nat d) dims)
                (data t))
        else Raise (RuntimeError "shape is invalid for input size")
    | _ => Raise (RuntimeError "only one dimension can be inferred")
    end.

(** [torch.flatten(t, s, e)]: axes [s .. e] become one axis. *)
Definition flatten (t : Tensor) (s e : nat) : result Tensor :=
  let sh := shape t in
  if e <? length sh then
    if s <=? e then
      Ok (mkTensor (firstn s sh
                      ++ [numel_of (firstn (S e - s) (skipn s sh))]
                      ++ skipn (S e) sh)
                   (data t))
    else Raise (RuntimeError "flatten: start_dim cannot come after end_dim")
  else Raise IndexError.

Fixpoint shape_eqb (a b : list nat) : bool :=
  match a, b with
  | [], [] => true
  | x :: a', y :: b' => (x =? y) && shape_eqb a' b'
  | _, _ => false
  end.

(** Component [i] of an index. *)
Definition ix (idx : list nat) (i : nat) : nat := nth i idx 0.

(** [t / c] for a Python number [c]. *)
Definition div_scalar (t : Tensor) (c : R) : Tensor :=
  mkTensor (shape t) (map (fun x => (x / c)%R) (data t)).

(** [torch.matmul(a, b)] for two matrices.  The layer only multiplies
    matrices; operands of another rank are rejected here. *)
Definition matmul (a b : Tensor) : result Tensor :=
  match shape a, shape b with
  | [n; k], [k'; m] =>
      if k =? k' then
        Ok (tabulate [n; m]
              (fun idx =>
                 sum_upto k (fun l =>
                   Rmult (get a [ix idx 0; l]) (get b [l; ix idx 1]))))
      else Raise (RuntimeError "mat1 and mat2 shapes cannot be multiplied")
  | _, _ => Raise (RuntimeError "matmul: operands are not two matrices")
  end.

(** [idx] with its [d]-th component replaced by [v]. *)
Definition set_nth (idx : list nat) (d v : nat) : list nat :=
  firstn d idx ++ [v] ++ skipn (S d) idx.

(** [torch.softmax(t, dim)] *)
Definition softmax (t : Tensor) (dim : nat) : result Tensor :=
  match nth_error (shape t) dim with
  | Some n =>
      Ok (tabulate (shape t)
            (fun idx =>
               Rdiv (exp (get t idx))
                    (sum_upto n (fun j => exp (get t (set_nth idx dim j))))))
  | None => Raise IndexError
  end.

(** A fresh tensor of shape [s] filled from the generator. *)
Definition draw (s : list nat) : M Tensor :=
  fun g =>
    Ok (mkTensor s (map (fun i => uniform g (cursor g + i))
                        (seq 0 (numel_of s))),
        advance g (numel_of s)).

(** *** Convolution modules ([nn.Conv3d], [nn.ConvTranspose3d])

    Kernel, stride and padding are the same along the three spatial axes,
    as in every module the layer creates; groups and dilation are 1. *)
Record ConvNd : Type := mkConv {
  transposed : bool;
  in_channels : Z;
  out_channels : Z;
  kernel_size : nat;
  stride : nat;
  padding : nat;
  weight : Tensor;
  bias : Tensor
}.

(** [nn.Conv3d(cin, cout, kernel_size=k, stride=s, padding=p, bias=True)]:
    allocates and initialises the weight [cout, cin, k, k, k] and the bias
    [cout].  The allocation unpacks the two counts as 64-bit integers and
    then refuses a negative extent.  (Memory is not represented: a weight
    of any admissible size can be allocated.) *)
Definition Conv3d (cin cout : Z) (k s p : nat) : M ConvNd :=
  if negb (fits_int64 cin && fits_int64 cout) then raise TypeError
  else if ((cin <? 0) || (cout <? 0))%Z then
    raise (RuntimeError "Trying to create tensor with negative dimension")
  else
    w <~ draw [Z.to_nat cout; Z.to_nat cin; k; k; k] ;;
    b <~ draw [Z.to_nat cout] ;;
    ret (mkConv false cin cout k s p w b).

(** [nn.ConvTranspose3d(cin, cout, kernel_size=k, stride=s, padding=p,
    bias=True)]: the weight is [cin, cout, k, k, k]. *)
Definition ConvTranspose3d (cin cout : Z) (k s p : nat) : M ConvNd :=
  if negb (fits_int64 cin && fits_int64 cout) then raise TypeError
  else if ((cin <? 0) || (cout <? 0))%Z then
    raise (RuntimeError "Trying to create tensor with negative dimension")
  else
    w <~ draw [Z.to_nat cin; Z.to_nat cout; k; k; k] ;;
    b <~ draw [Z.to_nat cout] ;;
    ret (mkConv true cin cout k s p w b).

(** Element of [x] at spatial position [(i - p, j - p, l - p)], zero in the
    padding. *)
Definition at_padded (x : Tensor) (p D H W b c i j l : nat) : R :=
  if (p <=? i) && (i - p <? D) && (p <=? j) && (j - p <? H)
     && (p <=? l) && (l - p <? W)
  then get x [b; c; i - p; j - p; l - p]
  else 0%R.

(** Extent of one spatial axis after a convolution. *)
Definition conv_out (d k s p : nat) : nat := (d + 2 * p - k) / s + 1.

(** [F.conv3d(x, w, b, stride=s, padding=p)].  A zero-sized channel axis
    is refused (what the library does with one has varied between its
    versions; nothing below relies on it). *)
Definition conv3d (x w b : Tensor) (s p : nat) : result Tensor :=
  match shape x, shape w with
  | [B; Cin; D; H; W], [Cout; Cin'; kd; kh; kw] =>
      if s =? 0 then
        Raise (RuntimeError "non-positive stride is not supported")
      else if (Cout =? 0) || (Cin =? 0) then
        Raise (RuntimeError "expected weight to be at least 1 at dimension 0")
      else if negb (Cin =? Cin') then
        Raise (RuntimeError "input channels do not match the weight")
      else if negb (shape_eqb (shape b) [Cout]) then
        Raise (RuntimeError "bias does not match the weight")
      else if (D + 2 * p <? kd) || (H + 2 * p <? kh) || (W + 2 * p <? kw) then
        Raise (RuntimeError "Kernel size can't be greater than actual input size")
      else
        Ok (tabulate
              [B; Cout; conv_out D kd s p; conv_out H kh s p; conv_out W kw s p]
              (fun idx =>
                 Rplus (get b [ix idx 1])
                   (sum_upto Cin (fun ci =>
                    sum_upto kd (fun i =>
                    sum_upto kh (fun j =>
                    sum_upto kw (fun l =>
                      Rmult
                        (at_padded x p D H W (ix idx 0) ci
                           (ix idx 2 * s + i) (ix idx 3 * s + j)
                           (ix idx 4 * s + l))
                        (get w [ix idx 1; ci; i; j; l]))))))))
  | _, _ => Raise (RuntimeError "Expected 5-dimensional input and weight")
  end.

(** Input position that kernel offset [i] maps to output position [o] in a
    transposed convolution, if there is one: [o = id * s - p + i]. *)
Definition source_pos (o i s p d : nat) : option nat :=
  if (i <=? o + p) && ((o + p - i) mod s =? 0) && ((o + p - i) / s <? d)
  then Some ((o + p - i) / s)
  else None.

(** Extent of one spatial axis after a transposed convolution with output
    padding [op]; [None] when the formula gives a negative extent. *)
Definition conv_transpose_out (d k s p op : nat) : option nat :=
  let e := ((Z.of_nat d - 1) * Z.of_nat s - 2 * Z.of_nat p
            + Z.of_nat k + Z.of_nat op)%Z in
  if (e <? 0)%Z then None else Some (Z.to_nat e).

(** [F.conv_transpose3d(x, w, b, stride=s, padding=p, output_padding=op)],
    [op] giving the output padding of each spatial axis.  Zero-sized
    channel and spatial axes are refused, as in [conv3d]. *)
Definition conv_transpose3d (x w b : Tensor) (s p : nat) (op : list nat)
  : result Tensor :=
  match shape x, shape w, op with
  | [B; Cin; D; H; W], [Cin'; Cout; kd; kh; kw], [opd; oph; opw] =>
      if s =? 0 then
        Raise (RuntimeError "non-positive stride is not supported")
      else if (Cout =? 0) || (Cin =? 0) then
        Raise (RuntimeError "expected weight to be at least 1 at dimension 0")
      else if negb (Cin =? Cin') then
        Raise (RuntimeError "input channels do not match the weight")
      else if negb (shape_eqb (shape b) [Cout]) then
        Raise (RuntimeError "bias does not match the weight")
      else if negb ((opd <? s) && (oph <? s) && (opw <? s)) then
        Raise (RuntimeError "output padding must be smaller than stride")
      else if (D =? 0) || (H =? 0) || (W =? 0) then
        Raise (RuntimeError "input has a zero-sized spatial axis")
      else
        match conv_transpose_out D kd s p opd,
              conv_transpose_out H kh s p oph,
              conv_transpose_out W kw s p opw with
        | Some Do, Some Ho, Some Wo =>
            Ok (tabulate [B; Cout; Do; Ho; Wo]
                  (fun idx =>
                     Rplus (get b [ix idx 1])
                       (sum_upto Cin (fun ci =>
                        sum_upto kd (fun i =>
                        sum_upto kh (fun j =>
                        sum_upto kw (fun l =>
                          match source_pos (ix idx 2) i s p D,
                                source_pos (ix idx 3) j s p H,
                                source_pos (ix idx 4) l s p W with
                          | Some id, Some ih, Some iw =>
                              Rmult (get x [ix idx 0; ci; id; ih; iw])
                                    (get w [ci; ix idx 1; i; j; l])
                          | _, _, _ => 0%R
                          end)))))))
        | _, _, _ => Raise (RuntimeError "output size is too small")
        end
  | _, _, _ => Raise (RuntimeError "Expected 5-dimensional input and weight")
  end.

(** The output padding [ConvTranspose3d.forward] derives from a requested
    output size: the request has to lie between the smallest size the
    geometry produces and that size plus [stride - 1]. *)
Definition output_padding_axis (d k s p size : nat) : result nat :=
  let min_size := ((Z.of_nat d - 1) * Z.of_nat s - 2 * Z.of_nat p
                   + Z.of_nat k)%Z in
  let max_size := (min_size + Z.of_nat s - 1)%Z in
  if ((Z.of_nat size <? min_size) || (max_size <? Z.of_nat size))%Z then
    Raise (ValueError "requested an output size outside the valid range")
  else Ok (Z.to_nat (Z.of_nat size - min_size)).

(** Calling a convolution module: [m(x)] and [m(x, output_size=size)].
    A transposed module first derives its output padding from the
    requested size and the spatial extents of [x]: the last three axes
    of a tensor of five axes, and the axes 1, 2 and 3 of any other tensor,
    which the module takes to have no batch axis. *)
Definition conv_call (m : ConvNd) (x : Tensor)
           (output_size : option (nat * nat * nat)) : result Tensor :=
  if transposed m then
    match output_size, shape x with
    | Some (sd, sh, sw), [_; _; D; H; W] =>
        opd <- output_padding_axis D (kernel_size m) (stride m) (padding m) sd ;;
        oph <- output_padding_axis H (kernel_size m) (stride m) (padding m) sh ;;
        opw <- output_padding_axis W (kernel_size m) (stride m) (padding m) sw ;;
        conv_transpose3d x (weight m) (bias m) (stride m) (padding m)
                         [opd; oph; opw]
    | None, _ =>
        conv_transpose3d x (weight m) (bias m) (stride m) (padding m) [0; 0; 0]
    | Some (sd, sh, sw), _ =>
        D <- shape_at x 1 ;;
        H <- shape_at x 2 ;;
        W <- shape_at x 3 ;;
        opd <- output_padding_axis D (kernel_size m) (stride m) (padding m) sd ;;
        oph <- output_padding_axis H (kernel_size m) (stride m) (padding m) sh ;;
        opw <- output_padding_axis W (kernel_size m) (stride m) (padding m) sw ;;
        conv_transpose3d x (weight m) (bias m) (stride m) (padding m)
                         [opd; oph; opw]
    end
  else
    match output_size with
    | None => conv3d x (weight m) (bias m) (stride m) (padding m)
    | Some _ => Raise TypeError
    end.

(** *** Dropout ([nn.Dropout]) *)
Record Dropout : Type := mkDropout {
  dropout_p : Q;
  dropout_training : bool
}.

(** [nn.Dropout(p)] *)
Definition Dropout_new (p : Q) : result Dropout :=
  if negb (Qle_bool 0 p) || negb (Qle_bool p 1) then
    Raise (ValueError "dropout probability has to be between 0 and 1")
  else Ok (mkDropout p true).

(** Calling the dropout module.  Nothing is drawn when the probability is
    0 or 1, outside training, or on an empty tensor; otherwise every
    element is kept with probability [1 - p] and scaled by [1 / (1 - p)]. *)
Definition dropout_call (m : Dropout) (x : Tensor) : M Tensor :=
  if Qeq_bool (dropout_p m) 0 || negb (dropout_training m) || (numel x =? 0)
  then ret x
  else if Qeq_bool (dropout_p m) 1 then
    ret (mkTensor (shape x) (map (fun v => Rmult v 0%R) (data x)))
  else
    fun g =>
      let keep := Qminus 1 (dropout_p m) in
      Ok (mkTensor (shape x)
            (map (fun vi =>
                    Rmult (fst vi)
                      (Rdiv (if coin g (cursor g + snd vi) keep
                             then 1%R else 0%R)
                            (Q2R keep)))
                 (combine (data x) (seq 0 (length (data x))))),
          advance g (numel x)).

(** ** The layer *)

(** The attributes [__init__] assigns.  [QueryTransform] is first set to
    [None]; [training] is the flag every [nn.Module] carries. *)
Record multi_head_attention_3d : Type := mkLayer {
  num_heads : Z;
  layer_type : string;
  QueryTransform : option ConvNd;
  KeyTransform : ConvNd;
  ValueTransform : ConvNd;
  attention_dropout : Dropout;
  outputConv : ConvNd;
  _scale : R;
  training : bool
}.

(** [n ** 0.5] for an integer [n >= 0].  (For a negative [n] Python returns
    a complex number; the value here is then meaningless, and [forward]
    raises before it reads [_scale], see [split_heads].) *)
Definition pow_half (n : Z) : R := sqrt (IZR n).

Definition key_depth_msg (key_filters num_heads : Z) : string :=
  "Key depth (" ++ fmt_d key_filters
  ++ ") must be divisible by the number of attention heads ("
  ++ fmt_d num_heads ++ ").".

Definition value_depth_msg (value_filters num_heads : Z) : string :=
  "Value depth (" ++ fmt_d value_filters
  ++ ") must be divisible by the number of attention heads ("
  ++ fmt_d num_heads ++ ").".

Definition layer_type_msg (layer_type : string) : string :=
  "Layer type (" ++ layer_type ++ ") must be one of SAME, DOWN, UP.".

Notation "x <-- e ;; k" := (bind (lift e) (fun x => k))
  (at level 61, e at next level, right associativity) : py_scope.

(** The part of the constructor after validation: the assignments of the
    attributes, which create the sub-modules. *)
Definition allocate (in_channel key_filters value_filters output_filters
                     num_heads : Z) (dropout_prob : Q) (layer_type : string)
  : M multi_head_attention_3d :=
  query <~ (if String.eqb layer_type "SAME" then
              c <~ Conv3d in_channel key_filters 1 1 0 ;; ret (Some c)
            else if String.eqb layer_type "DOWN" then
              c <~ Conv3d in_channel key_filters 3 2 1 ;; ret (Some c)
            else if String.eqb layer_type "UP" then
              c <~ ConvTranspose3d in_channel key_filters 3 2 1 ;; ret (Some c)
            else ret None) ;;
  key <~ Conv3d in_channel key_filters 1 1 0 ;;
  value <~ Conv3d in_channel value_filters 1 1 0 ;;
  drop <-- Dropout_new dropout_prob ;;
  out <~ Conv3d value_filters output_filters 1 1 0 ;;
  per_head <-- py_floordiv key_filters num_heads ;;
  ret (mkLayer num_heads layer_type query key value drop out
               (pow_half per_head) true).


(** [multi_head_attention_3d(in_channel, key_filters, value_filters,
    output_filters, num_heads, dropout_prob, layer_type)]: the three checks,
    then the assignments. *)
Definition __init__ (in_channel key_filters value_filters output_filters
                     num_heads : Z) (dropout_prob : Q) (layer_type : string)
  : M multi_head_attention_3d :=
  rk <-- py_mod key_filters num_heads ;;
  if negb (rk =? 0)%Z then
    raise (ValueError (key_depth_msg key_filters num_heads))
  else
  rv <-- py_mod value_filters num_heads ;;
  if negb (rv =? 0)%Z then
    raise (ValueError (value_depth_msg value_filters num_heads))
  else
  if negb (str_in layer_type ["SAME"; "DOWN"; "UP"]) then
    raise (ValueError (layer_type_msg layer_type))
  else
    allocate in_channel key_filters value_filters output_filters
             num_heads dropout_prob layer_type.

(** [net.train(mode)] and [net.eval()]: the flag is set on the module and
    on its sub-modules; only the dropout module reads it. *)
Definition train (mode : bool) (self : multi_head_attention_3d)
  : multi_head_attention_3d :=
  mkLayer (num_heads self) (layer_type self) (QueryTransform self)
          (KeyTransform self) (ValueTransform self)
          (mkDropout (dropout_p (attention_dropout self)) mode)
          (outputConv self) (_scale self) mode.

Definition eval (self : multi_head_attention_3d) : multi_head_attention_3d :=
  train false self.

(** [split_heads(x, num_heads)] *)
Definition split_heads (x : Tensor) (num_heads : Z) : result Tensor :=
  channel_num <- shape_last x ;;
  s0 <- shape_at x 0 ;;
  s1 <- shape_at x 1 ;;
  s2 <- shape_at x 2 ;;
  s3 <- shape_at x 3 ;;
  per_head <- py_int_truediv (Z.of_nat channel_num) num_heads ;;
  n <- py_size num_heads ;;
  c <- py_size per_head ;;
  view x [Z.of_nat s0; Z.of_nat s1; Z.of_nat s2; Z.of_nat s3; n; c].

(** The values the local variables of [forward] take, in order of
    assignment: [q0] is the query projection, [k0], [v0] the key and value
    projections, [k1], [v1], [q1] the channel-last tensors, [k2], [v2], [q2]
    the tensors split into heads, [k3], [v3], [q3] the flattened matrices,
    [q4] the scaled queries, [A0] the similarity matrix, [A1] the attention
    matrix after softmax, [A2] after dropout, [O0] the product with the
    values, [O1] and [O2] its volume forms and [O3] the returned tensor. *)
Record Trace : Type := mkTrace {
  q0 : Tensor; k0 : Tensor; v0 : Tensor;
  k1 : Tensor; v1 : Tensor; q1 : Tensor;
  k2 : Tensor; v2 : Tensor; q2 : Tensor;
  k3 : Tensor; v3 : Tensor; q3 : Tensor;
  q4 : Tensor;
  A0 : Tensor; A1 : Tensor; A2 : Tensor;
  O0 : Tensor; O1 : Tensor; O2 : Tensor; O3 : Tensor
}.

Definition callable {A} (m : option A) : result A :=
  match m with
  | Some c => Ok c
  | None => Raise TypeError
  end.

Definition bound {A} (v : option A) : result A :=
  match v with
  | Some t => Ok t
  | None => Raise UnboundLocalError
  end.

(** The first statement of [forward]: the query projection, called with
    the doubled extents as [output_size] in an UP layer.  [q] stays unbound
    when the layer type is none of the three names. *)
Definition project_query (self : multi_head_attention_3d) (inputs : Tensor)
  : result (option Tensor) :=
  if (String.eqb (layer_type self) "SAME")
     || (String.eqb (layer_type self) "DOWN") then
    m <- callable (QueryTransform self) ;;
    r <- conv_call m inputs None ;;
    Ok (Some r)
  else if String.eqb (layer_type self) "UP" then
    d <- shape_at inputs 2 ;;
    h <- shape_at inputs 3 ;;
    w <- shape_at inputs 4 ;;
    m <- callable (QueryTransform self) ;;
    r <- conv_call m inputs (Some (d * 2, h * 2, w * 2)) ;;
    Ok (Some r)
  else Ok None.

(** The body of [forward], keeping every intermediate value. *)
Definition forward_trace (self : multi_head_attention_3d) (inputs : Tensor)
  : M Trace :=
  q <-- project_query self inputs ;;
  k0 <-- conv_call (KeyTransform self) inputs None ;;
  k1 <-- permute k0 [0; 2; 3; 4; 1] ;;
  v0 <-- conv_call (ValueTransform self) inputs None ;;
  v1 <-- permute v0 [0; 2; 3; 4; 1] ;;
  q0 <-- bound q ;;
  q1 <-- permute q0 [0; 2; 3; 4; 1] ;;
  Batch <-- shape_at q1 0 ;;
  Dq <-- shape_at q1 1 ;;
  Hq <-- shape_at q1 2 ;;
  Wq <-- shape_at q1 3 ;;
  k2 <-- split_heads k1 (num_heads self) ;;
  v2 <-- split_heads v1 (num_heads self) ;;
  q2 <-- split_heads q1 (num_heads self) ;;
  k3 <-- flatten k2 0 4 ;;
  v3 <-- flatten v2 0 4 ;;
  q3 <-- flatten q2 0 4 ;;
  let q4 := div_scalar q3 (_scale self) in
  kT <-- transpose k3 0 1 ;;
  A0 <-- matmul q4 kT ;;
  A1 <-- softmax A0 1 ;;
  A2 <~ dropout_call (attention_dropout self) A1 ;;
  O0 <-- matmul A2 v3 ;;
  c <-- shape_last v3 ;;
  channels <-- py_size (Z.of_nat c * num_heads self) ;;
  O1 <-- view O0 [Z.of_nat Batch; Z.of_nat Dq; Z.of_nat Hq; Z.of_nat Wq;
                  channels] ;;
  O2 <-- permute O1 [0; 4; 1; 2; 3] ;;
  O3 <-- conv_call (outputConv self) O2 None ;;
  ret (mkTrace q0 k0 v0 k1 v1 q1 k2 v2 q2 k3 v3 q3 q4 A0 A1 A2 O0 O1 O2 O3).

(** [forward(inputs)] *)
Definition forward (self : multi_head_attention_3d) (inputs : Tensor)
  : M Tensor :=
  tr <~ forward_trace self inputs ;;
  ret (O3 tr).

(** ** Vocabulary of the statements *)

(** The three conditions the constructor validates. *)
Definition heads_divide (filters num_heads : Z) : Prop :=
  (filters mod num_heads = 0)%Z.

Definition known_layer_type (layer_type : string) : Prop :=
  In layer_type ["SAME"; "DOWN"; "UP"].

(** What the constructor returns or raises. *)
Definition construct (in_channel key_filters value_filters output_filters
                      num_heads : Z) (dropout_prob : Q) (layer_type : string)
                     (g : Generator) : result multi_head_attention_3d :=
  match __init__ in_channel key_filters value_filters output_filters
                 num_heads dropout_prob layer_type g with
  | Ok (self, _) => Ok self
  | Raise e => Raise e
  end.

Definition raises_ValueError {A} (r : result A) : Prop :=
  exists msg, r = Raise (ValueError msg).

Definition succeeds {A} (r : result A) : Prop := exists a, r = Ok a.

(** A generator whose every draw is zero, and an all-zero tensor. *)
Definition gen0 : Generator := mkGenerator (fun _ => 0%R) (fun _ _ => true) 0.

Definition zeros (s : list nat) : Tensor := mkTensor s (repeat 0%R (numel_of s)).

Definition ones (s : list nat) : Tensor := mkTensor s (repeat 1%R (numel_of s)).

(** The geometry of a convolution module: its kind, kernel, stride and
    padding, and the shapes of its weight and bias. *)
Definition conv_geometry (m : ConvNd) (tr : bool) (cin cout k s p : nat)
  : Prop :=
  transposed m = tr /\ kernel_size m = k /\ stride m = s /\ padding m = p /\
  shape (weight m)
  = (if tr then [cin; cout; k; k; k] else [cout; cin; k; k; k]) /\
  shape (bias m) = [cout].

Definition query_geometry (lt : string) (q : ConvNd) (cin cout : nat) : Prop :=
  (lt = "SAME" /\ conv_geometry q false cin cout 1 1 0) \/
  (lt = "DOWN" /\ conv_geometry q false cin cout 3 2 1) \/
  (lt = "UP" /\ conv_geometry q true cin cout 3 2 1).

(** A channel count the sub-modules accept: not negative, and a 64-bit
    integer. *)
Definition channel_count (z : Z) : Prop := (0 <= z <= int64_max)%Z.

(** [built_with ic kf vf ofl nh lt self]: [self] is a layer the constructor
    returned for these arguments, whatever the values of its parameters and
    of its training flag. *)
Record built_with (ic kf vf ofl nh : Z) (lt : string)
       (self : multi_head_attention_3d) : Prop := mkBuilt {
  built_heads : num_heads self = nh;
  built_type : layer_type self = lt;
  built_nonzero : nh <> 0%Z;
  built_key_div : heads_divide kf nh;
  built_value_div : heads_divide vf nh;
  built_ic : channel_count ic;
  built_kf : channel_count kf;
  built_vf : channel_count vf;
  built_ofl : channel_count ofl;
  built_query : exists q, QueryTransform self = Some q /\
                          query_geometry lt q (Z.to_nat ic) (Z.to_nat kf);
  built_key : conv_geometry (KeyTransform self) false
                            (Z.to_nat ic) (Z.to_nat kf) 1 1 0;
  built_value : conv_geometry (ValueTransform self) false
                              (Z.to_nat ic) (Z.to_nat vf) 1 1 0;
  built_out : conv_geometry (outputConv self) false
                            (Z.to_nat vf) (Z.to_nat ofl) 1 1 0;
  built_scale : _scale self = pow_half (kf / nh)
}.

(** Extent of a spatial axis of the query, by layer type. *)
Definition query_extent (lt : string) (d : nat) : nat :=
  if String.eqb lt "SAME" then d
  else if String.eqb lt "DOWN" then conv_out d 3 2 1
  else d * 2.

(** [runs self inputs g tr g']: the statements of [forward], run on
    [inputs] from generator state [g], assign the values of [tr] and leave
    the generator in state [g']. *)
Record runs (self : multi_head_attention_3d) (inputs : Tensor)
       (g : Generator) (tr : Trace) (g' : Generator) : Prop := mkRuns {
  run_q0 : project_query self inputs = Ok (Some (q0 tr));
  run_k0 : conv_call (KeyTransform self) inputs None = Ok (k0 tr);
  run_k1 : permute (k0 tr) [0; 2; 3; 4; 1] = Ok (k1 tr);
  run_v0 : conv_call (ValueTransform self) inputs None = Ok (v0 tr);
  run_v1 : permute (v0 tr) [0; 2; 3; 4; 1] = Ok (v1 tr);
  run_q1 : permute (q0 tr) [0; 2; 3; 4; 1] = Ok (q1 tr);
  run_k2 : split_heads (k1 tr) (num_heads self) = Ok (k2 tr);
  run_v2 : split_heads (v1 tr) (num_heads self) = Ok (v2 tr);
  run_q2 : split_heads (q1 tr) (num_heads self) = Ok (q2 tr);
  run_k3 : flatten (k2 tr) 0 4 = Ok (k3 tr);
  run_v3 : flatten (v2 tr) 0 4 = Ok (v3 tr);
  run_q3 : flatten (q2 tr) 0 4 = Ok (q3 tr);
  run_q4 : q4 tr = div_scalar (q3 tr) (_scale self);
  run_A0 : exists kT, transpose (k3 tr) 0 1 = Ok kT /\
                      matmul (q4 tr) kT = Ok (A0 tr);
  run_A1 : softmax (A0 tr) 1 = Ok (A1 tr);
  run_A2 : dropout_call (attention_dropout self) (A1 tr) g = Ok (A2 tr, g');
  run_O0 : matmul (A2 tr) (v3 tr) = Ok (O0 tr);
  run_O1 : exists Batch Dq Hq Wq c,
      shape_at (q1 tr) 0 = Ok Batch /\ shape_at (q1 tr) 1 = Ok Dq /\
      shape_at (q1 tr) 2 = Ok Hq /\ shape_at (q1 tr) 3 = Ok Wq /\
      shape_last (v3 tr) = Ok c /\
      view (O0 tr) [Z.of_nat Batch; Z.of_nat Dq; Z.of_nat Hq; Z.of_nat Wq;
                    (Z.of_nat c * num_heads self)%Z] = Ok (O1 tr);
  run_O2 : permute (O1 tr) [0; 4; 1; 2; 3] = Ok (O2 tr);
  run_O3 : conv_call (outputConv self) (O2 tr) None = Ok (O3 tr)
}.

(** The shapes of the values of a run on an input [B, _, D, H, W], for a
    layer with [n] heads, [ck] key channels, [cv] value channels and [co]
    output channels whose query has the spatial extents [Dq, Hq, Wq]. *)
Record trace_shapes (tr : Trace) (B D H W Dq Hq Wq n ck cv co : nat)
  : Prop := mkShapes {
  sh_q0 : shape (q0 tr) = [B; ck; Dq; Hq; Wq];
  sh_k0 : shape (k0 tr) = [B; ck; D; H; W];
  sh_v0 : shape (v0 tr) = [B; cv; D; H; W];
  sh_k1 : shape (k1 tr) = [B; D; H; W; ck];
  sh_v1 : shape (v1 tr) = [B; D; H; W; cv];
  sh_q1 : shape (q1 tr) = [B; Dq; Hq; Wq; ck];
  sh_k2 : shape (k2 tr) = [B; D; H; W; n; ck / n];
  sh_v2 : shape (v2 tr) = [B; D; H; W; n; cv / n];
  sh_q2 : shape (q2 tr) = [B; Dq; Hq; Wq; n; ck / n];
  sh_k3 : shape (k3 tr) = [B * D * H * W * n; ck / n];
  sh_v3 : shape (v3 tr) = [B * D * H * W * n; cv / n];
  sh_q3 : shape (q3 tr) = [B * Dq * Hq * Wq * n; ck / n];
  sh_q4 : shape (q4 tr) = [B * Dq * Hq * Wq * n; ck / n];
  sh_A0 : shape (A0 tr) = [B * Dq * Hq * Wq * n; B * D * H * W * n];
  sh_A1 : shape (A1 tr) = [B * Dq * Hq * Wq * n; B * D * H * W * n];
  sh_A2 : shape (A2 tr) = [B * Dq * Hq * Wq * n; B * D * H * W * n];
  sh_O0 : shape (O0 tr) = [B * Dq * Hq * Wq * n; cv / n];
  sh_O1 : shape (O1 tr) = [B; Dq; Hq; Wq; cv];
  sh_O2 : shape (O2 tr) = [B; cv; Dq; Hq; Wq];
  sh_O3 : shape (O3 tr) = [B; co; Dq; Hq; Wq]
}.

(** The counts a layer is built with are positive. *)
Definition positive_counts (ic kf vf ofl nh : Z) : Prop :=
  (0 < ic /\ 0 < kf /\ 0 < vf /\ 0 < ofl /\ 0 < nh)%Z.

(** [x] is a volume [B, C, D, H, W] with positive spatial extents. *)
Definition volume (x : Tensor) (B C D H W : nat) : Prop :=
  wf x /\ shape x = [B; C; D; H; W] /\ 0 < D /\ 0 < H /\ 0 < W.

(** The extent the specification gives for a DOWN layer:
    floor((d + 2*1 - 3) / 2) + 1. *)
Definition halved (d : nat) : nat :=
  Z.to_nat ((Z.of_nat d + 2 * 1 - 3) / 2 + 1).

(** Number of rows and of columns of a matrix. *)
Definition rows (t : Tensor) : nat := ix (shape t) 0.

Definition cols (t : Tensor) : nat := ix (shape t) 1.

(** Dropout is switched off: its probability is zero, or the layer is in
    evaluation mode. *)
Definition no_dropout (self : multi_head_attention_3d) : Prop :=
  Qeq_bool (dropout_p (attention_dropout self)) 0 = true \/
  dropout_training (attention_dropout self) = false.

(** What a call returns or raises, without the generator. *)
Definition outcome {A} (r : result (A * Generator)) : result A :=
  match r with
  | Ok (a, _) => Ok a
  | Raise e => Raise e
  end.

(** ** A call in the heap

    A Python tensor is an object and a variable holds a reference to it.
    The caller's [inputs], the parameters of the four projections and every
    value [forward] creates live in one heap, and an operation that writes
    in place is seen through every reference to the object it writes.
    What follows is [forward] once more, statement by statement, on
    references: every attribute read, every object read, created or written
    is a step of its own. *)

(** A reference is the position of an object in the heap. *)
Definition ref : Type := nat.

(** A convolution module as an object: its two parameters are references. *)
Record ConvObj : Type := mkConvObj {
  obj_transposed : bool;
  obj_in_channels : Z;
  obj_out_channels : Z;
  obj_kernel_size : nat;
  obj_stride : nat;
  obj_padding : nat;
  obj_weight : ref;
  obj_bias : ref
}.

(** The dropout module.  [nn.Dropout] also carries the flag [inplace],
    which [nn.Dropout(p)] leaves [False]. *)
Record DropoutObj : Type := mkDropoutObj {
  obj_p : Q;
  obj_inplace : bool;
  obj_training : bool
}.

(** The attributes of the layer object. *)
Record LayerObj : Type := mkLayerObj {
  obj_num_heads : Z;
  obj_layer_type : string;
  obj_QueryTransform : option ConvObj;
  obj_KeyTransform : ConvObj;
  obj_ValueTransform : ConvObj;
  obj_attention_dropout : DropoutObj;
  obj_outputConv : ConvObj;
  obj_scale : R;
  obj_flag : bool
}.

(** All a call can reach: the layer object [self], the heap of tensors and
    the generator. *)
Record Machine : Type := mkMachine {
  this : LayerObj;
  heap : list Tensor;
  rng : Generator
}.

(** A computation on the machine.  The state is returned also when an
    exception is raised: what was written before stays written. *)
Definition Run (A : Type) : Type := Machine -> result A * Machine.

Definition unit_ {A} (a : A) : Run A := fun m => (Ok a, m).

Definition then_ {A B} (c : Run A) (k : A -> Run B) : Run B :=
  fun m =>
    match c m with
    | (Ok a, m') => k a m'
    | (Raise e, m') => (Raise e, m')
    end.

Notation "x <== e ;; k" := (then_ e (fun x => k))
  (at level 100, e at next level, right associativity).

(** A library function that reads no object and writes none. *)
Definition pure {A} (r : result A) : Run A := fun m => (r, m).

(** [self.f] *)
Definition attr {A} (f : LayerObj -> A) : Run A :=
  fun m => (Ok (f (this m)), m).

(** Reading the object behind a reference.  (A reference always refers to
    an object; outside the heap the read fails.) *)
Definition load (l : ref) : Run Tensor :=
  fun m =>
    match nth_error (heap m) l with
    | Some t => (Ok t, m)
    | None => (Raise UnboundLocalError, m)
    end.

(** Creating an object: the new reference is the next free position. *)
Definition new (t : Tensor) : Run ref :=
  fun m => (Ok (length (heap m)), mkMachine (this m) (heap m ++ [t]) (rng m)).

(** Writing an object in place. *)
Fixpoint set_cell (h : list Tensor) (l : ref) (t : Tensor) : list Tensor :=
  match h, l with
  | [], _ => []
  | _ :: h', O => t :: h'
  | a :: h', S l' => a :: set_cell h' l' t
  end.

Definition overwrite (l : ref) (t : Tensor) : Run unit :=
  fun m => (Ok tt, mkMachine (this m) (set_cell (heap m) l t) (rng m)).

(** A library function that draws from the generator. *)
Definition sample {A} (c : M A) : Run A :=
  fun m =>
    match c (rng m) with
    | Ok (a, g') => (Ok a, mkMachine (this m) (heap m) g')
    | Raise e => (Raise e, m)
    end.

(** A function of one tensor, respectively of two, that returns a new
    tensor.  ([permute], [view], [transpose] and [flatten] return a tensor
    that shares its elements with their argument; [forward] writes neither,
    and the result is held here as an object of its own.) *)
Definition op1 (f : Tensor -> result Tensor) (x : ref) : Run ref :=
  t <== load x ;;
  r <== pure (f t) ;;
  new r.

Definition op2 (f : Tensor -> Tensor -> result Tensor) (x y : ref)
  : Run ref :=
  a <== load x ;;
  b <== load y ;;
  r <== pure (f a b) ;;
  new r.

(** [x.shape[i]] and [x.shape[-1]] *)
Definition shape_of (x : ref) (i : nat) : Run nat :=
  t <== load x ;;
  pure (shape_at t i).

Definition shape_last_of (x : ref) : Run nat :=
  t <== load x ;;
  pure (shape_last t).

(** Calling a convolution module: it reads its weight, its bias and its
    argument, and returns a new tensor. *)
Definition conv_obj_call (c : ConvObj) (x : ref)
                         (output_size : option (nat * nat * nat)) : Run ref :=
  w <== load (obj_weight c) ;;
  b <== load (obj_bias c) ;;
  t <== load x ;;
  r <== pure (conv_call (mkConv (obj_transposed c) (obj_in_channels c)
                                (obj_out_channels c) (obj_kernel_size c)
                                (obj_stride c) (obj_padding c) w b)
                        t output_size) ;;
  new r.

(** Calling the dropout module: with [inplace] it writes the masked values
    into its argument and returns the argument, otherwise it returns a new
    tensor. *)
Definition dropout_obj_call (d : DropoutObj) (x : ref) : Run ref :=
  t <== load x ;;
  r <== sample (dropout_call (mkDropout (obj_p d) (obj_training d)) t) ;;
  if obj_inplace d then
    _ <== overwrite x r ;;
    unit_ x
  else new r.

(** The first statement of [forward] on references. *)
Definition project_query_run (inputs : ref) : Run (option ref) :=
  lt <== attr obj_layer_type ;;
  if (String.eqb lt "SAME") || (String.eqb lt "DOWN") then
    qt <== attr obj_QueryTransform ;;
    m <== pure (callable qt) ;;
    r <== conv_obj_call m inputs None ;;
    unit_ (Some r)
  else if String.eqb lt "UP" then
    d <== shape_of inputs 2 ;;
    h <== shape_of inputs 3 ;;
    w <== shape_of inputs 4 ;;
    qt <== attr obj_QueryTransform ;;
    m <== pure (callable qt) ;;
    r <== conv_obj_call m inputs (Some (d * 2, h * 2, w * 2)) ;;
    unit_ (Some r)
  else unit_ None.

(** [forward(inputs)] on references; the result is the reference [O] is
    bound to at the [return]. *)
Definition forward_run (inputs : ref) : Run ref :=
  q <== project_query_run inputs ;;
  km <== attr obj_KeyTransform ;;
  k0 <== conv_obj_call km inputs None ;;
  k1 <== op1 (fun t => permute t [0; 2; 3; 4; 1]) k0 ;;
  vm <== attr obj_ValueTransform ;;
  v0 <== conv_obj_call vm inputs None ;;
  v1 <== op1 (fun t => permute t [0; 2; 3; 4; 1]) v0 ;;
  q0 <== pure (bound q) ;;
  q1 <== op1 (fun t => permute t [0; 2; 3; 4; 1]) q0 ;;
  Batch <== shape_of q1 0 ;;
  Dq <== shape_of q1 1 ;;
  Hq <== shape_of q1 2 ;;
  Wq <== shape_of q1 3 ;;
  nk <== attr obj_num_heads ;;
  k2 <== op1 (fun t => split_heads t nk) k1 ;;
  nv <== attr obj_num_heads ;;
  v2 <== op1 (fun t => split_heads t nv) v1 ;;
  nq <== attr obj_num_heads ;;
  q2 <== op1 (fun t => split_heads t nq) q1 ;;
  k3 <== op1 (fun t => flatten t 0 4) k2 ;;
  v3 <== op1 (fun t => flatten t 0 4) v2 ;;
  q3 <== op1 (fun t => flatten t 0 4) q2 ;;
  s <== attr obj_scale ;;
  q4 <== op1 (fun t => Ok (div_scalar t s)) q3 ;;
  kT <== op1 (fun t => transpose t 0 1) k3 ;;
  A0 <== op2 matmul q4 kT ;;
  A1 <== op1 (fun t => softmax t 1) A0 ;;
  dm <== attr obj_attention_dropout ;;
  A2 <== dropout_obj_call dm A1 ;;
  O0 <== op2 matmul A2 v3 ;;
  c <== shape_last_of v3 ;;
  n <== attr obj_num_heads ;;
  channels <== pure (py_size (Z.of_nat c * n)) ;;
  O1 <== op1 (fun t => view t [Z.of_nat Batch; Z.of_nat Dq; Z.of_nat Hq;
                               Z.of_nat Wq; channels]) O0 ;;
  O2 <== op1 (fun t => permute t [0; 4; 1; 2; 3]) O1 ;;
  om <== attr obj_outputConv ;;
  O3 <== conv_obj_call om O2 None ;;
  unit_ O3.

(** The machine a caller sets up for [net(inputs)]: the parameters of the
    key, value and output projections at the references 0 to 5, the input
    at 6, and the parameters of the query projection, when the layer has
    one, at 7 and 8. *)
Definition conv_obj (c : ConvNd) (w b : ref) : ConvObj :=
  mkConvObj (transposed c) (in_channels c) (out_channels c) (kernel_size c)
            (stride c) (padding c) w b.

Definition input_ref : ref := 6.

Definition boot (self : multi_head_attention_3d) (inputs : Tensor)
                (g : Generator) : Machine :=
  mkMachine
    (mkLayerObj (num_heads self) (layer_type self)
       (match QueryTransform self with
        | Some c => Some (conv_obj c 7 8)
        | None => None
        end)
       (conv_obj (KeyTransform self) 0 1)
       (conv_obj (ValueTransform self) 2 3)
       (mkDropoutObj (dropout_p (attention_dropout self)) false
                     (dropout_training (attention_dropout self)))
       (conv_obj (outputConv self) 4 5)
       (_scale self) (training self))
    ([weight (KeyTransform self); bias (KeyTransform self);
      weight (ValueTransform self); bias (ValueTransform self);
      weight (outputConv self); bias (outputConv self);
      inputs]
     ++ match QueryTransform self with
        | Some c => [weight c; bias c]
        | None => []
        end)
    g.

(** The part of a machine a call must leave as it found it: the layer
    object and the objects that existed before the call. *)
Definition kept (m m' : Machine) : Prop :=
  this m' = this m /\
  length (heap m) <= length (heap m') /\
  forall l, l < length (heap m) ->
            nth_error (heap m') l = nth_error (heap m) l.

(** The generator is as it was, or its cursor has advanced, which happens
    only for a dropout module in training mode with a probability other
    than zero. *)
Definition rng_effect (m m' : Machine) : Prop :=
  rng m' = rng m \/
  exists k, rng m' = advance (rng m) k /\
            obj_training (obj_attention_dropout (this m)) = true /\
            Qeq_bool (obj_p (obj_attention_dropout (this m))) 0 = false.

(** A computation started in a machine that differs from [m0] by such
    effects only ends in one, whether it returns or raises, and what it
    returns satisfies [Q]. *)
Definition frame_safe {A} (m0 : Machine) (c : Run A) (Q : A -> Prop) : Prop :=
  forall m, kept m0 m -> rng_effect m0 m ->
            kept m0 (snd (c m)) /\ rng_effect m0 (snd (c m)) /\
            forall a, fst (c m) = Ok a -> Q a.

(** The [b]-th block of [n] consecutive elements of a list. *)
Definition block (n b : nat) (l : list R) : list R :=
  firstn n (skipn (b * n) l).

(** The elements of batch element [i] of a tensor whose first axis is the
    batch. *)
Definition batch_elem (t : Tensor) (i : nat) : list R :=
  block (numel t / ix (shape t) 0) i (data t).

(** The [b]-th block of [m] consecutive rows of a matrix. *)
Definition row_block (t : Tensor) (m b : nat) : list R :=
  block (m * cols t) b (data t).

(** A generator whose fifth and seventh draws are 1/2 and whose other draws
    are 0.  The layer with one channel everywhere built from it has a zero
    query and key projection, and a value and an output projection that
    halve their argument. *)
Definition gen_half : Generator :=
  mkGenerator (fun n => if (n =? 4) || (n =? 6) then (1 / 2)%R else 0%R)
              (fun _ _ => true) 0.

(** Two batches of two one-voxel volumes that agree on their element 0. *)
Definition batch_a : Tensor := mkTensor [2; 1; 1; 1; 1] [0%R; 0%R].

Definition batch_b : Tensor := mkTensor [2; 1; 1; 1; 1] [0%R; 2%R].


(** ** Vocabulary of the further statements *)

(** A call raises an exception, respectively a [RuntimeError]. *)
Definition raises {A} (r : result A) : Prop := exists e, r = Raise e.

Definition raises_RuntimeError {A} (r : result A) : Prop :=
  exists msg, r = Raise (RuntimeError msg).

(** The number of values a convolution module holds in its weight and its
    bias, and the number of parameter values of the layer: those of its
    four projections. *)
Definition conv_numel (m : ConvNd) : nat := numel (weight m) + numel (bias m).

Definition num_parameters (self : multi_head_attention_3d) : nat :=
  match QueryTransform self with
  | Some q => conv_numel q
  | None => 0
  end
  + conv_numel (KeyTransform self)
  + conv_numel (ValueTransform self)
  + conv_numel (outputConv self).

(** The weight and the bias of a module hold as many values as their shapes
    say. *)
Definition conv_wf (m : ConvNd) : Prop := wf (weight m) /\ wf (bias m).

(** Kernel extent of the query projection, by layer type. *)
Definition query_kernel (lt : string) : nat :=
  if String.eqb lt "SAME" then 1 else 3.

(** The row of the flattened matrices that holds head [a] of the position
    [(d, h, w)] of batch element [b], for a volume of extents [D, H, W]
    split into [n] heads. *)
Definition head_row (D H W n b d h w a : nat) : nat :=
  (((b * D + d) * H + h) * W + w) * n + a.

(** One element of the result of a convolution of kernel 1: the bias plus
    the weighted sum over the [cin] input channels at the same position. *)
Definition pointwise (m : ConvNd) (x : Tensor) (cin b c d h w : nat) : R :=
  Rplus (get (bias m) [c])
        (sum_upto cin (fun ci =>
           Rmult (get x [b; ci; d; h; w]) (get (weight m) [c; ci; 0; 0; 0]))).

(** [net.layer_type = s]: the attribute assigned after construction. *)
Definition set_layer_type (s : string) (self : multi_head_attention_3d)
  : multi_head_attention_3d :=
  mkLayer (num_heads self) s (QueryTransform self)
          (KeyTransform self) (ValueTransform self)
          (attention_dropout self) (outputConv self) (_scale self)
          (training self).

(** ** The script at the end of the file *)

(** [torch.rand(d0, d1, ...)]: a fresh tensor of uniform draws. *)
Definition rand (s : list nat) : M Tensor := draw s.

(** [t.unsqueeze(dim)] for [dim >= 0]: an axis of extent 1 is inserted
    before axis [dim]. *)
Definition unsqueeze (t : Tensor) (dim : nat) : result Tensor :=
  if dim <=? length (shape t) then
    Ok (mkTensor (firstn dim (shape t) ++ 1 :: skipn dim (shape t)) (data t))
  else Raise IndexError.

(** The statements under [if __name__ == '__main__']; moving a tensor to
    the device [cpu] returns the tensor.  The value is the shape the last
    statement prints. *)
Definition main : M (list nat) :=
  t <~ rand [1; 2; 6; 6] ;;
  inputs <-- unsqueeze t 0 ;;
  net <~ __init__ 1 2 2 3 1 (1 # 2) "UP" ;;
  res <~ forward net inputs ;;
  ret (shape res).

(** * Properties *)

Unset Implicit Arguments.

(** ** The monads *)

Lemma bind_lift_Ok A B (r : result A) (a : A) (k : A -> M B) (g : Generator) :
  r = Ok a -> bind (lift r) k g = k a g.
Proof. intros ->. reflexivity. Qed.

Lemma bind_lift_Raise A B (r : result A) e (k : A -> M B) (g : Generator) :
  r = Raise e -> bind (lift r) k g = Raise e.
Proof. intros ->. reflexivity. Qed.

Lemma bind_Ok A B (m : M A) (a : A) (k : A -> M B) (g g' : Generator) :
  m g = Ok (a, g') -> bind m k g = k a g'.
Proof. unfold bind. intros ->. reflexivity. Qed.

Lemma rbind_Ok A B (r : result A) (a : A) (k : A -> result B) :
  r = Ok a -> rbind r k = k a.
Proof. intros ->. reflexivity. Qed.

(** Run the next statement of a monadic body with a known outcome [H]. *)
Tactic Notation "run" uconstr(H) :=
  first [ erewrite bind_lift_Ok by (refine H)
        | erewrite bind_Ok by (refine H)
        | erewrite rbind_Ok by (refine H) ].

(** Evaluate a call on concrete tensors, leaving the real arithmetic. *)
Ltac evaluate :=
  lazy -[exp sqrt Rplus Rmult Rdiv Rinv Rminus Ropp IZR Q2R].

(** ** Construction *)

Lemma str_in_In s l : str_in s l = true <-> In s l.
Proof.
  unfold str_in. rewrite existsb_exists. split.
  - intros (x & Hx & E). apply String.eqb_eq in E. now subst.
  - intros H. exists s. split; [assumption | apply String.eqb_refl].
Qed.

Lemma str_in_not_In s l : str_in s l = false <-> ~ In s l.
Proof.
  rewrite <- str_in_In. destruct (str_in s l); split; intros; congruence.
Qed.

Lemma py_mod_nonzero a b : b <> 0%Z -> py_mod a b = Ok (a mod b)%Z.
Proof. intros H. unfold py_mod. apply Z.eqb_neq in H. now rewrite H. Qed.

Lemma py_floordiv_nonzero a b : b <> 0%Z -> py_floordiv a b = Ok (a / b)%Z.
Proof. intros H. unfold py_floordiv. apply Z.eqb_neq in H. now rewrite H. Qed.

Lemma fits_int64_count z :
  (0 <= z)%Z -> (z <= int64_max)%Z -> fits_int64 z = true.
Proof.
  intros H0 H1. unfold fits_int64, int64_min.
  apply andb_true_intro. split; apply Z.leb_le; lia.
Qed.

Lemma fits_int64_iff z :
  fits_int64 z = true <-> (int64_min <= z <= int64_max)%Z.
Proof.
  unfold fits_int64. rewrite andb_true_iff, !Z.leb_le. tauto.
Qed.

Lemma py_size_Ok z :
  (int64_min <= z <= int64_max)%Z -> py_size z = Ok z.
Proof.
  intros H. unfold py_size. now rewrite (proj2 (fits_int64_iff z) H).
Qed.

Lemma py_size_inv z v : py_size z = Ok v -> v = z.
Proof.
  unfold py_size. destruct (fits_int64 z); [| discriminate].
  intros E. now injection E.
Qed.

Lemma py_size_TypeError z :
  (z < int64_min \/ int64_max < z)%Z -> py_size z = Raise TypeError.
Proof.
  intros H. unfold py_size.
  destruct (fits_int64 z) eqn:E; [| reflexivity].
  apply fits_int64_iff in E. lia.
Qed.

Lemma Conv3d_Ok cin cout k s p g :
  channel_count cin -> channel_count cout ->
  Conv3d cin cout k s p g =
  Ok (mkConv false cin cout k s p
        (mkTensor [Z.to_nat cout; Z.to_nat cin; k; k; k]
           (map (fun i => uniform g (cursor g + i))
              (seq 0 (numel_of [Z.to_nat cout; Z.to_nat cin; k; k; k]))))
        (mkTensor [Z.to_nat cout]
           (map (fun i =>
                   uniform g
                     (cursor g
                      + numel_of [Z.to_nat cout; Z.to_nat cin; k; k; k] + i))
              (seq 0 (numel_of [Z.to_nat cout])))),
      advance g (numel_of [Z.to_nat cout; Z.to_nat cin; k; k; k]
                 + numel_of [Z.to_nat cout])).
Proof.
  intros (Hi & Hi') (Ho & Ho'). unfold Conv3d.
  rewrite (fits_int64_count _ Hi Hi'), (fits_int64_count _ Ho Ho').
  cbn [andb negb].
  apply Z.ltb_ge in Hi, Ho. rewrite Hi, Ho. cbn [orb].
  unfold bind, draw, ret, advance. cbn [uniform coin cursor].
  now rewrite Nat.add_assoc.
Qed.

Lemma ConvTranspose3d_Ok cin cout k s p g :
  channel_count cin -> channel_count cout ->
  ConvTranspose3d cin cout k s p g =
  Ok (mkConv true cin cout k s p
        (mkTensor [Z.to_nat cin; Z.to_nat cout; k; k; k]
           (map (fun i => uniform g (cursor g + i))
              (seq 0 (numel_of [Z.to_nat cin; Z.to_nat cout; k; k; k]))))
        (mkTensor [Z.to_nat cout]
           (map (fun i =>
                   uniform g
                     (cursor g
                      + numel_of [Z.to_nat cin; Z.to_nat cout; k; k; k] + i))
              (seq 0 (numel_of [Z.to_nat cout])))),
      advance g (numel_of [Z.to_nat cin; Z.to_nat cout; k; k; k]
                 + numel_of [Z.to_nat cout])).
Proof.
  intros (Hi & Hi') (Ho & Ho'). unfold ConvTranspose3d.
  rewrite (fits_int64_count _ Hi Hi'), (fits_int64_count _ Ho Ho').
  cbn [andb negb].
  apply Z.ltb_ge in Hi, Ho. rewrite Hi, Ho. cbn [orb].
  unfold bind, draw, ret, advance. cbn [uniform coin cursor].
  now rewrite Nat.add_assoc.
Qed.




Lemma Dropout_new_Ok p :
  (0 <= p)%Q -> (p <= 1)%Q -> Dropout_new p = Ok (mkDropout p true).
Proof.
  intros H0 H1. unfold Dropout_new.
  apply Qle_bool_iff in H0, H1. now rewrite H0, H1.
Qed.

Lemma init_checks ic kf vf ofl nh p lt g :
  nh <> 0%Z ->
  __init__ ic kf vf ofl nh p lt g =
  if negb (kf mod nh =? 0)%Z then Raise (ValueError (key_depth_msg kf nh))
  else if negb (vf mod nh =? 0)%Z then
    Raise (ValueError (value_depth_msg vf nh))
  else if negb (str_in lt ["SAME"; "DOWN"; "UP"]) then
    Raise (ValueError (layer_type_msg lt))
  else allocate ic kf vf ofl nh p lt g.
Proof.
  intros Hnh. unfold __init__.
  run (py_mod_nonzero kf nh Hnh).
  destruct (negb (kf mod nh =? 0)%Z); [reflexivity |].
  run (py_mod_nonzero vf nh Hnh).
  destruct (negb (vf mod nh =? 0)%Z); [reflexivity |].
  destruct (negb (str_in lt ["SAME"; "DOWN"; "UP"])); reflexivity.
Qed.


Lemma allocate_Ok ic kf vf ofl nh p lt g :
  nh <> 0%Z -> known_layer_type lt ->
  channel_count ic -> channel_count kf -> channel_count vf ->
  channel_count ofl ->
  (0 <= p)%Q -> (p <= 1)%Q ->
  exists self g', allocate ic kf vf ofl nh p lt g = Ok (self, g').
Proof.
  intros Hnh Hlt Hic Hkf Hvf Hof H0 H1. unfold allocate.
  assert (Hq : exists q g1,
             (if String.eqb lt "SAME" then
                c <~ Conv3d ic kf 1 1 0 ;; ret (Some c)
              else if String.eqb lt "DOWN" then
                c <~ Conv3d ic kf 3 2 1 ;; ret (Some c)
              else if String.eqb lt "UP" then
                c <~ ConvTranspose3d ic kf 3 2 1 ;; ret (Some c)
              else ret None) g = Ok (q, g1)).
  { destruct Hlt as [<- | [<- | [<- | []]]]; cbn [String.eqb Ascii.eqb Bool.eqb].
    - run (Conv3d_Ok ic kf 1 1 0 g Hic Hkf). eexists _, _. reflexivity.
    - run (Conv3d_Ok ic kf 3 2 1 g Hic Hkf). eexists _, _. reflexivity.
    - run (ConvTranspose3d_Ok ic kf 3 2 1 g Hic Hkf).
      eexists _, _. reflexivity. }
  destruct Hq as (q & g1 & Hq). run Hq.
  run (Conv3d_Ok ic kf 1 1 0 g1 Hic Hkf).
  run (Conv3d_Ok ic vf 1 1 0 _ Hic Hvf).
  run (Dropout_new_Ok p H0 H1).
  run (Conv3d_Ok vf ofl 1 1 0 _ Hvf Hof).
  run (py_floordiv_nonzero kf nh Hnh).
  eexists _, _. reflexivity.
Qed.

Lemma construct_checks ic kf vf ofl nh p lt g :
  nh <> 0%Z ->
  construct ic kf vf ofl nh p lt g =
  if negb (kf mod nh =? 0)%Z then Raise (ValueError (key_depth_msg kf nh))
  else if negb (vf mod nh =? 0)%Z then
    Raise (ValueError (value_depth_msg vf nh))
  else if negb (str_in lt ["SAME"; "DOWN"; "UP"]) then
    Raise (ValueError (layer_type_msg lt))
  else match allocate ic kf vf ofl nh p lt g with
       | Ok (self, _) => Ok self
       | Raise e => Raise e
       end.
Proof.
  intros Hnh. unfold construct. rewrite (init_checks _ _ _ _ _ _ _ _ Hnh).
  destruct (negb (kf mod nh =? 0)%Z); [reflexivity |].
  destruct (negb (vf mod nh =? 0)%Z); [reflexivity |].
  destruct (negb (str_in lt ["SAME"; "DOWN"; "UP"])); reflexivity.
Qed.

(** C10.  With [num_heads = 0] the constructor raises [ZeroDivisionError],
    for every value of the other arguments: the exception comes from the
    first check, [key_filters % num_heads], it is not a [ValueError], and
    none of the three validation messages is produced. *)
Theorem C10_zero_heads_raise_ZeroDivisionError
        (ic kf vf ofl : Z) (p : Q) (lt : string) (g : Generator) :
  py_mod kf 0 = Raise ZeroDivisionError /\
  __init__ ic kf vf ofl 0 p lt g = Raise ZeroDivisionError /\
  construct ic kf vf ofl 0 p lt g = Raise ZeroDivisionError /\
  ~ raises_ValueError (construct ic kf vf ofl 0 p lt g).
Proof.
  repeat split; try reflexivity.
  intros (msg & H). discriminate H.
Qed.




(** The constructions the specification lists as failing. *)
Example construct_key_filters_3_heads_2 :
  construct 4 3 4 8 2 (1 # 2) "SAME" gen0
  = Raise (ValueError
      "Key depth (3) must be divisible by the number of attention heads (2).").
Proof. reflexivity. Qed.

Example construct_value_filters_5_heads_2 :
  construct 4 4 5 8 2 (1 # 2) "SAME" gen0
  = Raise (ValueError
      "Value depth (5) must be divisible by the number of attention heads (2).").
Proof. reflexivity. Qed.

Example construct_SIDEWAYS :
  construct 4 4 4 8 2 (1 # 2) "SIDEWAYS" gen0
  = Raise (ValueError "Layer type (SIDEWAYS) must be one of SAME, DOWN, UP.").
Proof. reflexivity. Qed.

(** The key check comes first: when both divisibility checks fail, the
    message is the one of the key depth. *)
Example construct_both_indivisible :
  construct 4 3 5 8 2 (1 # 2) "SIDEWAYS" gen0
  = Raise (ValueError
      "Key depth (3) must be divisible by the number of attention heads (2).").
Proof. reflexivity. Qed.

(** ** Index arithmetic *)

Lemma shape_tabulate s f : shape (tabulate s f) = s.
Proof. reflexivity. Qed.

Lemma wf_tabulate s f : wf (tabulate s f).
Proof. unfold wf, numel, tabulate. cbn. now rewrite length_map, length_seq. Qed.

Lemma numel_of_cons d s : numel_of (d :: s) = d * numel_of s.
Proof. reflexivity. Qed.

Lemma ravel_lt s : forall idx, Forall2 lt idx s -> ravel s idx < numel_of s.
Proof.
  induction s as [| d s IH]; intros idx H;
    inversion H as [| i d' idx' s' Hi Hrest]; subst;
    cbn [ravel]; rewrite ?numel_of_cons.
  - cbn. lia.
  - specialize (IH _ Hrest).
    assert (i * numel_of s + numel_of s <= d * numel_of s)
      by (replace (i * numel_of s + numel_of s) with (S i * numel_of s) by lia;
          apply Nat.mul_le_mono_r; lia).
    lia.
Qed.

Lemma unravel_ravel s :
  forall idx, Forall2 lt idx s -> unravel s (ravel s idx) = idx.
Proof.
  induction s as [| d s IH]; intros idx H;
    inversion H as [| i d' idx' s' Hi Hrest]; subst; cbn [ravel unravel].
  - reflexivity.
  - pose proof (ravel_lt _ _ Hrest) as Hlt.
    assert (Hn : numel_of s <> 0) by lia.
    rewrite Nat.div_add_l by assumption.
    rewrite (Nat.div_small _ _ Hlt), Nat.add_0_r.
    rewrite Nat.add_comm, Nat.Div0.mod_add, (Nat.mod_small _ _ Hlt).
    now rewrite IH.
Qed.

Lemma nth_map_seq (f : nat -> R) n j d :
  j < n -> nth j (map f (seq 0 n)) d = f j.
Proof.
  intros H. rewrite (nth_indep _ d (f 0)) by now rewrite length_map, length_seq.
  rewrite map_nth. now rewrite seq_nth.
Qed.

Lemma get_tabulate s f idx :
  Forall2 lt idx s -> get (tabulate s f) idx = f idx.
Proof.
  intros H. unfold get, tabulate. cbn [shape data].
  rewrite nth_map_seq by now apply ravel_lt.
  now rewrite unravel_ravel.
Qed.

Lemma get_tabulate2 n m f r j :
  r < n -> j < m -> get (tabulate [n; m] f) [r; j] = f [r; j].
Proof. intros Hr Hj. apply get_tabulate. repeat constructor; assumption. Qed.

(** ** Sums *)

Lemma sum_upto_S n f : sum_upto (S n) f = (sum_upto n f + f n)%R.
Proof.
  unfold sum_upto. rewrite seq_S, map_app. cbn [map Nat.add].
  induction (map f (seq 0 n)) as [| x l IH]; cbn.
  - lra.
  - unfold rsum in IH. rewrite IH. lra.
Qed.

Lemma sum_upto_0 f : sum_upto 0 f = 0%R.
Proof. reflexivity. Qed.

Lemma sum_upto_ext n f h :
  (forall j, j < n -> f j = h j) -> sum_upto n f = sum_upto n h.
Proof.
  induction n as [| n IH]; intros H.
  - reflexivity.
  - rewrite !sum_upto_S, IH, (H n) by (intros; try apply H; lia). reflexivity.
Qed.

Lemma sum_upto_div n f c :
  sum_upto n (fun j => (f j / c)%R) = (sum_upto n f / c)%R.
Proof.
  induction n as [| n IH].
  - rewrite !sum_upto_0. unfold Rdiv. lra.
  - rewrite !sum_upto_S, IH. unfold Rdiv. lra.
Qed.

(** ** The library operations on small tensors *)

Example permute_channel_last_2 :
  permute (mkTensor [1; 2; 1; 1; 2] [1; 2; 3; 4]%R) [0; 2; 3; 4; 1]
  = Ok (mkTensor [1; 1; 1; 2; 2] [1; 3; 2; 4]%R).
Proof. reflexivity. Qed.

Example transpose_2_by_3 :
  transpose (mkTensor [2; 3] [1; 2; 3; 4; 5; 6]%R) 0 1
  = Ok (mkTensor [3; 2] [1; 4; 2; 5; 3; 6]%R).
Proof. reflexivity. Qed.

Example matmul_2_by_2 :
  matmul (mkTensor [2; 2] [1; 2; 3; 4]%R) (mkTensor [2; 1] [5; 6]%R)
  = Ok (mkTensor [2; 1] [17; 39]%R).
Proof. evaluate. repeat f_equal; ring. Qed.

(** A strided convolution: kernel 3, stride 2, padding 1, all weights 1. *)
Example conv3d_strided :
  conv3d (mkTensor [1; 1; 1; 1; 4] [1; 2; 3; 4]%R) (ones [1; 1; 3; 3; 3])
         (mkTensor [1] [0%R]) 2 1
  = Ok (mkTensor [1; 1; 1; 1; 2] [3; 9]%R).
Proof. evaluate. repeat f_equal; ring. Qed.

(** The transposed convolution of the same geometry, with the doubled
    extents requested as output size. *)
Example conv_transpose_doubling :
  conv_call (mkConv true 1 1 3 2 1 (ones [1; 1; 3; 3; 3]) (mkTensor [1] [0%R]))
            (mkTensor [1; 1; 1; 1; 2] [1; 2]%R) (Some (2, 2, 4))
  = Ok (mkTensor [1; 1; 2; 2; 4]
          [1; 3; 2; 2; 1; 3; 2; 2; 1; 3; 2; 2; 1; 3; 2; 2]%R).
Proof. evaluate. repeat f_equal; ring. Qed.

Example split_heads_of_4_channels :
  split_heads (mkTensor [1; 1; 1; 2; 4] [1; 2; 3; 4; 5; 6; 7; 8]%R) 2
  = Ok (mkTensor [1; 1; 1; 2; 2; 2] [1; 2; 3; 4; 5; 6; 7; 8]%R).
Proof. reflexivity. Qed.

(** A negative number of heads is refused by [view]. *)
Example split_heads_negative :
  split_heads (mkTensor [1; 1; 1; 2; 4] [1; 2; 3; 4; 5; 6; 7; 8]%R) (-2)
  = Raise (RuntimeError "invalid shape dimension").
Proof. reflexivity. Qed.

(** ** Shapes produced by the library operations *)

Lemma permute_channel_last t a b c d e :
  shape t = [a; b; c; d; e] ->
  exists t', permute t [0; 2; 3; 4; 1] = Ok t' /\ shape t' = [a; c; d; e; b].
Proof.
  intros H. unfold permute. rewrite H. cbn [length is_perm].
  eexists. split; reflexivity.
Qed.

Lemma permute_channel_first t a b c d e :
  shape t = [a; b; c; d; e] ->
  exists t', permute t [0; 4; 1; 2; 3] = Ok t' /\ shape t' = [a; e; b; c; d].
Proof.
  intros H. unfold permute. rewrite H. cbn [length is_perm].
  eexists. split; reflexivity.
Qed.

Lemma transpose_matrix t n m :
  shape t = [n; m] ->
  exists t', transpose t 0 1 = Ok t' /\ shape t' = [m; n].
Proof.
  intros H. unfold transpose, permute. rewrite H. cbn [length].
  eexists. split; reflexivity.
Qed.

Lemma view_nonneg t dims :
  Forall (fun d => (0 <= d)%Z) dims ->
  numel_of (map Z.to_nat dims) = numel t ->
  view t dims = Ok (mkTensor (map Z.to_nat dims) (data t)).
Proof.
  intros Hd Hn. unfold view.
  assert (E1 : existsb (fun d => (d <? -1)%Z) dims = false).
  { clear Hn. induction dims as [| d l IH]; [reflexivity |].
    inversion Hd as [| d' l' H0 Hl]; subst. cbn [existsb].
    rewrite (IH Hl). destruct (Z.ltb_spec d (-1)); [lia | reflexivity]. }
  assert (E2 : count_occ Z.eq_dec dims (-1)%Z = 0).
  { clear Hn E1. induction dims as [| d l IH]; [reflexivity |].
    inversion Hd as [| d' l' H0 Hl]; subst. cbn [count_occ].
    destruct (Z.eq_dec d (-1)); [lia | exact (IH Hl)]. }
  rewrite E1, E2, Hn, Nat.eqb_refl. reflexivity.
Qed.

Lemma flatten_leading t a b c d n e :
  shape t = [a; b; c; d; n; e] ->
  flatten t 0 4 = Ok (mkTensor [numel_of [a; b; c; d; n]; e] (data t)).
Proof. intros H. unfold flatten. rewrite H. reflexivity. Qed.

Lemma matmul_Ok a b n k m :
  shape a = [n; k] -> shape b = [k; m] ->
  matmul a b =
  Ok (tabulate [n; m]
        (fun idx =>
           sum_upto k (fun l =>
             Rmult (get a [ix idx 0; l]) (get b [l; ix idx 1])))).
Proof.
  intros Ha Hb. unfold matmul. rewrite Ha, Hb, Nat.eqb_refl. reflexivity.
Qed.

Lemma softmax_rows_Ok t n m :
  shape t = [n; m] ->
  softmax t 1 =
  Ok (tabulate [n; m]
        (fun idx =>
           Rdiv (exp (get t idx))
                (sum_upto m (fun j => exp (get t (set_nth idx 1 j)))))).
Proof. intros H. unfold softmax. rewrite H. reflexivity. Qed.

Lemma dropout_call_Ok m x g :
  exists y g', dropout_call m x g = Ok (y, g') /\ shape y = shape x.
Proof.
  unfold dropout_call.
  destruct (Qeq_bool (dropout_p m) 0 || negb (dropout_training m)
            || (numel x =? 0)).
  - exists x, g. split; reflexivity.
  - destruct (Qeq_bool (dropout_p m) 1); eexists _, _; split; reflexivity.
Qed.

Lemma shape_eqb_refl s : shape_eqb s s = true.
Proof. induction s as [| d s IH]; cbn; [| rewrite Nat.eqb_refl]; auto. Qed.

Lemma conv3d_Ok x w b s p B Cin D H W Cout k :
  shape x = [B; Cin; D; H; W] ->
  shape w = [Cout; Cin; k; k; k] ->
  shape b = [Cout] ->
  0 < s -> 0 < Cout -> 0 < Cin ->
  k <= D + 2 * p -> k <= H + 2 * p -> k <= W + 2 * p ->
  exists y,
    conv3d x w b s p = Ok y /\
    shape y = [B; Cout; conv_out D k s p; conv_out H k s p; conv_out W k s p].
Proof.
  intros Hx Hw Hb Hs Hco Hci HD HH HW. unfold conv3d. rewrite Hx, Hw, Hb.
  replace (s =? 0) with false by (symmetry; apply Nat.eqb_neq; lia).
  replace (Cout =? 0) with false by (symmetry; apply Nat.eqb_neq; lia).
  replace (Cin =? 0) with false by (symmetry; apply Nat.eqb_neq; lia).
  rewrite Nat.eqb_refl, shape_eqb_refl. cbn [orb negb].
  replace (D + 2 * p <? k) with false by (symmetry; apply Nat.ltb_ge; lia).
  replace (H + 2 * p <? k) with false by (symmetry; apply Nat.ltb_ge; lia).
  replace (W + 2 * p <? k) with false by (symmetry; apply Nat.ltb_ge; lia).
  cbn [orb]. eexists. split; reflexivity.
Qed.

Lemma conv_out_pointwise d : 0 < d -> conv_out d 1 1 0 = d.
Proof.
  intros H. unfold conv_out. rewrite Nat.div_1_r. lia.
Qed.

Lemma conv_call_plain m x cin cout k s p B D H W :
  conv_geometry m false cin cout k s p ->
  shape x = [B; cin; D; H; W] ->
  0 < s -> 0 < cout -> 0 < cin ->
  k <= D + 2 * p -> k <= H + 2 * p -> k <= W + 2 * p ->
  exists y,
    conv_call m x None = Ok y /\
    shape y = [B; cout; conv_out D k s p; conv_out H k s p; conv_out W k s p].
Proof.
  intros (Ht & Hk & Hs & Hp & Hw & Hb) Hx Hs0 Hco Hci HD HH HW.
  unfold conv_call. rewrite Ht, Hs, Hp. cbn iota in Hw.
  apply (conv3d_Ok x _ _ s p B cin D H W cout k); assumption.
Qed.

Lemma output_padding_axis_double d :
  0 < d -> output_padding_axis d 3 2 1 (d * 2) = Ok 1.
Proof.
  intros H. unfold output_padding_axis.
  replace ((Z.of_nat (d * 2) <? (Z.of_nat d - 1) * Z.of_nat 2
                                - 2 * Z.of_nat 1 + Z.of_nat 3)%Z) with false
    by (symmetry; apply Z.ltb_ge; lia).
  replace (((Z.of_nat d - 1) * Z.of_nat 2 - 2 * Z.of_nat 1 + Z.of_nat 3
            + Z.of_nat 2 - 1 <? Z.of_nat (d * 2))%Z) with false
    by (symmetry; apply Z.ltb_ge; lia).
  cbn [orb]. f_equal. lia.
Qed.

Lemma conv_transpose_out_double d :
  0 < d -> conv_transpose_out d 3 2 1 1 = Some (d * 2).
Proof.
  intros H. unfold conv_transpose_out.
  replace (((Z.of_nat d - 1) * Z.of_nat 2 - 2 * Z.of_nat 1 + Z.of_nat 3
            + Z.of_nat 1 <? 0)%Z) with false
    by (symmetry; apply Z.ltb_ge; lia).
  f_equal. lia.
Qed.

Lemma conv_call_up m x cin cout B D H W :
  conv_geometry m true cin cout 3 2 1 ->
  shape x = [B; cin; D; H; W] ->
  0 < cout -> 0 < cin -> 0 < D -> 0 < H -> 0 < W ->
  exists y,
    conv_call m x (Some (D * 2, H * 2, W * 2)) = Ok y /\
    shape y = [B; cout; D * 2; H * 2; W * 2].
Proof.
  intros (Ht & Hk & Hs & Hp & Hw & Hb) Hx Hco Hci HD HH HW.
  unfold conv_call. rewrite Ht, Hx, Hk, Hs, Hp.
  rewrite (rbind_Ok _ _ _ _ _ (output_padding_axis_double D HD)).
  rewrite (rbind_Ok _ _ _ _ _ (output_padding_axis_double H HH)).
  rewrite (rbind_Ok _ _ _ _ _ (output_padding_axis_double W HW)).
  unfold conv_transpose3d. rewrite Hx, Hw, Hb.
  replace (cout =? 0) with false by (symmetry; apply Nat.eqb_neq; lia).
  replace (cin =? 0) with false by (symmetry; apply Nat.eqb_neq; lia).
  replace (D =? 0) with false by (symmetry; apply Nat.eqb_neq; lia).
  replace (H =? 0) with false by (symmetry; apply Nat.eqb_neq; lia).
  replace (W =? 0) with false by (symmetry; apply Nat.eqb_neq; lia).
  rewrite Nat.eqb_refl, shape_eqb_refl.
  rewrite !conv_transpose_out_double by assumption.
  cbn [orb negb Nat.eqb Nat.ltb Nat.leb andb].
  eexists. split; reflexivity.
Qed.

Lemma split_heads_Ok x nh a b c d C :
  shape x = [a; b; c; d; C] ->
  (0 < nh)%Z -> (Z.of_nat C mod nh = 0)%Z ->
  (nh <= int64_max)%Z -> (Z.of_nat C <= int64_max)%Z ->
  split_heads x nh
  = Ok (mkTensor [a; b; c; d; Z.to_nat nh; C / Z.to_nat nh] (data x)).
Proof.
  intros Hx Hnh Hdiv Hmax HC. unfold split_heads, shape_last, shape_at.
  rewrite Hx. cbn [rev app nth_error rbind].
  unfold py_int_truediv.
  replace (nh =? 0)%Z with false by (symmetry; apply Z.eqb_neq; lia).
  cbn [rbind].
  rewrite (py_size_Ok nh) by (unfold int64_min; lia). cbn [rbind].
  rewrite (py_size_Ok (Z.quot (Z.of_nat C) nh)).
  2:{ unfold int64_min. split.
      - assert (0 <= Z.quot (Z.of_nat C) nh)%Z by (apply Z.quot_pos; lia). lia.
      - rewrite Z.quot_div_nonneg by lia.
        assert (Z.of_nat C / nh <= Z.of_nat C)%Z
          by (apply Z.div_le_upper_bound; nia).
        lia. }
  cbn [rbind].
  assert (Hq : Z.to_nat (Z.of_nat C ÷ nh) = C / Z.to_nat nh).
  { rewrite Z.quot_div_nonneg by lia.
    rewrite Z2Nat.inj_div by lia. now rewrite Nat2Z.id. }
  assert (Hmul : Z.to_nat nh * (C / Z.to_nat nh) = C).
  { assert (Hm : C mod Z.to_nat nh = 0).
    { apply Nat2Z.inj. rewrite Nat2Z.inj_mod, Z2Nat.id by lia. exact Hdiv. }
    symmetry. apply Nat.Div0.div_exact. exact Hm. }
  rewrite view_nonneg.
  - cbn [map]. rewrite !Nat2Z.id, Hq. reflexivity.
  - repeat constructor; try lia. apply Z.quot_pos; lia.
  - cbn [map]. rewrite !Nat2Z.id, Hq. unfold numel. rewrite Hx.
    rewrite !numel_of_cons. cbn [numel_of fold_right].
    rewrite Nat.mul_1_r, Hmul. lia.
Qed.

(** ** What the constructor establishes *)

Lemma bind_inv A B (m : M A) (k : A -> M B) g v :
  bind m k g = Ok v -> exists a g1, m g = Ok (a, g1) /\ k a g1 = Ok v.
Proof.
  unfold bind. destruct (m g) as [[a g1] | e]; [| discriminate].
  intros H. now exists a, g1.
Qed.

Lemma bind_lift_inv A B (r : result A) (k : A -> M B) g v :
  bind (lift r) k g = Ok v -> exists a, r = Ok a /\ k a g = Ok v.
Proof.
  destruct r as [a | e]; [| discriminate]. intros H. now exists a.
Qed.

Lemma rbind_inv A B (r : result A) (k : A -> result B) v :
  rbind r k = Ok v -> exists a, r = Ok a /\ k a = Ok v.
Proof.
  destruct r as [a | e]; [| discriminate]. intros H. now exists a.
Qed.

Lemma Conv3d_inv cin cout k s p g c g' :
  Conv3d cin cout k s p g = Ok (c, g') ->
  channel_count cin /\ channel_count cout /\
  conv_geometry c false (Z.to_nat cin) (Z.to_nat cout) k s p.
Proof.
  unfold Conv3d.
  destruct (fits_int64 cin) eqn:Fi; [| discriminate].
  destruct (fits_int64 cout) eqn:Fo; [| discriminate].
  apply fits_int64_iff in Fi, Fo. cbn [andb negb].
  destruct (Z.ltb_spec cin 0); [discriminate |].
  destruct (Z.ltb_spec cout 0); [discriminate |]. cbn [orb].
  unfold bind, draw, ret. intros E. injection E as <- _.
  unfold channel_count. repeat split; try assumption; lia.
Qed.

Lemma ConvTranspose3d_inv cin cout k s p g c g' :
  ConvTranspose3d cin cout k s p g = Ok (c, g') ->
  channel_count cin /\ channel_count cout /\
  conv_geometry c true (Z.to_nat cin) (Z.to_nat cout) k s p.
Proof.
  unfold ConvTranspose3d.
  destruct (fits_int64 cin) eqn:Fi; [| discriminate].
  destruct (fits_int64 cout) eqn:Fo; [| discriminate].
  apply fits_int64_iff in Fi, Fo. cbn [andb negb].
  destruct (Z.ltb_spec cin 0); [discriminate |].
  destruct (Z.ltb_spec cout 0); [discriminate |]. cbn [orb].
  unfold bind, draw, ret. intros E. injection E as <- _.
  unfold channel_count. repeat split; try assumption; lia.
Qed.

Lemma init_built ic kf vf ofl nh p lt g self g' :
  __init__ ic kf vf ofl nh p lt g = Ok (self, g') ->
  built_with ic kf vf ofl nh lt self.
Proof.
  intros H.
  assert (Hnh : nh <> 0%Z) by (intros ->; discriminate H).
  rewrite (init_checks _ _ _ _ _ _ _ _ Hnh) in H.
  destruct (Z.eqb_spec (kf mod nh) 0) as [Ek | Ek]; [| discriminate H].
  destruct (Z.eqb_spec (vf mod nh) 0) as [Ev | Ev]; [| discriminate H].
  destruct (str_in lt ["SAME"; "DOWN"; "UP"]) eqn:El; [| discriminate H].
  cbn [negb] in H. apply str_in_In in El. unfold allocate in H.
  apply bind_inv in H as (q & g1 & Hq & H).
  apply bind_inv in H as (key & g2 & Hkey & H).
  apply bind_inv in H as (value & g3 & Hvalue & H).
  apply bind_lift_inv in H as (drop & Hdrop & H).
  apply bind_inv in H as (out & g4 & Hout & H).
  apply bind_lift_inv in H as (per_head & Hper & H).
  rewrite (py_floordiv_nonzero kf nh Hnh) in Hper. injection Hper as <-.
  injection H as <- _.
  apply Conv3d_inv in Hkey as (Hic & Hkf & Gkey).
  apply Conv3d_inv in Hvalue as (_ & Hvf & Gvalue).
  apply Conv3d_inv in Hout as (_ & Hofl & Gout).
  constructor; try assumption; try reflexivity.
  cbn [QueryTransform]. unfold query_geometry.
  destruct El as [<- | [<- | [<- | []]]]; cbn [String.eqb Ascii.eqb Bool.eqb] in Hq;
    apply bind_inv in Hq as (c & g5 & Hc & Hq); injection Hq as <- _;
    exists c; (split; [reflexivity |]).
  - apply Conv3d_inv in Hc as (_ & _ & Gq). now left.
  - apply Conv3d_inv in Hc as (_ & _ & Gq). right. now left.
  - apply ConvTranspose3d_inv in Hc as (_ & _ & Gq). right. now right.
Qed.

Lemma train_built ic kf vf ofl nh lt self mode :
  built_with ic kf vf ofl nh lt self ->
  built_with ic kf vf ofl nh lt (train mode self).
Proof. intros []. constructor; assumption. Qed.

(** ** Running [forward] *)

Lemma forward_trace_inv self inputs g tr g' :
  forward_trace self inputs g = Ok (tr, g') -> runs self inputs g tr g'.
Proof.
  unfold forward_trace. intros H.
  apply bind_lift_inv in H as (q & Eq & H).
  apply bind_lift_inv in H as (k0' & Ek0 & H).
  apply bind_lift_inv in H as (k1' & Ek1 & H).
  apply bind_lift_inv in H as (v0' & Ev0 & H).
  apply bind_lift_inv in H as (v1' & Ev1 & H).
  apply bind_lift_inv in H as (q0' & Eq0 & H).
  apply bind_lift_inv in H as (q1' & Eq1 & H).
  apply bind_lift_inv in H as (Batch & EB & H).
  apply bind_lift_inv in H as (Dq & ED & H).
  apply bind_lift_inv in H as (Hq & EH & H).
  apply bind_lift_inv in H as (Wq & EW & H).
  apply bind_lift_inv in H as (k2' & Ek2 & H).
  apply bind_lift_inv in H as (v2' & Ev2 & H).
  apply bind_lift_inv in H as (q2' & Eq2 & H).
  apply bind_lift_inv in H as (k3' & Ek3 & H).
  apply bind_lift_inv in H as (v3' & Ev3 & H).
  apply bind_lift_inv in H as (q3' & Eq3 & H).
  cbv zeta in H.
  apply bind_lift_inv in H as (kT & EkT & H).
  apply bind_lift_inv in H as (A0' & EA0 & H).
  apply bind_lift_inv in H as (A1' & EA1 & H).
  apply bind_inv in H as (A2' & g1 & EA2 & H).
  apply bind_lift_inv in H as (O0' & EO0 & H).
  apply bind_lift_inv in H as (c & Ec & H).
  apply bind_lift_inv in H as (channels & Ech & H).
  apply py_size_inv in Ech. subst channels.
  apply bind_lift_inv in H as (O1' & EO1 & H).
  apply bind_lift_inv in H as (O2' & EO2 & H).
  apply bind_lift_inv in H as (O3' & EO3 & H).
  injection H as <- <-.
  destruct q as [q |]; [| discriminate Eq0]. injection Eq0 as ->.
  constructor; cbn; try assumption; try reflexivity.
  - now exists kT.
  - now exists Batch, Dq, Hq, Wq, c.
Qed.

Lemma numel_of5 a b c d n : numel_of [a; b; c; d; n] = a * b * c * d * n.
Proof. cbn. lia. Qed.

Lemma heads_divide_nat f nh :
  (0 < nh)%Z -> (0 <= f)%Z -> heads_divide f nh ->
  (Z.of_nat (Z.to_nat f) mod nh = 0)%Z /\
  Z.to_nat f / Z.to_nat nh * Z.to_nat nh = Z.to_nat f.
Proof.
  unfold heads_divide. intros Hnh Hf Hdiv. rewrite Z2Nat.id by assumption.
  split; [assumption |].
  assert (Hm : Z.to_nat f mod Z.to_nat nh = 0).
  { apply Nat2Z.inj. rewrite Nat2Z.inj_mod, !Z2Nat.id by lia. exact Hdiv. }
  apply Nat.Div0.div_exact in Hm. lia.
Qed.

Lemma built_known ic kf vf ofl nh lt self :
  built_with ic kf vf ofl nh lt self -> known_layer_type lt.
Proof.
  intros [_ _ _ _ _ _ _ _ _ (q & _ & [(-> & _) | [(-> & _) | (-> & _)]]) _ _ _ _];
    unfold known_layer_type; cbn; tauto.
Qed.

Lemma project_query_Ok ic kf vf ofl nh lt self x B D H W :
  built_with ic kf vf ofl nh lt self ->
  (0 < ic)%Z -> (0 < kf)%Z ->
  shape x = [B; Z.to_nat ic; D; H; W] -> 0 < D -> 0 < H -> 0 < W ->
  exists q,
    project_query self x = Ok (Some q) /\
    shape q = [B; Z.to_nat kf; query_extent lt D; query_extent lt H;
               query_extent lt W].
Proof.
  intros Hb Hic Hkf Hx HD HH HW.
  destruct Hb as [_ Ht _ _ _ _ _ _ _ (m & Em & Gm) _ _ _ _].
  unfold project_query. rewrite Ht, Em.
  destruct Gm as [(-> & Gm) | [(-> & Gm) | (-> & Gm)]];
    cbn [String.eqb Ascii.eqb Bool.eqb orb callable rbind].
  - destruct (conv_call_plain m x _ _ 1 1 0 B D H W Gm Hx)
      as (y & E & S); try lia.
    rewrite E. exists y. split; [reflexivity |].
    rewrite S, !conv_out_pointwise by assumption. reflexivity.
  - destruct (conv_call_plain m x _ _ 3 2 1 B D H W Gm Hx)
      as (y & E & S); try lia.
    rewrite E. exists y. split; [reflexivity | exact S].
  - unfold shape_at. rewrite Hx. cbn [nth_error rbind].
    destruct (conv_call_up m x _ _ B D H W Gm Hx) as (y & E & S); try lia.
    rewrite E. exists y. split; [reflexivity | exact S].
Qed.

(** On a volume with positive spatial extents whose channel count is the
    layer's [in_channel], a layer built with positive counts runs [forward]
    to its end, and the values it assigns have the shapes [trace_shapes]. *)
Lemma forward_trace_Ok ic kf vf ofl nh lt self x g B D H W :
  built_with ic kf vf ofl nh lt self ->
  (0 < nh)%Z -> (0 < ic)%Z -> (0 < kf)%Z -> (0 < vf)%Z -> (0 < ofl)%Z ->
  shape x = [B; Z.to_nat ic; D; H; W] -> 0 < D -> 0 < H -> 0 < W ->
  exists tr g',
    forward_trace self x g = Ok (tr, g') /\
    trace_shapes tr B D H W
                 (query_extent lt D) (query_extent lt H) (query_extent lt W)
                 (Z.to_nat nh) (Z.to_nat kf) (Z.to_nat vf) (Z.to_nat ofl).
Proof.
  intros Hb Hnh Hic Hkf Hvf Hof Hx HD HH HW.
  destruct (project_query_Ok _ _ _ _ _ _ _ _ _ _ _ _ Hb Hic Hkf Hx HD HH HW)
    as (tq0 & Eq & Sq0).
  pose proof Hb as [Hn _ _ Hkd Hvd _ Hkc Hvc _ _ Gk Gv Go _].
  destruct (heads_divide_nat kf nh Hnh ltac:(lia) Hkd) as (Hkm & Hkmul).
  destruct (heads_divide_nat vf nh Hnh ltac:(lia) Hvd) as (Hvm & Hvmul).
  assert (Hnmax : (nh <= int64_max)%Z).
  { apply Z.le_trans with kf; [| exact (proj2 Hkc)].
    apply Z.divide_pos_le; [exact Hkf |].
    apply Z.mod_divide; [lia | exact Hkd]. }
  assert (HkC : (Z.of_nat (Z.to_nat kf) <= int64_max)%Z)
    by (rewrite Z2Nat.id by lia; exact (proj2 Hkc)).
  assert (HvC : (Z.of_nat (Z.to_nat vf) <= int64_max)%Z)
    by (rewrite Z2Nat.id by lia; exact (proj2 Hvc)).
  set (Dq := query_extent lt D) in *.
  set (Hq := query_extent lt H) in *.
  set (Wq := query_extent lt W) in *.
  (* projections *)
  destruct (conv_call_plain _ x _ _ 1 1 0 B D H W Gk Hx)
    as (tk0 & Ek0 & Sk0); try lia.
  rewrite !conv_out_pointwise in Sk0 by assumption.
  destruct (conv_call_plain _ x _ _ 1 1 0 B D H W Gv Hx)
    as (tv0 & Ev0 & Sv0); try lia.
  rewrite !conv_out_pointwise in Sv0 by assumption.
  (* channel last *)
  destruct (permute_channel_last tk0 _ _ _ _ _ Sk0) as (tk1 & Ek1 & Sk1).
  destruct (permute_channel_last tv0 _ _ _ _ _ Sv0) as (tv1 & Ev1 & Sv1).
  destruct (permute_channel_last tq0 _ _ _ _ _ Sq0) as (tq1 & Eq1 & Sq1).
  assert (EB : shape_at tq1 0 = Ok B)
    by (unfold shape_at; rewrite Sq1; reflexivity).
  assert (ED : shape_at tq1 1 = Ok Dq)
    by (unfold shape_at; rewrite Sq1; reflexivity).
  assert (EH : shape_at tq1 2 = Ok Hq)
    by (unfold shape_at; rewrite Sq1; reflexivity).
  assert (EW : shape_at tq1 3 = Ok Wq)
    by (unfold shape_at; rewrite Sq1; reflexivity).
  (* heads *)
  pose proof (split_heads_Ok tk1 nh _ _ _ _ _ Sk1 Hnh Hkm Hnmax HkC) as Ek2.
  pose proof (split_heads_Ok tv1 nh _ _ _ _ _ Sv1 Hnh Hvm Hnmax HvC) as Ev2.
  pose proof (split_heads_Ok tq1 nh _ _ _ _ _ Sq1 Hnh Hkm Hnmax HkC) as Eq2.
  set (n := Z.to_nat nh) in *.
  set (ck := Z.to_nat kf) in *.
  set (cv := Z.to_nat vf) in *.
  set (tk2 := mkTensor [B; D; H; W; n; ck / n] (data tk1)) in *.
  set (tv2 := mkTensor [B; D; H; W; n; cv / n] (data tv1)) in *.
  set (tq2 := mkTensor [B; Dq; Hq; Wq; n; ck / n] (data tq1)) in *.
  (* matrices *)
  pose proof (flatten_leading tk2 _ _ _ _ _ _ eq_refl) as Ek3.
  pose proof (flatten_leading tv2 _ _ _ _ _ _ eq_refl) as Ev3.
  pose proof (flatten_leading tq2 _ _ _ _ _ _ eq_refl) as Eq3.
  rewrite numel_of5 in Ek3, Ev3, Eq3.
  set (tk3 := mkTensor [B * D * H * W * n; ck / n] (data tk2)) in *.
  set (tv3 := mkTensor [B * D * H * W * n; cv / n] (data tv2)) in *.
  set (tq3 := mkTensor [B * Dq * Hq * Wq * n; ck / n] (data tq2)) in *.
  set (tq4 := div_scalar tq3 (_scale self)).
  (* attention *)
  destruct (transpose_matrix tk3 _ _ eq_refl) as (kT & EkT & SkT).
  pose proof (matmul_Ok tq4 kT _ _ _ eq_refl SkT) as EA0.
  match type of EA0 with _ = Ok ?t => set (tA0 := t) in * end.
  pose proof (softmax_rows_Ok tA0 _ _ eq_refl) as EA1.
  match type of EA1 with _ = Ok ?t => set (tA1 := t) in * end.
  destruct (dropout_call_Ok (attention_dropout self) tA1 g)
    as (tA2 & g' & EA2 & SA2).
  change (shape tA1) with [B * Dq * Hq * Wq * n; B * D * H * W * n] in SA2.
  pose proof (matmul_Ok tA2 tv3 _ _ _ SA2 eq_refl) as EO0.
  match type of EO0 with _ = Ok ?t => set (tO0 := t) in * end.
  (* back to a volume *)
  assert (Ec : shape_last tv3 = Ok (cv / n)) by reflexivity.
  assert (Hcn : Z.to_nat (Z.of_nat (cv / n) * nh) = cv).
  { rewrite Z2Nat.inj_mul by lia. rewrite Nat2Z.id. exact Hvmul. }
  assert (Ech : py_size (Z.of_nat (cv / n) * nh)
                = Ok (Z.of_nat (cv / n) * nh)%Z).
  { apply py_size_Ok. unfold int64_min.
    assert (Hz : (Z.of_nat (cv / n) * nh = Z.of_nat cv)%Z) by lia.
    rewrite Hz. lia. }
  assert (EO1 : view tO0 [Z.of_nat B; Z.of_nat Dq; Z.of_nat Hq; Z.of_nat Wq;
                          (Z.of_nat (cv / n) * nh)%Z]
                = Ok (mkTensor [B; Dq; Hq; Wq; cv] (data tO0))).
  { rewrite view_nonneg.
    - cbn [map]. now rewrite !Nat2Z.id, Hcn.
    - repeat constructor; try lia.
    - cbn [map]. rewrite !Nat2Z.id, Hcn. unfold numel.
      change (shape tO0) with [B * Dq * Hq * Wq * n; cv / n].
      rewrite numel_of5. cbn [numel_of fold_right].
      rewrite <- Hvmul at 1. lia. }
  set (tO1 := mkTensor [B; Dq; Hq; Wq; cv] (data tO0)) in *.
  destruct (permute_channel_first tO1 _ _ _ _ _ eq_refl) as (tO2 & EO2 & SO2).
  assert (HDq : 0 < Dq /\ 0 < Hq /\ 0 < Wq).
  { unfold Dq, Hq, Wq, query_extent, conv_out.
    destruct (String.eqb lt "SAME"); [lia |].
    destruct (String.eqb lt "DOWN"); lia. }
  destruct (conv_call_plain _ tO2 _ _ 1 1 0 B Dq Hq Wq Go SO2)
    as (tO3 & EO3 & SO3); try lia.
  rewrite !conv_out_pointwise in SO3 by tauto.
  exists (mkTrace tq0 tk0 tv0 tk1 tv1 tq1 tk2 tv2 tq2 tk3 tv3 tq3 tq4
                  tA0 tA1 tA2 tO0 tO1 tO2 tO3), g'.
  split.
  - unfold forward_trace. rewrite Hn.
    run Eq. run Ek0. run Ek1. run Ev0. run Ev1.
    run (eq_refl : bound (Some tq0) = Ok tq0).
    run Eq1. run EB. run ED. run EH. run EW.
    run Ek2. run Ev2. run Eq2. run Ek3. run Ev3. run Eq3.
    cbv zeta. fold tq4.
    run EkT. run EA0. run EA1. run EA2. run EO0. run Ec. run Ech.
    run EO1.
    run EO2. run EO3. reflexivity.
  - constructor; cbn [q0 k0 v0 k1 v1 q1 k2 v2 q2 k3 v3 q3 q4 A0 A1 A2
                          O0 O1 O2 O3]; try assumption; reflexivity.
Qed.

(** ** Extents, softmax, scaling and dropout *)

Lemma conv_out_halved d : 0 < d -> conv_out d 3 2 1 = halved d.
Proof.
  intros H. unfold conv_out, halved.
  replace (Z.of_nat d + 2 * 1 - 3)%Z with (Z.of_nat (d + 2 * 1 - 3)) by lia.
  rewrite <- (Nat2Z.inj_div _ 2). lia.
Qed.

Lemma query_extent_SAME d : query_extent "SAME" d = d.
Proof. reflexivity. Qed.

Lemma query_extent_DOWN d : 0 < d -> query_extent "DOWN" d = halved d.
Proof. intros H. cbn. now apply conv_out_halved. Qed.

Lemma query_extent_UP d : query_extent "UP" d = 2 * d.
Proof. cbn. lia. Qed.

Lemma forward_of_trace self x g tr g' :
  forward_trace self x g = Ok (tr, g') -> forward self x g = Ok (O3 tr, g').
Proof. intros H. unfold forward. run H. reflexivity. Qed.

Lemma softmax_rows_get t t' n m r j :
  shape t = [n; m] -> softmax t 1 = Ok t' -> r < n -> j < m ->
  get t' [r; j]
  = (exp (get t [r; j]) / sum_upto m (fun l => exp (get t [r; l])))%R.
Proof.
  intros Hs E Hr Hj. rewrite (softmax_rows_Ok t n m Hs) in E.
  injection E as <-. now rewrite get_tabulate2.
Qed.

Lemma matmul_get a b t n k m r c :
  shape a = [n; k] -> shape b = [k; m] -> matmul a b = Ok t ->
  r < n -> c < m ->
  get t [r; c] = sum_upto k (fun l => (get a [r; l] * get b [l; c])%R).
Proof.
  intros Ha Hb E Hr Hc. rewrite (matmul_Ok a b n k m Ha Hb) in E.
  injection E as <-. now rewrite get_tabulate2.
Qed.

Lemma IZR_div_exact a b :
  b <> 0%Z -> (a mod b = 0)%Z -> IZR (a / b) = (IZR a / IZR b)%R.
Proof.
  intros Hb Hm. apply Z.div_exact in Hm; [| assumption].
  rewrite Hm at 2. rewrite mult_IZR. field. now apply not_0_IZR.
Qed.

Lemma get_div_scalar t c idx :
  get (div_scalar t c) idx = (get t idx / c)%R.
Proof.
  unfold get, div_scalar. cbn [shape data].
  replace 0%R with (0 / c)%R at 1 by (unfold Rdiv; ring).
  apply (map_nth (fun x => (x / c)%R)).
Qed.

Lemma dropout_call_off m x g :
  Qeq_bool (dropout_p m) 0 = true \/ dropout_training m = false ->
  dropout_call m x g = Ok (x, g).
Proof.
  intros [H | H]; unfold dropout_call; rewrite H; cbn [negb orb].
  - reflexivity.
  - rewrite orb_true_r. reflexivity.
Qed.

Lemma dropout_call_effect m x g y g' :
  dropout_call m x g = Ok (y, g') ->
  (y = x /\ g' = g) \/
  (shape y = shape x /\ g' = g /\ dropout_training m = true) \/
  (shape y = shape x /\ g' = advance g (numel x) /\
   dropout_training m = true /\ Qeq_bool (dropout_p m) 0 = false).
Proof.
  unfold dropout_call.
  destruct (Qeq_bool (dropout_p m) 0) eqn:E0;
    [intros E; injection E as <- <-; now left |].
  destruct (dropout_training m) eqn:Et;
    [| intros E; injection E as <- <-; now left].
  cbn [negb orb].
  destruct (numel x =? 0); [intros E; injection E as <- <-; now left |].
  destruct (Qeq_bool (dropout_p m) 1); intros E; injection E as <- <-.
  - right. left. repeat split.
  - right. right. repeat split.
Qed.

Lemma forward_trace_no_dropout self x g :
  no_dropout self ->
  forward_trace self x g =
  match forward_trace self x gen0 with
  | Ok (tr, _) => Ok (tr, g)
  | Raise e => Raise e
  end.
Proof.
  intros Hoff. unfold forward_trace.
  repeat match goal with
         | |- context [bind (lift ?r) _ _] =>
             destruct r;
             [ rewrite !(bind_lift_Ok _ _ _ _ _ _ eq_refl)
             | rewrite !(bind_lift_Raise _ _ _ _ _ _ eq_refl); reflexivity ]
         end.
  rewrite !(bind_Ok _ _ _ _ _ _ _ (dropout_call_off _ _ _ Hoff)).
  repeat match goal with
         | |- context [bind (lift ?r) _ _] =>
             destruct r;
             [ rewrite !(bind_lift_Ok _ _ _ _ _ _ eq_refl)
             | rewrite !(bind_lift_Raise _ _ _ _ _ _ eq_refl); reflexivity ]
         end.
  reflexivity.
Qed.

Lemma forward_no_dropout self x g :
  no_dropout self ->
  forward self x g =
  match forward self x gen0 with
  | Ok (y, _) => Ok (y, g)
  | Raise e => Raise e
  end.
Proof.
  intros Hoff. unfold forward, bind.
  rewrite (forward_trace_no_dropout self x g Hoff).
  destruct (forward_trace self x gen0) as [[tr g'] | e]; reflexivity.
Qed.

Lemma no_dropout_train self mode :
  Qeq_bool (dropout_p (attention_dropout self)) 0 = true \/ mode = false ->
  no_dropout (train mode self).
Proof. intros [H | ->]; [left | right]; [exact H | reflexivity]. Qed.

Lemma init_dropout_p ic kf vf ofl nh p lt g self g' :
  __init__ ic kf vf ofl nh p lt g = Ok (self, g') ->
  dropout_p (attention_dropout self) = p.
Proof.
  intros H.
  assert (Hnh : nh <> 0%Z) by (intros ->; discriminate H).
  rewrite (init_checks _ _ _ _ _ _ _ _ Hnh) in H.
  destruct (negb (kf mod nh =? 0)%Z); [discriminate H |].
  destruct (negb (vf mod nh =? 0)%Z); [discriminate H |].
  destruct (negb (str_in lt ["SAME"; "DOWN"; "UP"])); [discriminate H |].
  unfold allocate in H.
  apply bind_inv in H as (q & g1 & Hq & H).
  apply bind_inv in H as (key & g2 & Hkey & H).
  apply bind_inv in H as (value & g3 & Hvalue & H).
  apply bind_lift_inv in H as (drop & Hdrop & H).
  apply bind_inv in H as (out & g4 & Hout & H).
  apply bind_lift_inv in H as (per_head & Hper & H).
  injection H as <- _. cbn [attention_dropout].
  unfold Dropout_new in Hdrop.
  destruct (negb (Qle_bool 0 p) || negb (Qle_bool p 1)); [discriminate Hdrop |].
  injection Hdrop as <-. reflexivity.
Qed.

(** ** Batch blocks *)

Lemma firstn_seq n a m : firstn n (seq a m) = seq a (Nat.min n m).
Proof.
  revert a m. induction n as [| n IH]; intros a [| m]; cbn; try reflexivity.
  now rewrite IH.
Qed.

Lemma block_map_seq (f : nat -> R) N n b :
  b * n + n <= N ->
  block n b (map f (seq 0 N)) = map f (seq (b * n) n).
Proof.
  intros H. unfold block.
  rewrite skipn_map, firstn_map, skipn_seq, firstn_seq.
  cbn [Nat.add]. f_equal. f_equal. lia.
Qed.

Lemma nth_block n b l r d :
  r < n -> nth r (block n b l) d = nth (b * n + r) l d.
Proof.
  intros H. unfold block. rewrite nth_firstn, nth_skipn.
  apply Nat.ltb_lt in H. now rewrite H.
Qed.

Lemma unravel_bounds s : forall j, j < numel_of s -> Forall2 lt (unravel s j) s.
Proof.
  induction s as [| d s IH]; intros j H; cbn [unravel].
  - constructor.
  - rewrite numel_of_cons in H.
    assert (Hn : numel_of s <> 0) by (intros E; rewrite E in H; lia).
    constructor.
    + apply Nat.Div0.div_lt_upper_bound. lia.
    + apply IH. apply Nat.mod_upper_bound. exact Hn.
Qed.

Lemma block_tabulate_ext B s F F' b :
  b < B ->
  (forall idx, Forall2 lt idx s -> F (b :: idx) = F' (b :: idx)) ->
  block (numel_of s) b (data (tabulate (B :: s) F))
  = block (numel_of s) b (data (tabulate (B :: s) F')).
Proof.
  intros Hb HF. unfold tabulate. cbn [data]. rewrite numel_of_cons.
  assert (Hle : b * numel_of s + numel_of s <= B * numel_of s).
  { replace (b * numel_of s + numel_of s) with (S b * numel_of s) by lia.
    apply Nat.mul_le_mono_r. lia. }
  rewrite !block_map_seq by exact Hle.
  apply map_ext_in. intros j Hj. apply in_seq in Hj. cbn [unravel].
  assert (Hn : numel_of s <> 0) by lia.
  replace (j / numel_of s) with b.
  - apply HF. apply unravel_bounds. apply Nat.mod_upper_bound. exact Hn.
  - apply (Nat.div_unique j (numel_of s) b (j - b * numel_of s)); lia.
Qed.

Lemma get_block x x' B s b idx :
  shape x = B :: s -> shape x' = B :: s ->
  block (numel_of s) b (data x) = block (numel_of s) b (data x') ->
  Forall2 lt idx s ->
  get x (b :: idx) = get x' (b :: idx).
Proof.
  intros Hx Hx' Hblock Hidx. unfold get. rewrite Hx, Hx'. cbn [ravel].
  pose proof (ravel_lt _ _ Hidx) as Hr.
  rewrite <- !(nth_block (numel_of s) b _ _ 0%R Hr). now rewrite Hblock.
Qed.

(** A convolution computes batch element [b] of its result from batch
    element [b] of its argument. *)
Lemma conv3d_local x x' w bs s p y y' B Cin D H W b :
  shape x = [B; Cin; D; H; W] -> shape x' = [B; Cin; D; H; W] ->
  block (numel_of [Cin; D; H; W]) b (data x)
  = block (numel_of [Cin; D; H; W]) b (data x') ->
  b < B ->
  conv3d x w bs s p = Ok y -> conv3d x' w bs s p = Ok y' ->
  block (numel_of (tl (shape y))) b (data y)
  = block (numel_of (tl (shape y))) b (data y').
Proof.
  intros Hx Hx' Hblock Hb. unfold conv3d. rewrite Hx, Hx'.
  destruct (shape w) as [| Cout [| Cin' [| kd [| kh [| kw [| ? ?]]]]]];
    try discriminate.
  destruct (s =? 0); [discriminate |].
  destruct ((Cout =? 0) || (Cin =? 0)); [discriminate |].
  destruct (negb (Cin =? Cin')); [discriminate |].
  destruct (negb (shape_eqb (shape bs) [Cout])); [discriminate |].
  destruct ((D + 2 * p <? kd) || (H + 2 * p <? kh) || (W + 2 * p <? kw));
    [discriminate |].
  intros E E'. injection E as <-. injection E' as <-.
  cbn [shape tl tabulate]. apply block_tabulate_ext; [exact Hb |].
  intros idx Hidx. cbn [ix nth]. f_equal.
  apply sum_upto_ext; intros ci Hci.
  apply sum_upto_ext; intros i Hi.
  apply sum_upto_ext; intros j Hj.
  apply sum_upto_ext; intros l Hl.
  f_equal. unfold at_padded.
  destruct ((p <=? nth 1 idx 0 * s + i) && (nth 1 idx 0 * s + i - p <? D)
            && (p <=? nth 2 idx 0 * s + j) && (nth 2 idx 0 * s + j - p <? H)
            && (p <=? nth 3 idx 0 * s + l) && (nth 3 idx 0 * s + l - p <? W))
    eqn:Ein; [| reflexivity].
  repeat (apply andb_prop in Ein; destruct Ein as [Ein ?]).
  apply (get_block x x' B [Cin; D; H; W] b); try assumption.
  repeat constructor; try assumption; now apply Nat.ltb_lt.
Qed.

Lemma source_pos_lt o i s p d id :
  source_pos o i s p d = Some id -> id < d.
Proof.
  unfold source_pos.
  destruct ((i <=? o + p) && ((o + p - i) mod s =? 0) && ((o + p - i) / s <? d))
    eqn:E; [| discriminate].
  intros H. injection H as <-.
  apply andb_prop in E as [_ E]. now apply Nat.ltb_lt.
Qed.

Lemma conv_transpose3d_local x x' w bs s p op y y' B Cin D H W b :
  shape x = [B; Cin; D; H; W] -> shape x' = [B; Cin; D; H; W] ->
  block (numel_of [Cin; D; H; W]) b (data x)
  = block (numel_of [Cin; D; H; W]) b (data x') ->
  b < B ->
  conv_transpose3d x w bs s p op = Ok y ->
  conv_transpose3d x' w bs s p op = Ok y' ->
  block (numel_of (tl (shape y))) b (data y)
  = block (numel_of (tl (shape y))) b (data y').
Proof.
  intros Hx Hx' Hblock Hb. unfold conv_transpose3d. rewrite Hx, Hx'.
  destruct (shape w) as [| Cin' [| Cout [| kd [| kh [| kw [| ? ?]]]]]];
    try discriminate.
  destruct op as [| opd [| oph [| opw [| ? ?]]]]; try discriminate.
  destruct (s =? 0); [discriminate |].
  destruct ((Cout =? 0) || (Cin =? 0)); [discriminate |].
  destruct (negb (Cin =? Cin')); [discriminate |].
  destruct (negb (shape_eqb (shape bs) [Cout])); [discriminate |].
  destruct (negb ((opd <? s) && (oph <? s) && (opw <? s))); [discriminate |].
  destruct ((D =? 0) || (H =? 0) || (W =? 0)); [discriminate |].
  destruct (conv_transpose_out D kd s p opd) as [Do |]; [| discriminate].
  destruct (conv_transpose_out H kh s p oph) as [Ho |]; [| discriminate].
  destruct (conv_transpose_out W kw s p opw) as [Wo |]; [| discriminate].
  intros E E'. injection E as <-. injection E' as <-.
  cbn [shape tl tabulate]. apply block_tabulate_ext; [exact Hb |].
  intros idx Hidx. cbn [ix nth]. f_equal.
  apply sum_upto_ext; intros ci Hci.
  apply sum_upto_ext; intros i Hi.
  apply sum_upto_ext; intros j Hj.
  apply sum_upto_ext; intros l Hl.
  destruct (source_pos (nth 1 idx 0) i s p D) as [id |] eqn:Ed; [| reflexivity].
  destruct (source_pos (nth 2 idx 0) j s p H) as [ih |] eqn:Eh; [| reflexivity].
  destruct (source_pos (nth 3 idx 0) l s p W) as [iw |] eqn:Ew; [| reflexivity].
  f_equal.
  apply (get_block x x' B [Cin; D; H; W] b); try assumption.
  repeat constructor; try assumption; eapply source_pos_lt; eassumption.
Qed.

Lemma conv_call_local m x x' size y y' B Cin D H W b :
  shape x = [B; Cin; D; H; W] -> shape x' = [B; Cin; D; H; W] ->
  block (numel_of [Cin; D; H; W]) b (data x)
  = block (numel_of [Cin; D; H; W]) b (data x') ->
  b < B ->
  conv_call m x size = Ok y -> conv_call m x' size = Ok y' ->
  block (numel_of (tl (shape y))) b (data y)
  = block (numel_of (tl (shape y))) b (data y').
Proof.
  intros Hx Hx' Hblock Hb. unfold conv_call. rewrite Hx, Hx'.
  destruct (transposed m).
  - destruct size as [[[sd sh] sw] |].
    + destruct (output_padding_axis D (kernel_size m) (stride m) (padding m) sd)
        as [opd |]; [| discriminate].
      destruct (output_padding_axis H (kernel_size m) (stride m) (padding m) sh)
        as [oph |]; [| discriminate].
      destruct (output_padding_axis W (kernel_size m) (stride m) (padding m) sw)
        as [opw |]; [| discriminate].
      cbn [rbind]. intros E E'.
      exact (conv_transpose3d_local x x' _ _ _ _ _ y y' B Cin D H W b
               Hx Hx' Hblock Hb E E').
    + intros E E'.
      exact (conv_transpose3d_local x x' _ _ _ _ _ y y' B Cin D H W b
               Hx Hx' Hblock Hb E E').
  - destruct size; [discriminate |]. intros E E'.
    exact (conv3d_local x x' _ _ _ _ y y' B Cin D H W b
             Hx Hx' Hblock Hb E E').
Qed.

(** Moving the channel axis last keeps every batch element in its block. *)
Lemma permute_channel_last_local t t' y y' a c d e f b :
  shape t = [a; c; d; e; f] -> shape t' = [a; c; d; e; f] ->
  block (numel_of [c; d; e; f]) b (data t)
  = block (numel_of [c; d; e; f]) b (data t') ->
  b < a ->
  permute t [0; 2; 3; 4; 1] = Ok y -> permute t' [0; 2; 3; 4; 1] = Ok y' ->
  block (numel_of [d; e; f; c]) b (data y)
  = block (numel_of [d; e; f; c]) b (data y').
Proof.
  intros Ht Ht' Hblock Hb. unfold permute. rewrite Ht, Ht'.
  cbn [length is_perm map nth].
  change (is_perm 5 [0; 2; 3; 4; 1]) with true. cbv iota.
  intros E E'. injection E as <-. injection E' as <-.
  apply block_tabulate_ext; [exact Hb |].
  intros idx Hidx.
  inversion Hidx as [| i1 ? r1 ? H1 Hr1]; subst.
  inversion Hr1 as [| i2 ? r2 ? H2 Hr2]; subst.
  inversion Hr2 as [| i3 ? r3 ? H3 Hr3]; subst.
  inversion Hr3 as [| i4 ? r4 ? H4 Hr4]; subst.
  inversion Hr4; subst.
  cbn [seq map index_of Nat.eqb nth].
  apply (get_block t t' a [c; d; e; f] b); try assumption.
  repeat constructor; assumption.
Qed.

Lemma project_query_local self x x' q q' B Cin D H W b :
  shape x = [B; Cin; D; H; W] -> shape x' = [B; Cin; D; H; W] ->
  block (numel_of [Cin; D; H; W]) b (data x)
  = block (numel_of [Cin; D; H; W]) b (data x') ->
  b < B ->
  project_query self x = Ok (Some q) -> project_query self x' = Ok (Some q') ->
  block (numel_of (tl (shape q))) b (data q)
  = block (numel_of (tl (shape q))) b (data q').
Proof.
  intros Hx Hx' Hblock Hb. unfold project_query, shape_at. rewrite Hx, Hx'.
  cbn [nth_error rbind].
  destruct (String.eqb (layer_type self) "SAME"
            || String.eqb (layer_type self) "DOWN").
  - destruct (callable (QueryTransform self)) as [m |]; [| discriminate].
    cbn [rbind].
    destruct (conv_call m x None) as [r |] eqn:E; [| discriminate].
    destruct (conv_call m x' None) as [r' |] eqn:E'; [| discriminate].
    cbn [rbind]. intros Eq Eq'. injection Eq as <-. injection Eq' as <-.
    exact (conv_call_local m x x' None r r' B Cin D H W b Hx Hx' Hblock Hb E E').
  - destruct (String.eqb (layer_type self) "UP"); [| discriminate].
    destruct (callable (QueryTransform self)) as [m |]; [| discriminate].
    cbn [rbind].
    destruct (conv_call m x (Some (D * 2, H * 2, W * 2))) as [r |] eqn:E;
      [| discriminate].
    destruct (conv_call m x' (Some (D * 2, H * 2, W * 2))) as [r' |] eqn:E';
      [| discriminate].
    cbn [rbind]. intros Eq Eq'. injection Eq as <-. injection Eq' as <-.
    exact (conv_call_local m x x' _ r r' B Cin D H W b Hx Hx' Hblock Hb E E').
Qed.

Lemma view_data t dims y : view t dims = Ok y -> data y = data t.
Proof.
  unfold view.
  destruct (existsb (fun d => (d <? -1)%Z) dims); [discriminate |].
  destruct (count_occ Z.eq_dec dims (-1)%Z) as [| [| n]]; [| | discriminate].
  - destruct (numel_of (map Z.to_nat dims) =? numel t); [| discriminate].
    intros E. now injection E as <-.
  - destruct (numel_of (map Z.to_nat (remove Z.eq_dec (-1)%Z dims)) =? 0);
      [discriminate |].
    destruct (numel t mod numel_of (map Z.to_nat (remove Z.eq_dec (-1)%Z dims))
              =? 0); [| discriminate].
    intros E. now injection E as <-.
Qed.

Lemma split_heads_data x nh y : split_heads x nh = Ok y -> data y = data x.
Proof.
  unfold split_heads. intros H.
  apply rbind_inv in H as (c & _ & H).
  apply rbind_inv in H as (s0 & _ & H).
  apply rbind_inv in H as (s1 & _ & H).
  apply rbind_inv in H as (s2 & _ & H).
  apply rbind_inv in H as (s3 & _ & H).
  apply rbind_inv in H as (ph & _ & H).
  apply rbind_inv in H as (n & _ & H).
  apply rbind_inv in H as (c' & _ & H).
  now apply view_data in H.
Qed.

Lemma flatten_data t s e y : flatten t s e = Ok y -> data y = data t.
Proof.
  unfold flatten. destruct (e <? length (shape t)); [| discriminate].
  destruct (s <=? e); [| discriminate]. intros E. now injection E as <-.
Qed.

Lemma batch_elem_block x B s b :
  shape x = B :: s -> b < B ->
  batch_elem x b = block (numel_of s) b (data x).
Proof.
  intros Hx Hb. unfold batch_elem, numel. rewrite Hx. cbn [ix nth].
  rewrite numel_of_cons, Nat.mul_comm, Nat.div_mul by lia. reflexivity.
Qed.

(** The rows of the flattened query, key and value matrices that belong to
    batch element [b] form one block of consecutive rows, and they are
    computed from batch element [b] of the input alone. *)
Lemma projections_local self x x' g g1 g1' tr tr'
      B D H W Dq Hq Wq n ck cv co Cin b :
  shape x = [B; Cin; D; H; W] -> shape x' = [B; Cin; D; H; W] ->
  b < B -> batch_elem x b = batch_elem x' b ->
  forward_trace self x g = Ok (tr, g1) ->
  forward_trace self x' g = Ok (tr', g1') ->
  trace_shapes tr B D H W Dq Hq Wq n ck cv co ->
  trace_shapes tr' B D H W Dq Hq Wq n ck cv co ->
  ck / n * n = ck -> cv / n * n = cv ->
  row_block (q3 tr) (Dq * Hq * Wq * n) b
  = row_block (q3 tr') (Dq * Hq * Wq * n) b /\
  row_block (k3 tr) (D * H * W * n) b = row_block (k3 tr') (D * H * W * n) b /\
  row_block (v3 tr) (D * H * W * n) b = row_block (v3 tr') (D * H * W * n) b.
Proof.
  intros Hx Hx' Hb Hblock E E' S S' Hck Hcv.
  rewrite (batch_elem_block x B _ b Hx Hb),
          (batch_elem_block x' B _ b Hx' Hb) in Hblock.
  pose proof (forward_trace_inv _ _ _ _ _ E) as R.
  pose proof (forward_trace_inv _ _ _ _ _ E') as R'.
  unfold row_block, cols.
  rewrite (sh_q3 S), (sh_k3 S), (sh_v3 S), (sh_q3 S'), (sh_k3 S'), (sh_v3 S').
  cbn [ix nth].
  replace (Dq * Hq * Wq * n * (ck / n)) with (numel_of [Dq; Hq; Wq; ck])
    by (cbn [numel_of fold_right]; rewrite <- Hck at 1; lia).
  replace (D * H * W * n * (ck / n)) with (numel_of [D; H; W; ck])
    by (cbn [numel_of fold_right]; rewrite <- Hck at 1; lia).
  replace (D * H * W * n * (cv / n)) with (numel_of [D; H; W; cv])
    by (cbn [numel_of fold_right]; rewrite <- Hcv at 1; lia).
  rewrite (flatten_data _ _ _ _ (run_q3 R)), (flatten_data _ _ _ _ (run_q3 R')),
          (flatten_data _ _ _ _ (run_k3 R)), (flatten_data _ _ _ _ (run_k3 R')),
          (flatten_data _ _ _ _ (run_v3 R)), (flatten_data _ _ _ _ (run_v3 R')).
  rewrite (split_heads_data _ _ _ (run_q2 R)),
          (split_heads_data _ _ _ (run_q2 R')),
          (split_heads_data _ _ _ (run_k2 R)),
          (split_heads_data _ _ _ (run_k2 R')),
          (split_heads_data _ _ _ (run_v2 R)),
          (split_heads_data _ _ _ (run_v2 R')).
  split; [| split].
  - pose proof (project_query_local self x x' _ _ B Cin D H W b
                  Hx Hx' Hblock Hb (run_q0 R) (run_q0 R')) as H0.
    rewrite (sh_q0 S) in H0. cbn [tl] in H0.
    exact (permute_channel_last_local _ _ _ _ B ck Dq Hq Wq b
             (sh_q0 S) (sh_q0 S') H0 Hb (run_q1 R) (run_q1 R')).
  - pose proof (conv_call_local _ x x' None _ _ B Cin D H W b
                  Hx Hx' Hblock Hb (run_k0 R) (run_k0 R')) as H0.
    rewrite (sh_k0 S) in H0. cbn [tl] in H0.
    exact (permute_channel_last_local _ _ _ _ B ck D H W b
             (sh_k0 S) (sh_k0 S') H0 Hb (run_k1 R) (run_k1 R')).
  - pose proof (conv_call_local _ x x' None _ _ B Cin D H W b
                  Hx Hx' Hblock Hb (run_v0 R) (run_v0 R')) as H0.
    rewrite (sh_v0 S) in H0. cbn [tl] in H0.
    exact (permute_channel_last_local _ _ _ _ B cv D H W b
             (sh_v0 S) (sh_v0 S') H0 Hb (run_v1 R) (run_v1 R')).
Qed.

(** ** A built layer applied to a volume

    The statements of this section are about one layer, returned by the
    constructor for positive counts and put in either mode, and one volume
    with positive spatial extents whose channel count is the layer's
    [in_channel]. *)

Section BuiltLayerOnVolume.

Variables (ic kf vf ofl nh : Z) (p : Q) (lt : string).
Variables (g0 g1 : Generator) (self : multi_head_attention_3d).
Hypothesis built : __init__ ic kf vf ofl nh p lt g0 = Ok (self, g1).
Hypothesis positive : positive_counts ic kf vf ofl nh.

Variables (mode : bool) (x : Tensor) (B D H W : nat) (g : Generator).
Hypothesis vol : volume x B (Z.to_nat ic) D H W.

Lemma built_in_mode : built_with ic kf vf ofl nh lt (train mode self).
Proof.
  apply train_built. exact (init_built _ _ _ _ _ _ _ _ _ _ built).
Qed.

(** [forward] runs to its end, and its values have the expected shapes. *)
Lemma run_on_volume :
  exists tr g',
    forward_trace (train mode self) x g = Ok (tr, g') /\
    runs (train mode self) x g tr g' /\
    trace_shapes tr B D H W
                 (query_extent lt D) (query_extent lt H) (query_extent lt W)
                 (Z.to_nat nh) (Z.to_nat kf) (Z.to_nat vf) (Z.to_nat ofl).
Proof.
  destruct positive as (Hic & Hkf & Hvf & Hof & Hnh).
  destruct vol as (_ & Hx & HD & HH & HW).
  destruct (forward_trace_Ok _ _ _ _ _ _ _ x g B D H W
              built_in_mode Hnh Hic Hkf Hvf Hof Hx HD HH HW)
    as (tr & g' & E & S).
  exists tr, g'. split; [exact E |].
  split; [exact (forward_trace_inv _ _ _ _ _ E) | exact S].
Qed.

(** C3, amended.  A layer built with positive counts, applied to a volume
    [B, in_channel, D, H, W] with positive spatial extents, returns a tensor
    [B, output_filters, Dq, Hq, Wq] where an extent [d] becomes [d] in a
    SAME layer, [floor((d + 2*1 - 3) / 2) + 1] in a DOWN layer and [2 * d]
    in an UP layer. *)
Theorem C3_output_shape :
  exists y g',
    forward (train mode self) x g = Ok (y, g') /\
    (lt = "SAME" -> shape y = [B; Z.to_nat ofl; D; H; W]) /\
    (lt = "DOWN" ->
     shape y = [B; Z.to_nat ofl; halved D; halved H; halved W]) /\
    (lt = "UP" -> shape y = [B; Z.to_nat ofl; 2 * D; 2 * H; 2 * W]) /\
    known_layer_type lt.
Proof.
  destruct run_on_volume as (tr & g' & E & _ & S).
  destruct vol as (_ & _ & HD & HH & HW).
  exists (O3 tr), g'. split; [now apply forward_of_trace |].
  rewrite (sh_O3 S).
  repeat split.
  - intros ->. now rewrite !query_extent_SAME.
  - intros ->. now rewrite !query_extent_DOWN.
  - intros ->. now rewrite !query_extent_UP.
  - exact (built_known _ _ _ _ _ _ _ built_in_mode).
Qed.

(** C4, amended.  The similarity matrix and the attention matrix (before
    and after dropout) have [B * Dq * Hq * Wq * heads] rows, counted at the
    resolution of the query, and [B * D * H * W * heads] columns, counted at
    the resolution of the input: the matrix is square in a SAME layer, and
    has the halved, respectively doubled, extents in its row count in a DOWN
    and in an UP layer. *)
Theorem C4_attention_map_shape :
  exists tr g',
    forward_trace (train mode self) x g = Ok (tr, g') /\
    shape (A0 tr) = shape (A1 tr) /\ shape (A2 tr) = shape (A1 tr) /\
    (lt = "SAME" ->
     shape (A1 tr) = [B * D * H * W * Z.to_nat nh;
                      B * D * H * W * Z.to_nat nh]) /\
    (lt = "DOWN" ->
     shape (A1 tr) = [B * halved D * halved H * halved W * Z.to_nat nh;
                      B * D * H * W * Z.to_nat nh]) /\
    (lt = "UP" ->
     shape (A1 tr) = [B * (2 * D) * (2 * H) * (2 * W) * Z.to_nat nh;
                      B * D * H * W * Z.to_nat nh]) /\
    known_layer_type lt.
Proof.
  destruct run_on_volume as (tr & g' & E & _ & S).
  destruct vol as (_ & _ & HD & HH & HW).
  exists tr, g'. split; [assumption |].
  rewrite (sh_A0 S), (sh_A1 S), (sh_A2 S).
  repeat split.
  - intros ->. now rewrite !query_extent_SAME.
  - intros ->. now rewrite !query_extent_DOWN.
  - intros ->. now rewrite !query_extent_UP.
  - exact (built_known _ _ _ _ _ _ _ built_in_mode).
Qed.

(** C6.  In every layer type, [forward] applies the key and the value
    projection, two convolutions of kernel 1, stride 1 and padding 0, to its
    argument [inputs] itself; the results have the shapes
    [B, key_filters, D, H, W] and [B, value_filters, D, H, W], at the
    resolution of the input. *)
Theorem C6_key_value_at_input_resolution :
  exists tr g',
    forward_trace (train mode self) x g = Ok (tr, g') /\
    conv_call (KeyTransform (train mode self)) x None = Ok (k0 tr) /\
    conv_call (ValueTransform (train mode self)) x None = Ok (v0 tr) /\
    conv_geometry (KeyTransform (train mode self)) false
                  (Z.to_nat ic) (Z.to_nat kf) 1 1 0 /\
    conv_geometry (ValueTransform (train mode self)) false
                  (Z.to_nat ic) (Z.to_nat vf) 1 1 0 /\
    shape (k0 tr) = [B; Z.to_nat kf; D; H; W] /\
    shape (v0 tr) = [B; Z.to_nat vf; D; H; W].
Proof.
  destruct run_on_volume as (tr & g' & E & R & S).
  exists tr, g'.
  split; [exact E |].
  split; [exact (run_k0 R) |].
  split; [exact (run_v0 R) |].
  split; [exact (built_key built_in_mode) |].
  split; [exact (built_value built_in_mode) |].
  split; [exact (sh_k0 S) | exact (sh_v0 S)].
Qed.

(** C1, amended.  The rows of the flattened query, key and value matrices
    that belong to batch element [b] form a block of consecutive rows and
    are computed from batch element [b] of the input alone.  The attention
    does not keep the blocks apart: the attention matrix has one column for
    every key row of every batch element, [B * D * H * W * heads] in all,
    and it is the left operand of the product with the values (as the
    softmax returns it when there is no dropout), so that every row of the
    attention output is a sum over the value rows of the whole batch, each
    multiplied by its entry of the attention matrix. *)
Theorem C1_attention_spans_the_batch :
  exists tr g',
    forward_trace (train mode self) x g = Ok (tr, g') /\
    (forall x' tr' g'' b,
        volume x' B (Z.to_nat ic) D H W -> b < B ->
        batch_elem x b = batch_elem x' b ->
        forward_trace (train mode self) x' g = Ok (tr', g'') ->
        row_block (q3 tr) (query_extent lt D * query_extent lt H
                           * query_extent lt W * Z.to_nat nh) b
        = row_block (q3 tr') (query_extent lt D * query_extent lt H
                              * query_extent lt W * Z.to_nat nh) b /\
        row_block (k3 tr) (D * H * W * Z.to_nat nh) b
        = row_block (k3 tr') (D * H * W * Z.to_nat nh) b /\
        row_block (v3 tr) (D * H * W * Z.to_nat nh) b
        = row_block (v3 tr') (D * H * W * Z.to_nat nh) b) /\
    rows (A1 tr) = B * query_extent lt D * query_extent lt H
                   * query_extent lt W * Z.to_nat nh /\
    cols (A1 tr) = B * D * H * W * Z.to_nat nh /\
    rows (v3 tr) = B * D * H * W * Z.to_nat nh /\
    rows (O0 tr) = rows (A1 tr) /\
    (no_dropout (train mode self) -> A2 tr = A1 tr) /\
    (forall r c, r < rows (O0 tr) -> c < cols (O0 tr) ->
                 get (O0 tr) [r; c]
                 = sum_upto (B * D * H * W * Z.to_nat nh)
                     (fun s => (get (A2 tr) [r; s] * get (v3 tr) [s; c])%R)).
Proof.
  destruct run_on_volume as (tr & g' & E & R & S).
  pose proof built_in_mode as Hb.
  destruct positive as (Hic & Hkf & Hvf & Hof & Hnh).
  destruct vol as (_ & Hx & HD & HH & HW).
  exists tr, g'. split; [assumption |]. split.
  { intros x' tr' g'' b (_ & Hx' & _) Hlt Hblock E'.
    destruct (forward_trace_Ok _ _ _ _ _ _ _ x' g B D H W
                Hb Hnh Hic Hkf Hvf Hof Hx' HD HH HW) as (tr2 & g2 & E2 & S').
    rewrite E' in E2. injection E2 as <- <-.
    destruct (heads_divide_nat kf nh Hnh ltac:(lia) (built_key_div Hb))
      as (_ & Hck).
    destruct (heads_divide_nat vf nh Hnh ltac:(lia) (built_value_div Hb))
      as (_ & Hcv).
    exact (projections_local _ x x' g g' g'' tr tr' B D H W _ _ _ _ _ _ _ _ b
             Hx Hx' Hlt Hblock E E' S S' Hck Hcv). }
  unfold rows, cols.
  rewrite (sh_A1 S), (sh_v3 S), (sh_O0 S). cbn [ix nth].
  repeat split.
  - intros Hoff. pose proof (run_A2 R) as Ed.
    rewrite (dropout_call_off _ _ _ Hoff) in Ed. now injection Ed as ->.
  - intros r c Hr Hc.
    exact (matmul_get _ _ _ _ _ _ r c (sh_A2 S) (sh_v3 S) (run_O0 R) Hr Hc).
Qed.

End BuiltLayerOnVolume.

(** ** Instances and counterexamples *)

Lemma C3_output_shape_witness :
  exists self g1 y g',
    __init__ 4 4 4 8 2 (1 # 2) "DOWN" gen0 = Ok (self, g1) /\
    positive_counts 4 4 4 8 2 /\
    volume (zeros [1; 4; 6; 6; 6]) 1 4 6 6 6 /\
    forward (train false self) (zeros [1; 4; 6; 6; 6]) gen0 = Ok (y, g') /\
    shape y = [1; 8; 3; 3; 3].
Proof.
  destruct (__init__ 4 4 4 8 2 (1 # 2) "DOWN" gen0) as [[self g1] | e] eqn:E;
    [| vm_compute in E; discriminate E].
  assert (Hp : positive_counts 4 4 4 8 2) by (unfold positive_counts; lia).
  assert (Hv : volume (zeros [1; 4; 6; 6; 6]) 1 (Z.to_nat 4) 6 6 6).
  { unfold volume. repeat split; try lia. }
  destruct (C3_output_shape 4 4 4 8 2 (1 # 2) "DOWN" gen0 g1 self E Hp false
              (zeros [1; 4; 6; 6; 6]) 1 6 6 6 gen0 Hv)
    as (y & g' & Ef & _ & Hdown & _).
  exists self, g1, y, g'. repeat split; try assumption; try lia.
  exact (Hdown eq_refl).
Defined.

(** C3, the claim as stated fails.  A DOWN layer built for one input
    channel is given the volume [1, 1, 0, 6, 6], whose channel count is the
    layer's [in_channel]: [forward] raises and returns no tensor, where the
    claim has it return one of shape [1, 3, 0, 3, 3].  A SAME layer built
    with the number of heads -2, which the constructor accepts, raises on
    the volume [1, 1, 2, 2, 2]. *)
Lemma C3_counterexample :
  (exists self g1,
      __init__ 1 2 2 3 1 (1 # 2) "DOWN" gen0 = Ok (self, g1) /\
      shape (zeros [1; 1; 0; 6; 6]) = [1; Z.to_nat 1; 0; 6; 6] /\
      forward self (zeros [1; 1; 0; 6; 6]) g1
      = Raise (RuntimeError
                 "Kernel size can't be greater than actual input size") /\
      forall y g', forward self (zeros [1; 1; 0; 6; 6]) g1 <> Ok (y, g')) /\
  (exists self g1,
      __init__ 1 4 4 8 (-2) (1 # 2) "SAME" gen0 = Ok (self, g1) /\
      shape (zeros [1; 1; 2; 2; 2]) = [1; Z.to_nat 1; 2; 2; 2] /\
      forward self (zeros [1; 1; 2; 2; 2]) g1
      = Raise (RuntimeError "invalid shape dimension") /\
      forall y g', forward self (zeros [1; 1; 2; 2; 2]) g1 <> Ok (y, g')).
Proof.
  split.
  - eexists. eexists.
    split; [evaluate; reflexivity |].
    split; [reflexivity |].
    assert (E : forall s g,
               forward s (zeros [1; 1; 0; 6; 6]) g
               = Raise (RuntimeError
                          "Kernel size can't be greater than actual input size")
               -> forall y g', forward s (zeros [1; 1; 0; 6; 6]) g
                               <> Ok (y, g'))
      by (intros s g -> y g'; discriminate).
    split; [| apply E]; evaluate; reflexivity.
  - eexists. eexists.
    split; [evaluate; reflexivity |].
    split; [reflexivity |].
    assert (E : forall s g,
               forward s (zeros [1; 1; 2; 2; 2]) g
               = Raise (RuntimeError "invalid shape dimension")
               -> forall y g', forward s (zeros [1; 1; 2; 2; 2]) g
                               <> Ok (y, g'))
      by (intros s g -> y g'; discriminate).
    split; [| apply E]; evaluate; reflexivity.
Qed.

(** The three shape laws of the specification, on a volume [1, 4, 6, 6, 6]
    with key_filters = value_filters = 4, output_filters = 8 and two
    heads. *)
Lemma shape_law ic kf vf ofl nh p lt s B D H W :
  positive_counts ic kf vf ofl nh ->
  channel_count ic -> channel_count kf -> channel_count vf ->
  channel_count ofl ->
  (0 <= p)%Q -> (p <= 1)%Q ->
  heads_divide kf nh -> heads_divide vf nh -> known_layer_type lt ->
  s = [B; Z.to_nat ic; D; H; W] -> 0 < D -> 0 < H -> 0 < W ->
  exists self g1 y g',
    __init__ ic kf vf ofl nh p lt gen0 = Ok (self, g1) /\
    forward self (zeros s) g1 = Ok (y, g') /\
    shape y = [B; Z.to_nat ofl; query_extent lt D; query_extent lt H;
               query_extent lt W].
Proof.
  intros (Hic & Hkf & Hvf & Hof & Hnh) Cic Ckf Cvf Cof H0 H1 Hkd Hvd Hlt
         -> HD HH HW.
  assert (Hnz : nh <> 0%Z) by lia.
  destruct (allocate_Ok ic kf vf ofl nh p lt gen0 Hnz Hlt Cic Ckf Cvf Cof H0 H1)
    as (self & g1 & Ea).
  assert (Ei : __init__ ic kf vf ofl nh p lt gen0 = Ok (self, g1)).
  { rewrite (init_checks _ _ _ _ _ _ _ _ Hnz).
    unfold heads_divide in Hkd, Hvd. rewrite Hkd, Hvd.
    apply str_in_In in Hlt. rewrite Hlt. exact Ea. }
  destruct (forward_trace_Ok ic kf vf ofl nh lt self
              (zeros [B; Z.to_nat ic; D; H; W]) g1 B D H W
              (init_built _ _ _ _ _ _ _ _ _ _ Ei) Hnh Hic Hkf Hvf Hof
              eq_refl HD HH HW) as (tr & g' & Et & S).
  exists self, g1, (O3 tr), g'.
  split; [exact Ei |]. split; [now apply forward_of_trace | exact (sh_O3 S)].
Qed.

Example shape_law_SAME :
  exists self g1 y g',
    __init__ 4 4 4 8 2 (1 # 2) "SAME" gen0 = Ok (self, g1) /\
    forward self (zeros [1; 4; 6; 6; 6]) g1 = Ok (y, g') /\
    shape y = [1; 8; 6; 6; 6].
Proof.
  apply (shape_law 4 4 4 8 2 (1 # 2) "SAME" _ 1 6 6 6);
    unfold positive_counts, known_layer_type, heads_divide, Qle,
           channel_count, int64_max;
    cbn; try lia; tauto.
Qed.

Example shape_law_DOWN :
  exists self g1 y g',
    __init__ 4 4 4 8 2 (1 # 2) "DOWN" gen0 = Ok (self, g1) /\
    forward self (zeros [1; 4; 6; 6; 6]) g1 = Ok (y, g') /\
    shape y = [1; 8; 3; 3; 3].
Proof.
  apply (shape_law 4 4 4 8 2 (1 # 2) "DOWN" _ 1 6 6 6);
    unfold positive_counts, known_layer_type, heads_divide, Qle,
           channel_count, int64_max;
    cbn; try lia; tauto.
Qed.

Example shape_law_UP :
  exists self g1 y g',
    __init__ 4 4 4 8 2 (1 # 2) "UP" gen0 = Ok (self, g1) /\
    forward self (zeros [1; 4; 6; 6; 6]) g1 = Ok (y, g') /\
    shape y = [1; 8; 12; 12; 12].
Proof.
  apply (shape_law 4 4 4 8 2 (1 # 2) "UP" _ 1 6 6 6);
    unfold positive_counts, known_layer_type, heads_divide, Qle,
           channel_count, int64_max;
    cbn; try lia; tauto.
Qed.

(** The call at the end of the source file: an UP layer with one input
    channel on a volume [1, 1, 2, 6, 6]. *)
Example main_call :
  exists self g1 y g',
    __init__ 1 2 2 3 1 (1 # 2) "UP" gen0 = Ok (self, g1) /\
    forward self (zeros [1; 1; 2; 6; 6]) g1 = Ok (y, g') /\
    shape y = [1; 3; 4; 12; 12].
Proof.
  apply (shape_law 1 2 2 3 1 (1 # 2) "UP" _ 1 2 6 6);
    unfold positive_counts, known_layer_type, heads_divide, Qle,
           channel_count, int64_max;
    cbn; try lia; tauto.
Qed.

(** C4, the claim as stated fails.  In a DOWN layer applied to a volume
    [1, 1, 2, 2, 2] the similarity matrix and the attention matrix have one
    row and eight columns: they are not square. *)
Lemma C4_counterexample :
  exists self g1 tr g2,
    __init__ 1 1 1 1 1 (1 # 2) "DOWN" gen0 = Ok (self, g1) /\
    forward_trace self (zeros [1; 1; 2; 2; 2]) g1 = Ok (tr, g2) /\
    shape (A0 tr) = [1; 8] /\ shape (A1 tr) = [1; 8] /\
    shape (A1 tr) <> [1 * 2 * 2 * 2 * 1; 1 * 2 * 2 * 2 * 1].
Proof.
  destruct (__init__ 1 1 1 1 1 (1 # 2) "DOWN" gen0) as [[self g1] | e] eqn:E;
    [| vm_compute in E; discriminate E].
  destruct (forward_trace_Ok 1 1 1 1 1 "DOWN" self (zeros [1; 1; 2; 2; 2]) g1
              1 2 2 2 (init_built _ _ _ _ _ _ _ _ _ _ E))
    as (tr & g2 & Et & S); try lia; try reflexivity.
  exists self, g1, tr, g2.
  rewrite (sh_A0 S), (sh_A1 S).
  repeat split; try assumption. discriminate.
Qed.

Lemma C4_attention_map_shape_witness :
  exists self g1 tr g',
    __init__ 1 2 2 3 1 (1 # 2) "UP" gen0 = Ok (self, g1) /\
    positive_counts 1 2 2 3 1 /\
    volume (zeros [1; 1; 2; 6; 6]) 1 1 2 6 6 /\
    forward_trace (train true self) (zeros [1; 1; 2; 6; 6]) g1 = Ok (tr, g') /\
    shape (A1 tr) = [576; 72].
Proof.
  destruct (__init__ 1 2 2 3 1 (1 # 2) "UP" gen0) as [[self g1] | e] eqn:E;
    [| vm_compute in E; discriminate E].
  assert (Hp : positive_counts 1 2 2 3 1) by (unfold positive_counts; lia).
  assert (Hv : volume (zeros [1; 1; 2; 6; 6]) 1 (Z.to_nat 1) 2 6 6).
  { unfold volume. repeat split; try lia. }
  destruct (C4_attention_map_shape 1 2 2 3 1 (1 # 2) "UP" gen0 g1 self E Hp true
              (zeros [1; 1; 2; 6; 6]) 1 2 6 6 g1 Hv)
    as (tr & g' & Et & _ & _ & _ & _ & Hup & _).
  exists self, g1, tr, g'. repeat split; try assumption; try lia.
  exact (Hup eq_refl).
Defined.

Lemma C6_key_value_at_input_resolution_witness :
  exists self g1 tr g',
    __init__ 1 2 4 3 2 (1 # 2) "DOWN" gen0 = Ok (self, g1) /\
    positive_counts 1 2 4 3 2 /\
    volume (zeros [2; 1; 6; 4; 2]) 2 1 6 4 2 /\
    forward_trace (train true self) (zeros [2; 1; 6; 4; 2]) g1 = Ok (tr, g') /\
    shape (q0 tr) = [2; 2; 3; 2; 1] /\
    shape (k0 tr) = [2; 2; 6; 4; 2] /\
    shape (v0 tr) = [2; 4; 6; 4; 2].
Proof.
  destruct (__init__ 1 2 4 3 2 (1 # 2) "DOWN" gen0) as [[self g1] | e] eqn:E;
    [| vm_compute in E; discriminate E].
  assert (Hp : positive_counts 1 2 4 3 2) by (unfold positive_counts; lia).
  assert (Hv : volume (zeros [2; 1; 6; 4; 2]) 2 (Z.to_nat 1) 6 4 2).
  { unfold volume. repeat split; try lia. }
  destruct (C6_key_value_at_input_resolution 1 2 4 3 2 (1 # 2) "DOWN" gen0 g1
              self E Hp true (zeros [2; 1; 6; 4; 2]) 2 6 4 2 g1 Hv)
    as (tr & g' & Et & Ek & Ev & _ & _ & Sk & Sv).
  exists self, g1, tr, g'. repeat split; try assumption; try lia.
  destruct (forward_trace_Ok 1 2 4 3 2 "DOWN" (train true self)
              (zeros [2; 1; 6; 4; 2]) g1 2 6 4 2
              (train_built _ _ _ _ _ _ _ true (init_built _ _ _ _ _ _ _ _ _ _ E)))
    as (tr2 & g2 & Et2 & S2); try lia; try reflexivity.
  rewrite Et in Et2. injection Et2 as <- <-. exact (sh_q0 S2).
Defined.

(** Arguments of [exp] that are zero by ring identities. *)
Ltac exp_of_zero :=
  repeat match goal with
         | |- context [exp ?a] =>
             lazymatch a with
             | 0%R => fail
             | _ => replace a with 0%R by (unfold Rdiv; ring)
             end
         end;
  rewrite ?exp_0.

(** The two elements of an evaluated result are [a] and [b]. *)
Ltac two_elements a b :=
  match goal with
  | |- Ok ({| shape := _; data := [?u; ?v] |}, _) = _ =>
      replace u with a; [replace v with b; [reflexivity |] |]
  end.

(** C1, the claim as stated fails.  The layer built from [gen_half] with
    one channel everywhere, one head and dropout probability 0 maps the
    batch [[0], [0]] to [[0], [0]] and the batch [[0], [2]] to
    [[1/4], [1/4]]: the two inputs agree on batch element 0, the two
    outputs do not. *)
Lemma C1_counterexample :
  exists self g1,
    __init__ 1 1 1 1 1 0 "SAME" gen_half = Ok (self, g1) /\
    no_dropout self /\
    shape batch_a = shape batch_b /\
    batch_elem batch_a 0 = batch_elem batch_b 0 /\
    forward self batch_a g1 = Ok (mkTensor [2; 1; 1; 1; 1] [0; 0]%R, g1) /\
    forward self batch_b g1
    = Ok (mkTensor [2; 1; 1; 1; 1] [1 / 4; 1 / 4]%R, g1) /\
    batch_elem (mkTensor [2; 1; 1; 1; 1] [0; 0]%R) 0
    <> batch_elem (mkTensor [2; 1; 1; 1; 1] [1 / 4; 1 / 4]%R) 0.
Proof.
  eexists. eexists.
  split; [evaluate; reflexivity |].
  split; [left; reflexivity |].
  split; [reflexivity |].
  split; [reflexivity |].
  split; [| split].
  - evaluate. two_elements 0%R 0%R; exp_of_zero; field.
  - evaluate. two_elements (1 / 4)%R (1 / 4)%R; exp_of_zero; field.
  - evaluate. intros H. injection H as H. lra.
Qed.

Lemma C1_attention_spans_the_batch_witness :
  exists self g1 tr g',
    __init__ 1 1 1 1 1 0 "SAME" gen_half = Ok (self, g1) /\
    positive_counts 1 1 1 1 1 /\
    volume batch_b 2 1 1 1 1 /\
    forward_trace (train true self) batch_b g1 = Ok (tr, g') /\
    rows (A1 tr) = 2 /\ cols (A1 tr) = 2 /\ rows (v3 tr) = 2 /\
    A2 tr = A1 tr.
Proof.
  destruct (__init__ 1 1 1 1 1 0 "SAME" gen_half) as [[self g1] | e] eqn:E;
    [| vm_compute in E; discriminate E].
  assert (Hp : positive_counts 1 1 1 1 1) by (unfold positive_counts; lia).
  assert (Hv : volume batch_b 2 (Z.to_nat 1) 1 1 1).
  { unfold volume. repeat split; try lia. }
  destruct (C1_attention_spans_the_batch 1 1 1 1 1 0 "SAME" gen_half g1
              self E Hp true batch_b 2 1 1 1 g1 Hv)
    as (tr & g' & Et & _ & Hr & Hc & Hv3 & _ & Hoff & _).
  exists self, g1, tr, g'.
  split; [reflexivity |]. split; [exact Hp |]. split; [exact Hv |].
  split; [exact Et |]. split; [exact Hr |]. split; [exact Hc |].
  split; [exact Hv3 |].
  apply Hoff. left.
  cbn [train attention_dropout dropout_p].
  now rewrite (init_dropout_p _ _ _ _ _ _ _ _ _ _ E).
Defined.

(** ** Determinism *)

(** C8.  With a dropout probability equal to zero, or in evaluation mode,
    what [forward] returns (or raises) on a given input does not depend on
    the state of the generator, and the call leaves the generator as it
    found it: two calls on the same input give the same tensor. *)
Theorem C8_determinism
        (ic kf vf ofl nh : Z) (p : Q) (lt : string) (g0 g1 : Generator)
        (self : multi_head_attention_3d) (mode : bool) (x : Tensor)
        (ga gb : Generator) :
  __init__ ic kf vf ofl nh p lt g0 = Ok (self, g1) ->
  (p == 0)%Q \/ mode = false ->
  outcome (forward (train mode self) x ga)
  = outcome (forward (train mode self) x gb) /\
  forall y g', forward (train mode self) x ga = Ok (y, g') ->
               g' = ga /\ forward (train mode self) x g' = Ok (y, g').
Proof.
  intros Hi Hp.
  assert (Hoff : no_dropout (train mode self)).
  { apply no_dropout_train. destruct Hp as [Hp | Hp]; [left | now right].
    rewrite (init_dropout_p _ _ _ _ _ _ _ _ _ _ Hi).
    now apply Qeq_bool_iff. }
  split.
  - rewrite (forward_no_dropout _ x ga Hoff), (forward_no_dropout _ x gb Hoff).
    destruct (forward (train mode self) x gen0) as [[y g'] | e]; reflexivity.
  - intros y g' E. rewrite (forward_no_dropout _ x ga Hoff) in E.
    rewrite (forward_no_dropout _ x g' Hoff).
    destruct (forward (train mode self) x gen0) as [[y0 g''] | e];
      [| discriminate E].
    injection E as <- <-. split; reflexivity.
Qed.

Lemma C8_determinism_witness :
  exists self g1,
    __init__ 1 2 2 3 1 (1 # 2) "SAME" gen0 = Ok (self, g1) /\
    ((1 # 2 == 0)%Q \/ false = false) /\
    outcome (forward (train false self) (zeros [1; 1; 1; 1; 2]) g1)
    = outcome (forward (train false self) (zeros [1; 1; 1; 1; 2]) gen0).
Proof.
  destruct (__init__ 1 2 2 3 1 (1 # 2) "SAME" gen0) as [[self g1] | e] eqn:E;
    [| vm_compute in E; discriminate E].
  exists self, g1. split; [reflexivity |].
  assert (Hp : (1 # 2 == 0)%Q \/ false = false) by (right; reflexivity).
  split; [exact Hp |].
  exact (proj1 (C8_determinism 1 2 2 3 1 (1 # 2) "SAME" gen0 g1 self false
                  (zeros [1; 1; 1; 1; 2]) g1 gen0 E Hp)).
Defined.

(** ** Frame *)

(** *** Rules for the steps of a run *)

Lemma kept_refl m : kept m m.
Proof. unfold kept. repeat split; auto. Qed.

Lemma rng_effect_refl m : rng_effect m m.
Proof. now left. Qed.

Lemma advance_advance g j k : advance (advance g j) k = advance g (j + k).
Proof. unfold advance. cbn. f_equal. lia. Qed.

Lemma set_cell_length h l t : length (set_cell h l t) = length h.
Proof.
  revert l. induction h as [| a h IH]; intros [| l]; cbn; auto.
Qed.

Lemma set_cell_other h l t j :
  j <> l -> nth_error (set_cell h l t) j = nth_error h j.
Proof.
  revert l j. induction h as [| a h IH]; intros [| l] [| j] Hne; cbn; auto;
    try congruence.
Qed.

Lemma frame_unit A m0 (a : A) (Q : A -> Prop) :
  Q a -> frame_safe m0 (unit_ a) Q.
Proof.
  intros Hq m Hk Hr. cbn. split; [exact Hk |]. split; [exact Hr |].
  intros b E. now injection E as <-.
Qed.

Lemma frame_then A B m0 (c : Run A) (k : A -> Run B)
      (Q : A -> Prop) (Q' : B -> Prop) :
  frame_safe m0 c Q -> (forall a, Q a -> frame_safe m0 (k a) Q') ->
  frame_safe m0 (then_ c k) Q'.
Proof.
  intros Hc Hk m Hm Hr. unfold then_.
  destruct (Hc m Hm Hr) as (H1 & H2 & H3).
  destruct (c m) as [[a | e] m1]; cbn [fst snd] in *.
  - exact (Hk a (H3 a eq_refl) m1 H1 H2).
  - split; [exact H1 |]. split; [exact H2 |]. intros a E. discriminate E.
Qed.

Lemma frame_weaken A m0 (c : Run A) (Q Q' : A -> Prop) :
  frame_safe m0 c Q -> (forall a, Q a -> Q' a) -> frame_safe m0 c Q'.
Proof.
  intros Hc Hq m Hm Hr. destruct (Hc m Hm Hr) as (H1 & H2 & H3).
  split; [exact H1 |]. split; [exact H2 |]. intros a E. auto.
Qed.

Lemma frame_pure A m0 (r : result A) : frame_safe m0 (pure r) (fun _ => True).
Proof. intros m Hm Hr. cbn. split; [exact Hm |]. split; [exact Hr | trivial]. Qed.

Lemma frame_attr A m0 (f : LayerObj -> A) :
  frame_safe m0 (attr f) (fun a => a = f (this m0)).
Proof.
  intros m Hm Hr. cbn. split; [exact Hm |]. split; [exact Hr |].
  intros a E. injection E as <-. destruct Hm as (-> & _). reflexivity.
Qed.

Lemma frame_load m0 l : frame_safe m0 (load l) (fun _ => True).
Proof.
  intros m Hm Hr. unfold load.
  destruct (nth_error (heap m) l); cbn;
    (split; [exact Hm |]; split; [exact Hr | trivial]).
Qed.

Lemma frame_new m0 t :
  frame_safe m0 (new t) (fun l => length (heap m0) <= l).
Proof.
  intros m (Ht & Hl & Hn) Hr. unfold new. cbn [fst snd].
  split; [| split].
  - unfold kept. cbn [this heap]. split; [exact Ht |].
    rewrite length_app. split; [lia |].
    intros l Hlt. rewrite nth_error_app1 by lia. now apply Hn.
  - exact Hr.
  - intros a E. injection E as <-. exact Hl.
Qed.

Lemma frame_overwrite m0 l t :
  length (heap m0) <= l -> frame_safe m0 (overwrite l t) (fun _ => True).
Proof.
  intros Hfresh m (Ht & Hl & Hn) Hr. unfold overwrite. cbn [fst snd].
  split; [| split; [exact Hr | trivial]].
  unfold kept. cbn [this heap]. split; [exact Ht |].
  rewrite set_cell_length. split; [exact Hl |].
  intros j Hj. rewrite set_cell_other by lia. now apply Hn.
Qed.

Lemma frame_sample_dropout m0 t :
  frame_safe m0
    (sample (dropout_call
               (mkDropout (obj_p (obj_attention_dropout (this m0)))
                          (obj_training (obj_attention_dropout (this m0))))
               t))
    (fun _ => True).
Proof.
  intros m Hm Hr. unfold sample.
  destruct (dropout_call _ t (rng m)) as [[y g'] | e] eqn:E; cbn [fst snd];
    [| split; [exact Hm |]; split; [exact Hr | trivial]].
  split; [exact Hm |]. split; [| trivial].
  apply dropout_call_effect in E.
  cbn [dropout_p dropout_training] in E.
  unfold rng_effect in *. cbn [rng this].
  destruct E as [(_ & ->) | [(_ & -> & _) | (_ & -> & Ht & Hp)]];
    try exact Hr.
  right. destruct Hr as [-> | (k & -> & _)].
  - now exists (numel t).
  - exists (k + numel t). rewrite advance_advance. now repeat split.
Qed.

Ltac frame_steps rule :=
  repeat first
    [ eapply frame_then; [solve [rule] | intros ? ?]
    | solve [rule] ].

Ltac frame_prim :=
  first [ apply frame_pure | apply frame_attr | apply frame_load
        | apply frame_new | apply frame_sample_dropout ].

Lemma frame_op1 m0 f x :
  frame_safe m0 (op1 f x) (fun l => length (heap m0) <= l).
Proof. unfold op1. frame_steps frame_prim. Qed.

Lemma frame_op2 m0 f x y :
  frame_safe m0 (op2 f x y) (fun l => length (heap m0) <= l).
Proof. unfold op2. frame_steps frame_prim. Qed.

Lemma frame_shape_of m0 x i : frame_safe m0 (shape_of x i) (fun _ => True).
Proof. unfold shape_of. frame_steps frame_prim. Qed.

Lemma frame_shape_last_of m0 x :
  frame_safe m0 (shape_last_of x) (fun _ => True).
Proof. unfold shape_last_of. frame_steps frame_prim. Qed.

Lemma frame_conv_obj_call m0 c x size :
  frame_safe m0 (conv_obj_call c x size) (fun l => length (heap m0) <= l).
Proof. unfold conv_obj_call. frame_steps frame_prim. Qed.

(** The dropout module writes, with [inplace], into its argument: the
    frame needs the argument to be an object the call has created. *)
Lemma frame_dropout_obj_call m0 x :
  length (heap m0) <= x ->
  frame_safe m0 (dropout_obj_call (obj_attention_dropout (this m0)) x)
             (fun l => length (heap m0) <= l).
Proof.
  intros Hx. unfold dropout_obj_call.
  eapply frame_then; [apply frame_load | intros t _].
  eapply frame_then; [apply frame_sample_dropout | intros r _].
  destruct (obj_inplace _).
  - eapply frame_then; [now apply frame_overwrite | intros _ _].
    now apply frame_unit.
  - apply frame_new.
Qed.

Ltac frame_call :=
  first [ frame_prim | apply frame_op1 | apply frame_op2
        | apply frame_shape_of | apply frame_shape_last_of
        | apply frame_conv_obj_call ].

Lemma frame_project_query_run m0 inputs :
  frame_safe m0 (project_query_run inputs) (fun _ => True).
Proof.
  unfold project_query_run.
  eapply frame_then; [apply frame_attr | intros lt _].
  destruct (_ || _).
  - frame_steps frame_call.
  - destruct (String.eqb lt "UP").
    + frame_steps frame_call.
    + now apply frame_unit.
Qed.

Lemma frame_forward_run m0 inputs :
  frame_safe m0 (forward_run inputs) (fun l => length (heap m0) <= l).
Proof.
  unfold forward_run.
  eapply frame_then; [apply frame_project_query_run | intros q _].
  do 26 (eapply frame_then; [solve [frame_call] | intros ? ?]).
  eapply frame_then; [apply frame_attr | intros dm ->].
  eapply frame_then; [now apply frame_dropout_obj_call | intros ? ?].
  frame_steps frame_call. now apply frame_unit.
Qed.

(** *** The run and the function *)

Ltac heap_eval :=
  lazy beta iota zeta delta
      [then_ unit_ pure attr load new overwrite sample op1 op2 shape_of
       shape_last_of conv_obj_call dropout_obj_call
       boot conv_obj input_ref this heap rng nth_error app length fst snd
       obj_transposed obj_in_channels obj_out_channels obj_kernel_size
       obj_stride obj_padding obj_weight obj_bias obj_p obj_inplace
       obj_training obj_num_heads obj_layer_type obj_QueryTransform
       obj_KeyTransform obj_ValueTransform obj_attention_dropout
       obj_outputConv obj_scale obj_flag
       num_heads layer_type QueryTransform KeyTransform ValueTransform
       attention_dropout outputConv _scale training
       transposed in_channels out_channels kernel_size stride padding
       weight bias dropout_p dropout_training
       O3 bind lift ret rbind callable bound].

(** One statement of [forward], taken in the function and in the run at
    once: the library call both are about to make either raises, and both
    stop, or returns, and both go on. *)
Ltac heap_step :=
  match goal with
  | |- context [match ?r with Ok _ => _ | Raise _ => _ end] =>
      lazymatch r with
      | context [match _ with Ok _ => _ | Raise _ => _ end] => fail
      | _ => destruct r as [? | ?] eqn:?;
             try match goal with
                 | p : (_ * Generator)%type |- _ => destruct p
                 end;
             heap_eval; try reflexivity
      end
  end.

(** On the machine the caller sets up, the run does what [forward] does:
    it returns a reference to the tensor [forward] returns and leaves the
    generator [forward] leaves, or raises the exception [forward] raises. *)
Lemma forward_run_boot self x g :
  match forward self x g, forward_run input_ref (boot self x g) with
  | Ok (y, g'), (Ok l, m') => nth_error (heap m') l = Some y /\ rng m' = g'
  | Raise e, (Raise e', _) => e = e'
  | _, _ => False
  end.
Proof.
  destruct self as [nh lt q [kt ki ko kk ks kp kw kb] [vt vi vo vk vs vp vw vb]
                      [p tr] [ot oi oo ok os op ow ob] sc fl].
  unfold forward, forward_trace, forward_run, project_query, project_query_run.
  heap_eval.
  destruct (_ || _); [| destruct (String.eqb lt "UP")];
    destruct q as [[qt qi qo qk qs qp qw qb] |]; heap_eval;
    repeat heap_step; split; reflexivity.
Qed.

Lemma boot_heap self x g :
  firstn 7 (heap (boot self x g))
  = [weight (KeyTransform self); bias (KeyTransform self);
     weight (ValueTransform self); bias (ValueTransform self);
     weight (outputConv self); bias (outputConv self); x] /\
  forall q, QueryTransform self = Some q ->
            nth_error (heap (boot self x g)) 7 = Some (weight q) /\
            nth_error (heap (boot self x g)) 8 = Some (bias q).
Proof.
  split; [reflexivity |]. intros q E. unfold boot. rewrite E. now split.
Qed.

Lemma kept_firstn m m' n :
  kept m m' -> n <= length (heap m) ->
  firstn n (heap m') = firstn n (heap m).
Proof.
  intros (_ & Hl & Hn) Hle. apply nth_error_ext. intros i.
  destruct (Nat.lt_ge_cases i n) as [Hi | Hi].
  - rewrite !nth_error_firstn.
    replace (i <? n) with true by (symmetry; apply Nat.ltb_lt; exact Hi).
    apply Hn. lia.
  - rewrite !nth_error_firstn.
    replace (i <? n) with false by (symmetry; apply Nat.ltb_ge; exact Hi).
    reflexivity.
Qed.

(** C9.  A call of [forward], run on the heap: whether it returns or
    raises, it leaves the layer object and every tensor that existed before
    the call, the input and the parameters among them, as they were; the
    tensor it returns is a new one; and of the generator it changes at most
    the cursor, which moves only when the dropout module, in training mode
    with a probability other than zero, draws its mask.  On the machine
    [boot self x g], that is for the call [self(x)] with the generator in
    state [g], the run returns the tensor and leaves the generator that
    [forward self x g] gives, or raises the same exception, and the weights
    and biases of the four projections and the input are still in their
    places. *)
Theorem C9_forward_frame (m m' : Machine) (inputs : ref) (r : result ref) :
  forward_run inputs m = (r, m') ->
  this m' = this m /\
  length (heap m) <= length (heap m') /\
  (forall l, l < length (heap m) ->
             nth_error (heap m') l = nth_error (heap m) l) /\
  (forall res, r = Ok res -> length (heap m) <= res) /\
  uniform (rng m') = uniform (rng m) /\
  coin (rng m') = coin (rng m) /\
  (rng m' = rng m \/
   exists k, rng m' = advance (rng m) k /\
             obj_training (obj_attention_dropout (this m)) = true /\
             Qeq_bool (obj_p (obj_attention_dropout (this m))) 0 = false) /\
  forall self x g,
    m = boot self x g -> inputs = input_ref ->
    (forall y g', forward self x g = Ok (y, g') ->
                  exists res, r = Ok res /\
                              nth_error (heap m') res = Some y /\
                              rng m' = g') /\
    (forall e, forward self x g = Raise e -> r = Raise e) /\
    firstn 7 (heap m')
    = [weight (KeyTransform self); bias (KeyTransform self);
       weight (ValueTransform self); bias (ValueTransform self);
       weight (outputConv self); bias (outputConv self); x] /\
    (forall q, QueryTransform self = Some q ->
               nth_error (heap m') 7 = Some (weight q) /\
               nth_error (heap m') 8 = Some (bias q)) /\
    (no_dropout self -> rng m' = g).
Proof.
  intros E.
  destruct (frame_forward_run m inputs m (kept_refl m) (rng_effect_refl m))
    as (Hk & Hr & Hq).
  rewrite E in Hk, Hr, Hq. cbn [fst snd] in Hk, Hr, Hq.
  pose proof Hk as (Ht & Hl & Hn).
  split; [exact Ht |]. split; [exact Hl |]. split; [exact Hn |].
  split; [exact Hq |].
  split; [destruct Hr as [-> | (k & -> & _)]; reflexivity |].
  split; [destruct Hr as [-> | (k & -> & _)]; reflexivity |].
  split; [exact Hr |].
  intros self x g -> ->.
  pose proof (forward_run_boot self x g) as Hb. rewrite E in Hb.
  destruct (boot_heap self x g) as (Hp & Hqp).
  split; [| split; [| split; [| split]]].
  - intros y g' Ef. rewrite Ef in Hb.
    destruct r as [res | e]; [| contradiction].
    exists res. destruct Hb as (Hy & Hg). now repeat split.
  - intros e Ef. rewrite Ef in Hb.
    destruct r as [res | e']; [contradiction | now subst].
  - rewrite (kept_firstn _ _ 7 Hk); [exact Hp |].
    apply (f_equal (@length _)) in Hp. rewrite length_firstn in Hp.
    cbn [length] in Hp. lia.
  - intros q Eq. destruct (Hqp q Eq) as (Hw & Hbias).
    split.
    + rewrite Hn; [exact Hw |]. apply nth_error_Some. congruence.
    + rewrite Hn; [exact Hbias |]. apply nth_error_Some. congruence.
  - intros [Hp0 | Htr].
    + destruct Hr as [Hr | (k & _ & _ & Hne)]; [exact Hr |].
      cbn in Hne. congruence.
    + destruct Hr as [Hr | (k & _ & Htt & _)]; [exact Hr |].
      cbn in Htt. congruence.
Qed.

Lemma C9_forward_frame_witness :
  exists self g1 r m',
    __init__ 1 2 2 3 1 (1 # 2) "UP" gen0 = Ok (self, g1) /\
    forward_run input_ref (boot self (zeros [1; 1; 2; 6; 6]) g1) = (r, m') /\
    this m' = this (boot self (zeros [1; 1; 2; 6; 6]) g1) /\
    nth_error (heap m') input_ref = Some (zeros [1; 1; 2; 6; 6]) /\
    nth_error (heap m') 0 = Some (weight (KeyTransform self)) /\
    exists res y, r = Ok res /\ nth_error (heap m') res = Some y /\
                  shape y = [1; 3; 4; 12; 12].
Proof.
  destruct (__init__ 1 2 2 3 1 (1 # 2) "UP" gen0) as [[self g1] | e] eqn:E;
    [| vm_compute in E; discriminate E].
  destruct (forward_run input_ref (boot self (zeros [1; 1; 2; 6; 6]) g1))
    as [r m'] eqn:Er.
  destruct (forward_trace_Ok 1 2 2 3 1 "UP" self (zeros [1; 1; 2; 6; 6]) g1
              1 2 6 6 (init_built _ _ _ _ _ _ _ _ _ _ E))
    as (tr & g2 & Et & Hs); try lia; try reflexivity.
  destruct (C9_forward_frame _ _ _ _ Er)
    as (Ht & _ & _ & _ & _ & _ & _ & Hboot).
  destruct (Hboot self (zeros [1; 1; 2; 6; 6]) g1 eq_refl eq_refl)
    as (Hok & _ & Hh & _).
  destruct (Hok _ _ (forward_of_trace _ _ _ _ _ Et)) as (res & -> & Hy & _).
  exists self, g1, (Ok res), m'.
  split; [reflexivity |]. split; [exact Er |]. split; [exact Ht |].
  split; [| split].
  - apply (f_equal (fun h => nth_error h input_ref)) in Hh.
    rewrite nth_error_firstn in Hh. exact Hh.
  - apply (f_equal (fun h => nth_error h 0)) in Hh.
    rewrite nth_error_firstn in Hh. exact Hh.
  - exists res, (O3 tr). split; [reflexivity |]. split; [exact Hy |].
    exact (sh_O3 Hs).
Defined.
(** * Further properties *)

(** ** [split_heads] *)

Lemma shape_last_app t l d : shape t = l ++ [d] -> shape_last t = Ok d.
Proof. intros H. unfold shape_last. now rewrite H, rev_app_distr. Qed.

Lemma shape_last_Ok t :
  shape t <> [] -> exists d, shape_last t = Ok d /\ last (shape t) 0 = d.
Proof.
  intros H. destruct (exists_last H) as (l & d & E).
  exists d. split; [exact (shape_last_app t l d E) |].
  rewrite E. apply last_last.
Qed.

Lemma view_nonneg_mismatch t dims :
  Forall (fun d => (0 <= d)%Z) dims ->
  numel_of (map Z.to_nat dims) <> numel t ->
  view t dims = Raise (RuntimeError "shape is invalid for input size").
Proof.
  intros Hd Hn. unfold view.
  assert (E1 : existsb (fun d => (d <? -1)%Z) dims = false).
  { clear Hn. induction dims as [| d l IH]; [reflexivity |].
    inversion Hd as [| d' l' H0 Hl]; subst. cbn [existsb].
    rewrite (IH Hl). destruct (Z.ltb_spec d (-1)); [lia | reflexivity]. }
  assert (E2 : count_occ Z.eq_dec dims (-1)%Z = 0).
  { clear Hn E1. induction dims as [| d l IH]; [reflexivity |].
    inversion Hd as [| d' l' H0 Hl]; subst. cbn [count_occ].
    destruct (Z.eq_dec d (-1)); [lia | exact (IH Hl)]. }
  rewrite E1, E2. apply Nat.eqb_neq in Hn. now rewrite Hn.
Qed.

Lemma long_shape (x : Tensor) :
  4 <= length (shape x) ->
  exists s0 s1 s2 s3 rest, shape x = s0 :: s1 :: s2 :: s3 :: rest.
Proof.
  destruct (shape x) as [| s0 [| s1 [| s2 [| s3 rest]]]]; cbn; try lia.
  intros _. now exists s0, s1, s2, s3, rest.
Qed.

(** On a tensor of four or more axes and for a number of heads other than
    zero, [split_heads] unpacks the number of heads and the channels of a
    head and takes its view. *)
Lemma split_heads_unpack x nh s0 s1 s2 s3 rest :
  shape x = s0 :: s1 :: s2 :: s3 :: rest -> nh <> 0%Z ->
  split_heads x nh
  = (n <- py_size nh ;;
     c <- py_size (Z.quot (Z.of_nat (last (shape x) 0)) nh) ;;
     view x [Z.of_nat s0; Z.of_nat s1; Z.of_nat s2; Z.of_nat s3; n; c]).
Proof.
  intros Hx Hnh.
  destruct (shape_last_Ok x) as (C & EC & HC); [rewrite Hx; discriminate |].
  unfold split_heads. rewrite EC. unfold shape_at. rewrite Hx.
  cbn [nth_error rbind]. unfold py_int_truediv.
  replace (nh =? 0)%Z with false by (symmetry; apply Z.eqb_neq; exact Hnh).
  cbn [rbind]. rewrite <- Hx, HC. reflexivity.
Qed.

(** The channels of a head are a 64-bit integer when the channels are. *)
Lemma quot_fits C nh :
  (Z.of_nat C <= int64_max)%Z -> nh <> 0%Z ->
  (int64_min <= Z.quot (Z.of_nat C) nh <= int64_max)%Z.
Proof.
  intros HC Hnh. unfold int64_min in *.
  assert (Hpos : forall b, (0 < b)%Z ->
                           (0 <= Z.quot (Z.of_nat C) b <= Z.of_nat C)%Z).
  { intros b Hb. split; [apply Z.quot_pos; lia |].
    rewrite Z.quot_div_nonneg by lia.
    apply Z.div_le_upper_bound; nia. }
  destruct (Z.lt_trichotomy nh 0) as [Hneg | [H0 | Hp]]; [| lia |].
  - replace nh with (- - nh)%Z by lia.
    rewrite Z.quot_opp_r by lia.
    specialize (Hpos (- nh)%Z ltac:(lia)). unfold int64_max in *. lia.
  - specialize (Hpos nh Hp). unfold int64_max in *. lia.
Qed.

Lemma split_heads_view x nh s0 s1 s2 s3 rest :
  shape x = s0 :: s1 :: s2 :: s3 :: rest -> nh <> 0%Z ->
  (int64_min <= nh <= int64_max)%Z ->
  (Z.of_nat (last (shape x) 0%nat) <= int64_max)%Z ->
  split_heads x nh
  = view x [Z.of_nat s0; Z.of_nat s1; Z.of_nat s2; Z.of_nat s3; nh;
            Z.quot (Z.of_nat (last (shape x) 0)) nh].
Proof.
  intros Hx Hnh Hfit HC.
  rewrite (split_heads_unpack x nh s0 s1 s2 s3 rest Hx Hnh).
  rewrite (py_size_Ok nh Hfit). cbn [rbind].
  rewrite (py_size_Ok _ (quot_fits _ nh HC Hnh)). reflexivity.
Qed.

(** A number of heads that is not a 64-bit integer: the view cannot unpack
    it. *)
Lemma split_heads_TypeError x nh :
  4 <= length (shape x) -> (nh < int64_min \/ int64_max < nh)%Z ->
  split_heads x nh = Raise TypeError.
Proof.
  intros Hlen Hout.
  destruct (long_shape x Hlen) as (s0 & s1 & s2 & s3 & rest & Hx).
  rewrite (split_heads_unpack x nh s0 s1 s2 s3 rest Hx)
    by (unfold int64_min, int64_max in Hout; lia).
  now rewrite (py_size_TypeError nh Hout).
Qed.



(** X2.  On a tensor of five axes without a zero extent among the first
    four, a positive number of heads that does not divide the last extent
    makes [split_heads] raise: a [RuntimeError] when the number is a
    64-bit integer, the view it asks for having fewer elements than the
    tensor, and a [TypeError] when it is not. *)
Theorem X2_split_heads_indivisible (x : Tensor) (nh : Z) (a b c d C : nat) :
  shape x = [a; b; c; d; C] ->
  0 < a -> 0 < b -> 0 < c -> 0 < d ->
  (Z.of_nat C <= int64_max)%Z ->
  (0 < nh)%Z -> (Z.of_nat C mod nh <> 0)%Z ->
  ((nh <= int64_max)%Z ->
   split_heads x nh = Raise (RuntimeError "shape is invalid for input size")) /\
  ((int64_max < nh)%Z -> split_heads x nh = Raise TypeError).
Proof.
  intros Hx Ha Hb Hc Hd HC Hnh Hdiv. split.
  - intros Hmax.
    rewrite (split_heads_view x nh a b c d [C] Hx);
      [| lia | unfold int64_min; lia | rewrite Hx; exact HC].
    rewrite Hx. cbn [last].
    apply view_nonneg_mismatch.
    + repeat constructor; try lia. apply Z.quot_pos; lia.
    + cbn [map]. rewrite !Nat2Z.id. unfold numel. rewrite Hx.
      rewrite !numel_of_cons. cbn [numel_of fold_right].
      rewrite Z.quot_div_nonneg by lia.
      pose proof (Z.div_mod (Z.of_nat C) nh ltac:(lia)) as E.
      pose proof (Z.mod_pos_bound (Z.of_nat C) nh Hnh) as Bd.
      assert (Hq : (0 <= Z.of_nat C / nh)%Z) by (apply Z.div_pos; lia).
      assert (Hlt : Z.to_nat nh * Z.to_nat (Z.of_nat C / nh) < C) by nia.
      set (n := Z.to_nat nh) in *. set (q := Z.to_nat (Z.of_nat C / nh)) in *.
      assert (HP : a * (b * (c * d)) <> 0).
      { repeat (apply Nat.neq_mul_0; split); lia. }
      intros Eq.
      assert (E' : a * (b * (c * d)) * (n * q) = a * (b * (c * d)) * C) by lia.
      apply Nat.mul_cancel_l in E'; [lia | exact HP].
  - intros Hbig. apply split_heads_TypeError; [rewrite Hx; cbn; lia |].
    now right.
Qed.

Lemma X2_split_heads_indivisible_witness :
  shape (zeros [1; 2; 2; 2; 5]) = [1; 2; 2; 2; 5] /\
  (Z.of_nat 5 <= int64_max)%Z /\
  (0 < 2)%Z /\ (Z.of_nat 5 mod 2 <> 0)%Z /\ (2 <= int64_max)%Z /\
  split_heads (zeros [1; 2; 2; 2; 5]) 2
  = Raise (RuntimeError "shape is invalid for input size").
Proof.
  assert (HC : (Z.of_nat 5 <= int64_max)%Z) by (unfold int64_max; lia).
  assert (H2 : (0 < 2)%Z) by lia.
  assert (Hm : (Z.of_nat 5 mod 2 <> 0)%Z) by (vm_compute; discriminate).
  assert (Hx : (2 <= int64_max)%Z) by (unfold int64_max; lia).
  split; [reflexivity |]. split; [exact HC |]. split; [exact H2 |].
  split; [exact Hm |]. split; [exact Hx |].
  apply (X2_split_heads_indivisible (zeros [1; 2; 2; 2; 5]) 2 1 2 2 2 5);
    try reflexivity; try assumption; lia.
Defined.

(** X3.  On a tensor of fewer than four axes [split_heads] raises an
    [IndexError], whatever the number of heads: it reads the first four
    extents of the shape. *)
Theorem X3_split_heads_short_shape (x : Tensor) (nh : Z) :
  length (shape x) < 4 -> split_heads x nh = Raise IndexError.
Proof.
  intros Hlen. unfold split_heads, shape_last, shape_at.
  destruct (shape x) as [| s0 [| s1 [| s2 [| s3 rest]]]];
    cbn in Hlen; try lia; cbn [rev app nth_error rbind]; reflexivity.
Qed.

Lemma X3_split_heads_short_shape_witness :
  length (shape (zeros [2; 3; 4])) < 4 /\
  split_heads (zeros [2; 3; 4]) 2 = Raise IndexError.
Proof.
  assert (H : length (shape (zeros [2; 3; 4])) < 4) by (cbn; lia).
  split; [exact H | exact (X3_split_heads_short_shape _ 2 H)].
Defined.

(** X4.  With zero heads [split_heads] raises a [ZeroDivisionError] on
    every tensor of four or more axes: the division of the channel count
    comes before the view. *)
Theorem X4_split_heads_zero_heads (x : Tensor) :
  4 <= length (shape x) -> split_heads x 0 = Raise ZeroDivisionError.
Proof.
  intros Hlen. destruct (long_shape x Hlen) as (s0 & s1 & s2 & s3 & rest & Hx).
  destruct (shape_last_Ok x) as (C & EC & _); [rewrite Hx; discriminate |].
  unfold split_heads. rewrite EC. unfold shape_at. rewrite Hx. reflexivity.
Qed.

Lemma X4_split_heads_zero_heads_witness :
  4 <= length (shape (zeros [1; 2; 2; 2; 4])) /\
  split_heads (zeros [1; 2; 2; 2; 4]) 0 = Raise ZeroDivisionError.
Proof.
  assert (H : 4 <= length (shape (zeros [1; 2; 2; 2; 4]))) by (cbn; lia).
  split; [exact H | exact (X4_split_heads_zero_heads _ H)].
Defined.

(** A view with a negative number of heads is refused. *)
Lemma view_negative_heads x nh (s0 s1 s2 s3 C : nat) :
  (nh < 0)%Z ->
  raises_RuntimeError
    (view x [Z.of_nat s0; Z.of_nat s1; Z.of_nat s2; Z.of_nat s3; nh;
             Z.quot (Z.of_nat C) nh]).
Proof.
  intros Hnh. unfold view.
  assert (E4 : forall z, ((Z.of_nat z <? -1) = false)%Z).
  { intros z. apply Z.ltb_ge. lia. }
  cbn [existsb]. rewrite !E4. cbn [orb].
  destruct (Z.ltb_spec nh (-1)) as [Hlt | Hge]; cbn [orb].
  { eexists; reflexivity. }
  assert (nh = -1)%Z by lia. subst nh.
  replace (Z.quot (Z.of_nat C) (-1)) with (- Z.of_nat C)%Z
    by (change (-1)%Z with (- (1))%Z;
        rewrite Z.quot_opp_r, Z.quot_1_r by lia; reflexivity).
  destruct (Z.ltb_spec (- Z.of_nat C) (-1)) as [Hlt | Hge']; cbn [orb].
  { eexists; reflexivity. }
  cbn [count_occ].
  repeat match goal with
  | |- context [Z.eq_dec (Z.of_nat ?z) (-1)] =>
      destruct (Z.eq_dec (Z.of_nat z) (-1)); [lia |]
  end.
  destruct (Z.eq_dec (-1) (-1)) as [_ | Hne]; [| contradiction].
  destruct (Z.eq_dec (- Z.of_nat C) (-1)) as [E1 | N1].
  { eexists; reflexivity. }
  assert (C = 0) by lia.
  replace (- Z.of_nat C)%Z with 0%Z by lia.
  cbn [remove].
  repeat match goal with
  | |- context [Z.eq_dec (-1) (Z.of_nat ?z)] =>
      destruct (Z.eq_dec (-1) (Z.of_nat z)); [lia |]
  end.
  destruct (Z.eq_dec (-1) (-1)) as [_ | Hne]; [| contradiction].
  destruct (Z.eq_dec (-1) 0) as [E0 | _]; [discriminate E0 |].
  cbn [map]. rewrite !numel_of_cons.
  replace (Z.to_nat 0) with 0 by reflexivity.
  rewrite Nat.mul_0_l, !Nat.mul_0_r. cbn [Nat.eqb].
  eexists; reflexivity.
Qed.

(** With a negative number of heads [split_heads] raises, whatever the
    size of the number. *)
Lemma split_heads_negative_raises x nh :
  4 <= length (shape x) -> (nh < 0)%Z -> raises (split_heads x nh).
Proof.
  intros Hlen Hnh.
  destruct (long_shape x Hlen) as (s0 & s1 & s2 & s3 & rest & Hx).
  rewrite (split_heads_unpack x nh s0 s1 s2 s3 rest Hx) by lia.
  unfold py_size.
  destruct (fits_int64 nh); [| now exists TypeError]. cbn [rbind].
  destruct (fits_int64 _); [| now exists TypeError]. cbn [rbind].
  destruct (view_negative_heads x nh s0 s1 s2 s3 (last (shape x) 0) Hnh)
    as (msg & E).
  rewrite E. now exists (RuntimeError msg).
Qed.

(** X5.  With a negative number of heads [split_heads] raises on every
    tensor of four or more axes whose last extent is a 64-bit integer: a
    [RuntimeError] when the number is a 64-bit integer, the view being
    asked for a negative extent, for two inferred extents, or for an
    inferred extent beside a zero extent, and a [TypeError] when it is
    not. *)
Theorem X5_split_heads_negative_heads (x : Tensor) (nh : Z) :
  4 <= length (shape x) -> (nh < 0)%Z ->
  (Z.of_nat (last (shape x) 0%nat) <= int64_max)%Z ->
  ((int64_min <= nh)%Z -> raises_RuntimeError (split_heads x nh)) /\
  ((nh < int64_min)%Z -> split_heads x nh = Raise TypeError).
Proof.
  intros Hlen Hnh HC. split.
  - intros Hmin.
    destruct (long_shape x Hlen) as (s0 & s1 & s2 & s3 & rest & Hx).
    rewrite (split_heads_view x nh s0 s1 s2 s3 rest Hx);
      [| lia | unfold int64_max; lia | exact HC].
    apply view_negative_heads. exact Hnh.
  - intros Hsmall. apply split_heads_TypeError; [exact Hlen | now left].
Qed.

Lemma X5_split_heads_negative_heads_witness :
  4 <= length (shape (zeros [1; 2; 2; 2; 4])) /\ (-2 < 0)%Z /\
  (Z.of_nat (last (shape (zeros [1; 2; 2; 2; 4]%nat)) 0%nat) <= int64_max)%Z /\
  (int64_min <= -2)%Z /\
  raises_RuntimeError (split_heads (zeros [1; 2; 2; 2; 4]) (-2)).
Proof.
  assert (H : 4 <= length (shape (zeros [1; 2; 2; 2; 4]))) by (cbn; lia).
  assert (Hn : (-2 < 0)%Z) by lia.
  assert (HC : (Z.of_nat (last (shape (zeros [1; 2; 2; 2; 4]%nat)) 0%nat)
                <= int64_max)%Z) by (unfold int64_max; cbn; lia).
  assert (Hm : (int64_min <= -2)%Z) by (unfold int64_min; lia).
  split; [exact H |]. split; [exact Hn |]. split; [exact HC |].
  split; [exact Hm |].
  exact (proj1 (X5_split_heads_negative_heads _ (-2) H Hn HC) Hm).
Defined.



(** ** The constructor *)

Lemma init_allocate ic kf vf ofl nh p lt g self g' :
  __init__ ic kf vf ofl nh p lt g = Ok (self, g') ->
  nh <> 0%Z /\ allocate ic kf vf ofl nh p lt g = Ok (self, g').
Proof.
  intros H.
  assert (Hnh : nh <> 0%Z) by (intros ->; discriminate H).
  rewrite (init_checks _ _ _ _ _ _ _ _ Hnh) in H.
  destruct (negb (kf mod nh =? 0)%Z); [discriminate H |].
  destruct (negb (vf mod nh =? 0)%Z); [discriminate H |].
  destruct (negb (str_in lt ["SAME"; "DOWN"; "UP"])); [discriminate H |].
  now split.
Qed.

Lemma Conv3d_wf cin cout k s p g c g' :
  Conv3d cin cout k s p g = Ok (c, g') -> conv_wf c.
Proof.
  intros H. destruct (Conv3d_inv _ _ _ _ _ _ _ _ H) as (Hi & Ho & _).
  rewrite (Conv3d_Ok cin cout k s p g Hi Ho) in H. injection H as <- _.
  split; unfold wf, numel; cbn [weight bias data shape];
    now rewrite length_map, length_seq.
Qed.

Lemma ConvTranspose3d_wf cin cout k s p g c g' :
  ConvTranspose3d cin cout k s p g = Ok (c, g') -> conv_wf c.
Proof.
  intros H. destruct (ConvTranspose3d_inv _ _ _ _ _ _ _ _ H) as (Hi & Ho & _).
  rewrite (ConvTranspose3d_Ok cin cout k s p g Hi Ho) in H.
  injection H as <- _.
  split; unfold wf, numel; cbn [weight bias data shape];
    now rewrite length_map, length_seq.
Qed.

Lemma init_inv ic kf vf ofl nh p lt g self g' :
  __init__ ic kf vf ofl nh p lt g = Ok (self, g') ->
  (0 <= p)%Q /\ (p <= 1)%Q /\
  attention_dropout self = mkDropout p true /\
  training self = true /\
  (forall q, QueryTransform self = Some q -> conv_wf q) /\
  conv_wf (KeyTransform self) /\ conv_wf (ValueTransform self) /\
  conv_wf (outputConv self).
Proof.
  intros H. pose proof (init_built _ _ _ _ _ _ _ _ _ _ H) as Hb.
  pose proof (built_known _ _ _ _ _ _ _ Hb) as El.
  apply init_allocate in H as (Hnh & H). unfold allocate in H.
  apply bind_inv in H as (q & g1 & Hq & H).
  apply bind_inv in H as (key & g2 & Hkey & H).
  apply bind_inv in H as (value & g3 & Hvalue & H).
  apply bind_lift_inv in H as (drop & Hdrop & H).
  apply bind_inv in H as (out & g4 & Hout & H).
  apply bind_lift_inv in H as (per_head & Hper & H).
  injection H as <- _.
  cbn [attention_dropout training QueryTransform KeyTransform ValueTransform
       outputConv].
  unfold Dropout_new in Hdrop.
  destruct (Qle_bool 0 p) eqn:E0; [| discriminate Hdrop].
  destruct (Qle_bool p 1) eqn:E1; [| discriminate Hdrop].
  cbn [negb orb] in Hdrop. injection Hdrop as <-.
  apply Qle_bool_iff in E0, E1.
  apply Conv3d_wf in Hkey, Hvalue, Hout.
  repeat (split; [assumption || reflexivity |]).
  split; [| split; [exact Hkey | split; [exact Hvalue | exact Hout]]].
  intros q' Eq'. subst q.
  destruct El as [<- | [<- | [<- | []]]];
    cbn [String.eqb Ascii.eqb Bool.eqb] in Hq;
    apply bind_inv in Hq as (c & g5 & Hc & Hq); injection Hq as <- _.
  - exact (Conv3d_wf _ _ _ _ _ _ _ _ Hc).
  - exact (Conv3d_wf _ _ _ _ _ _ _ _ Hc).
  - exact (ConvTranspose3d_wf _ _ _ _ _ _ _ _ Hc).
Qed.

(** X7.  The constructor returns a layer only when the number of heads is
    not zero and divides both filter counts, the layer type is one of the
    three names, every channel count is a non-negative 64-bit integer and
    the dropout probability lies between 0 and 1. *)
Theorem X7_constructor_success
        (ic kf vf ofl nh : Z) (p : Q) (lt : string) (g : Generator) :
  succeeds (construct ic kf vf ofl nh p lt g) ->
  nh <> 0%Z /\ heads_divide kf nh /\ heads_divide vf nh /\
  known_layer_type lt /\
  channel_count ic /\ channel_count kf /\ channel_count vf /\
  channel_count ofl /\
  (0 <= p)%Q /\ (p <= 1)%Q.
Proof.
  intros (self & E). unfold construct in E.
  destruct (__init__ ic kf vf ofl nh p lt g) as [[self' g'] | e] eqn:Ei;
    [| discriminate E].
  pose proof (init_built _ _ _ _ _ _ _ _ _ _ Ei) as Hb.
  destruct (init_inv _ _ _ _ _ _ _ _ _ _ Ei) as (H0 & H1 & _).
  split; [exact (built_nonzero Hb) |].
  split; [exact (built_key_div Hb) |].
  split; [exact (built_value_div Hb) |].
  split; [exact (built_known _ _ _ _ _ _ _ Hb) |].
  split; [exact (built_ic Hb) |]. split; [exact (built_kf Hb) |].
  split; [exact (built_vf Hb) |]. split; [exact (built_ofl Hb) |].
  split; assumption.
Qed.

Lemma X7_constructor_success_witness :
  succeeds (construct 1 4 4 8 2 (1 # 2) "SAME" gen0) /\
  heads_divide 4 2 /\ channel_count 8.
Proof.
  assert (Hs : succeeds (construct 1 4 4 8 2 (1 # 2) "SAME" gen0)).
  { destruct (construct 1 4 4 8 2 (1 # 2) "SAME" gen0) as [self | e] eqn:E;
      [now exists self | vm_compute in E; discriminate E]. }
  destruct (X7_constructor_success 1 4 4 8 2 (1 # 2) "SAME" gen0 Hs)
    as (_ & Hk & _ & _ & _ & _ & _ & Ho & _).
  split; [exact Hs |]. split; [exact Hk | exact Ho].
Defined.

Lemma numel_conv_weight c tr cin cout k s p :
  conv_geometry c tr cin cout k s p ->
  conv_numel c = k ^ 3 * (cin * cout) + cout.
Proof.
  intros (_ & _ & _ & _ & Hw & Hb). unfold conv_numel, numel.
  rewrite Hw, Hb. destruct tr; cbn [numel_of fold_right Nat.pow]; lia.
Qed.

(** X8.  The layer the constructor returns holds
    [k^3 * in * key + key] values in its query projection, where [k] is 1
    for SAME and 3 for DOWN and UP, [in * key + key] in its key
    projection, [in * value + value] in its value projection and
    [value * out + out] in its output projection; every weight and bias
    holds as many values as its shape says, the layer is in training mode
    and its dropout module has the probability given. *)
Theorem X8_constructor_parameters
        (ic kf vf ofl nh : Z) (p : Q) (lt : string) (g g' : Generator)
        (self : multi_head_attention_3d) :
  __init__ ic kf vf ofl nh p lt g = Ok (self, g') ->
  num_parameters self
  = (query_kernel lt ^ 3 * (Z.to_nat ic * Z.to_nat kf) + Z.to_nat kf)
    + (Z.to_nat ic * Z.to_nat kf + Z.to_nat kf)
    + (Z.to_nat ic * Z.to_nat vf + Z.to_nat vf)
    + (Z.to_nat vf * Z.to_nat ofl + Z.to_nat ofl) /\
  (exists q, QueryTransform self = Some q /\ conv_wf q) /\
  conv_wf (KeyTransform self) /\ conv_wf (ValueTransform self) /\
  conv_wf (outputConv self) /\
  training self = true /\
  attention_dropout self = mkDropout p true.
Proof.
  intros H. pose proof (init_built _ _ _ _ _ _ _ _ _ _ H) as Hb.
  destruct (init_inv _ _ _ _ _ _ _ _ _ _ H)
    as (_ & _ & Hd & Ht & Wq & Wk & Wv & Wo).
  destruct (built_query Hb) as (q & Eq & Gq).
  split.
  - unfold num_parameters. rewrite Eq.
    rewrite (numel_conv_weight _ _ _ _ _ _ _ (built_key Hb)).
    rewrite (numel_conv_weight _ _ _ _ _ _ _ (built_value Hb)).
    rewrite (numel_conv_weight _ _ _ _ _ _ _ (built_out Hb)).
    destruct Gq as [[-> Gq] | [[-> Gq] | [-> Gq]]];
      rewrite (numel_conv_weight _ _ _ _ _ _ _ Gq);
      cbn [query_kernel String.eqb Ascii.eqb Bool.eqb Nat.pow]; lia.
  - split; [exists q; split; [exact Eq | exact (Wq q Eq)] |].
    repeat split; try assumption; try apply Wk; try apply Wv; try apply Wo.
Qed.

Lemma X8_constructor_parameters_witness :
  exists self g',
    __init__ 1 2 2 3 1 (1 # 2) "UP" gen0 = Ok (self, g') /\
    num_parameters self = 73.
Proof.
  destruct (__init__ 1 2 2 3 1 (1 # 2) "UP" gen0) as [[self g1] | e] eqn:E;
    [| vm_compute in E; discriminate E].
  exists self, g1. split; [reflexivity |].
  destruct (X8_constructor_parameters 1 2 2 3 1 (1 # 2) "UP" gen0 g1 self E)
    as (Hn & _).
  rewrite Hn. reflexivity.
Defined.

(** ** Inputs [forward] refuses *)

Lemma permute_rank t p t' :
  permute t p = Ok t' -> length (shape t') = length p.
Proof.
  unfold permute. destruct (is_perm (length (shape t)) p); [| discriminate].
  intros E. injection E as <-. rewrite shape_tabulate. apply length_map.
Qed.

Lemma forward_trace_raise_query self x g e :
  project_query self x = Raise e -> forward_trace self x g = Raise e.
Proof. intros E. unfold forward_trace. now apply bind_lift_Raise. Qed.

Lemma forward_raise self x g e :
  forward_trace self x g = Raise e -> forward self x g = Raise e.
Proof. intros E. unfold forward, bind. now rewrite E. Qed.

Ltac raise_or_step :=
  repeat match goal with
  | |- raises_RuntimeError (Raise (RuntimeError _)) => eexists; reflexivity
  | |- raises_RuntimeError (if ?c then _ else _) => destruct c eqn:?
  | |- raises_RuntimeError (match ?c with _ => _ end) => destruct c eqn:?
  end.

Lemma conv3d_refuses x w b s p B C D H W cout cin k :
  shape x = [B; C; D; H; W] -> shape w = [cout; cin; k; k; k] ->
  C <> cin \/ D + 2 * p < k \/ H + 2 * p < k \/ W + 2 * p < k ->
  raises_RuntimeError (conv3d x w b s p).
Proof.
  intros Hx Hw Hbad. unfold conv3d. rewrite Hx, Hw. raise_or_step.
  exfalso.
  repeat match goal with
  | E : (_ || _) = false |- _ => apply Bool.orb_false_iff in E as [? ?]
  | E : negb _ = false |- _ => apply Bool.negb_false_iff in E
  | E : (_ =? _) = true |- _ => apply Nat.eqb_eq in E
  | E : (_ <? _) = false |- _ => apply Nat.ltb_ge in E
  end.
  lia.
Qed.

Lemma conv_transpose3d_refuses x w b s p op B C D H W cin cout k :
  shape x = [B; C; D; H; W] -> shape w = [cin; cout; k; k; k] ->
  C <> cin \/ D = 0 \/ H = 0 \/ W = 0 ->
  raises_RuntimeError (conv_transpose3d x w b s p op).
Proof.
  intros Hx Hw Hbad. unfold conv_transpose3d. rewrite Hx, Hw.
  destruct op as [| opd [| oph [| opw [| ? ?]]]];
    try (eexists; reflexivity).
  raise_or_step.
  exfalso.
  repeat match goal with
  | E : (_ || _) = false |- _ => apply Bool.orb_false_iff in E as [? ?]
  | E : negb _ = false |- _ => apply Bool.negb_false_iff in E
  | E : (_ =? _) = true |- _ => apply Nat.eqb_eq in E
  | E : (_ =? _) = false |- _ => apply Nat.eqb_neq in E
  end.
  lia.
Qed.

Lemma output_padding_axis_double_any d :
  output_padding_axis d 3 2 1 (d * 2) = Ok 1.
Proof.
  unfold output_padding_axis.
  replace ((Z.of_nat (d * 2) <? (Z.of_nat d - 1) * Z.of_nat 2
                                - 2 * Z.of_nat 1 + Z.of_nat 3)%Z) with false
    by (symmetry; apply Z.ltb_ge; lia).
  replace (((Z.of_nat d - 1) * Z.of_nat 2 - 2 * Z.of_nat 1 + Z.of_nat 3
            + Z.of_nat 2 - 1 <? Z.of_nat (d * 2))%Z) with false
    by (symmetry; apply Z.ltb_ge; lia).
  cbn [orb]. f_equal. lia.
Qed.

Lemma rbind_raises A B (r : result A) (k : A -> result B) :
  raises_RuntimeError r -> raises_RuntimeError (rbind r k).
Proof. intros (msg & ->). now exists msg. Qed.

(** The query projection of a built layer refuses a volume whose channel
    count is not the layer's, or that has a zero spatial extent. *)
Lemma project_query_refuses ic kf vf ofl nh lt self x B C D H W :
  built_with ic kf vf ofl nh lt self ->
  shape x = [B; C; D; H; W] ->
  C <> Z.to_nat ic \/ D = 0 \/ H = 0 \/ W = 0 ->
  raises_RuntimeError (project_query self x).
Proof.
  intros Hb Hx Hbad.
  destruct Hb as [_ Ht _ _ _ _ _ _ _ (m & Em & Gm) _ _ _ _].
  unfold project_query. rewrite Ht, Em.
  destruct Gm as [(-> & Gm) | [(-> & Gm) | (-> & Gm)]];
    destruct Gm as (Gt & Gk & Gs & Gp & Gw & Gb);
    cbn [String.eqb Ascii.eqb Bool.eqb orb callable rbind].
  - apply rbind_raises. unfold conv_call. rewrite Gt, Gs, Gp.
    apply (conv3d_refuses x _ _ 1 0 B C D H W _ _ _ Hx Gw). lia.
  - apply rbind_raises. unfold conv_call. rewrite Gt, Gs, Gp.
    apply (conv3d_refuses x _ _ 2 1 B C D H W _ _ _ Hx Gw). lia.
  - unfold shape_at. rewrite Hx. cbn [nth_error rbind].
    apply rbind_raises. unfold conv_call. rewrite Gt, Hx, Gk, Gs, Gp.
    rewrite !output_padding_axis_double_any. cbn [rbind].
    apply (conv_transpose3d_refuses x _ _ 2 1 _ B C D H W _ _ _ Hx Gw).
    exact Hbad.
Qed.

Section BuiltLayerOnAnyInput.

Variables (ic kf vf ofl nh : Z) (p : Q) (lt : string).
Variables (g0 g1 : Generator) (self : multi_head_attention_3d).
Hypothesis built : __init__ ic kf vf ofl nh p lt g0 = Ok (self, g1).

Variables (mode : bool) (x : Tensor) (g : Generator).

Lemma built_in_any_mode : built_with ic kf vf ofl nh lt (train mode self).
Proof.
  apply train_built. exact (init_built _ _ _ _ _ _ _ _ _ _ built).
Qed.

(** X9.  The constructor accepts a negative number of heads that divides
    both filter counts, but the layer it returns is of no use: [forward]
    raises on every input, in training and in evaluation mode. *)
Theorem X9_forward_negative_heads :
  (nh < 0)%Z -> raises (forward (train mode self) x g).
Proof.
  intros Hnh.
  destruct (forward (train mode self) x g) as [[y g'] | e] eqn:E;
    [| now exists e].
  exfalso. unfold forward in E. apply bind_inv in E as (tr & g2 & Et & _).
  pose proof (forward_trace_inv _ _ _ _ _ Et) as R.
  pose proof (permute_rank _ _ _ (run_k1 R)) as L.
  destruct (split_heads_negative_raises (k1 tr) nh) as (msg & Em).
  - rewrite L. cbn. lia.
  - exact Hnh.
  - pose proof (run_k2 R) as E2.
    rewrite (built_heads built_in_any_mode) in E2.
    rewrite E2 in Em. discriminate Em.
Qed.

(** X10.  [forward] raises a [RuntimeError] on every tensor of five axes
    whose channel count differs from the layer's [in_channel]. *)
Theorem X10_forward_channel_mismatch (B C D H W : nat) :
  shape x = [B; C; D; H; W] -> C <> Z.to_nat ic ->
  raises_RuntimeError (forward (train mode self) x g).
Proof.
  intros Hx HC.
  destruct (project_query_refuses _ _ _ _ _ _ _ x B C D H W
              built_in_any_mode Hx (or_introl HC)) as (msg & E).
  exists msg. apply forward_raise. now apply forward_trace_raise_query.
Qed.

(** X11.  [forward] raises a [RuntimeError] on every tensor of five axes
    that has a zero spatial extent. *)
Theorem X11_forward_empty_volume (B C D H W : nat) :
  shape x = [B; C; D; H; W] -> D = 0 \/ H = 0 \/ W = 0 ->
  raises_RuntimeError (forward (train mode self) x g).
Proof.
  intros Hx H0.
  destruct (project_query_refuses _ _ _ _ _ _ _ x B C D H W
              built_in_any_mode Hx (or_intror H0)) as (msg & E).
  exists msg. apply forward_raise. now apply forward_trace_raise_query.
Qed.

End BuiltLayerOnAnyInput.

Lemma X9_forward_negative_heads_witness :
  exists self g1,
    __init__ 1 4 4 8 (-2) (1 # 2) "SAME" gen0 = Ok (self, g1) /\
    (-2 < 0)%Z /\
    raises (forward (train true self) (zeros [1; 1; 2; 2; 2]) g1).
Proof.
  destruct (__init__ 1 4 4 8 (-2) (1 # 2) "SAME" gen0)
    as [[self g1] | e] eqn:E; [| vm_compute in E; discriminate E].
  assert (Hn : (-2 < 0)%Z) by lia.
  exists self, g1. split; [reflexivity |]. split; [exact Hn |].
  exact (X9_forward_negative_heads 1 4 4 8 (-2) (1 # 2) "SAME" gen0 g1 self E
           true (zeros [1; 1; 2; 2; 2]) g1 Hn).
Defined.

Lemma X10_forward_channel_mismatch_witness :
  exists self g1,
    __init__ 1 2 2 3 1 (1 # 2) "UP" gen0 = Ok (self, g1) /\
    3 <> Z.to_nat 1 /\
    raises_RuntimeError (forward (train true self) (zeros [1; 3; 2; 6; 6]) g1).
Proof.
  destruct (__init__ 1 2 2 3 1 (1 # 2) "UP" gen0)
    as [[self g1] | e] eqn:E; [| vm_compute in E; discriminate E].
  assert (Hn : 3 <> Z.to_nat 1) by (cbn; lia).
  exists self, g1. split; [reflexivity |]. split; [exact Hn |].
  exact (X10_forward_channel_mismatch 1 2 2 3 1 (1 # 2) "UP" gen0 g1 self E
           true (zeros [1; 3; 2; 6; 6]) g1 1 3 2 6 6 eq_refl Hn).
Defined.

Lemma X11_forward_empty_volume_witness :
  exists self g1,
    __init__ 1 2 2 3 1 (1 # 2) "DOWN" gen0 = Ok (self, g1) /\
    raises_RuntimeError (forward (train true self) (zeros [1; 1; 0; 6; 6]) g1).
Proof.
  destruct (__init__ 1 2 2 3 1 (1 # 2) "DOWN" gen0)
    as [[self g1] | e] eqn:E; [| vm_compute in E; discriminate E].
  exists self, g1. split; [reflexivity |].
  exact (X11_forward_empty_volume 1 2 2 3 1 (1 # 2) "DOWN" gen0 g1 self E
           true (zeros [1; 1; 0; 6; 6]) g1 1 1 0 6 6 eq_refl
           (or_introl eq_refl)).
Defined.

(** ** What [forward] computes *)

Lemma permute_channel_last_get t y a c d e f i0 i1 i2 i3 i4 :
  shape t = [a; c; d; e; f] -> permute t [0; 2; 3; 4; 1] = Ok y ->
  i0 < a -> i1 < d -> i2 < e -> i3 < f -> i4 < c ->
  get y [i0; i1; i2; i3; i4] = get t [i0; i4; i1; i2; i3].
Proof.
  intros Ht. unfold permute. rewrite Ht.
  cbn [length is_perm map nth].
  change (is_perm 5 [0; 2; 3; 4; 1]) with true. cbv iota.
  intros E H0 H1 H2 H3 H4. injection E as <-.
  rewrite get_tabulate by (repeat constructor; assumption).
  reflexivity.
Qed.

Lemma permute_channel_first_get t y a b c d e i0 i1 i2 i3 i4 :
  shape t = [a; b; c; d; e] -> permute t [0; 4; 1; 2; 3] = Ok y ->
  i0 < a -> i1 < e -> i2 < b -> i3 < c -> i4 < d ->
  get y [i0; i1; i2; i3; i4] = get t [i0; i2; i3; i4; i1].
Proof.
  intros Ht. unfold permute. rewrite Ht.
  cbn [length is_perm map nth].
  change (is_perm 5 [0; 4; 1; 2; 3]) with true. cbv iota.
  intros E H0 H1 H2 H3 H4. injection E as <-.
  rewrite get_tabulate by (repeat constructor; assumption).
  reflexivity.
Qed.

Lemma transpose_matrix_get t t' n m r j :
  shape t = [n; m] -> transpose t 0 1 = Ok t' -> r < m -> j < n ->
  get t' [r; j] = get t [j; r].
Proof.
  intros Ht. unfold transpose, permute. rewrite Ht.
  cbn [length Nat.ltb Nat.leb andb seq map Nat.eqb nth].
  change (is_perm 2 [1; 0]) with true. cbv iota.
  intros E Hr Hj. injection E as <-.
  rewrite get_tabulate by (repeat constructor; assumption).
  reflexivity.
Qed.

(** An element of a matrix of heads, read in the channel-last volume it is
    a view of. *)
Lemma heads_matrix_get t1 t3 B D H W C n q b d h w a c :
  shape t1 = [B; D; H; W; C] -> shape t3 = [B * D * H * W * n; q] ->
  data t3 = data t1 -> q * n = C ->
  get t3 [head_row D H W n b d h w a; c] = get t1 [b; d; h; w; a * q + c].
Proof.
  intros H1 H3 Hd HC. unfold get, head_row. rewrite H1, H3, Hd.
  cbn [ravel numel_of fold_right]. f_equal. subst C. ring.
Qed.

Lemma sum_upto_1 f : sum_upto 1 f = f 0.
Proof. rewrite sum_upto_S, sum_upto_0. ring. Qed.

(** A convolution of kernel 1, stride 1 and padding 0 is [pointwise]. *)
Lemma conv_call_pointwise m x y cin cout B D H W b c d h w :
  conv_geometry m false cin cout 1 1 0 ->
  shape x = [B; cin; D; H; W] ->
  conv_call m x None = Ok y ->
  b < B -> c < cout -> d < D -> h < H -> w < W ->
  get y [b; c; d; h; w] = pointwise m x cin b c d h w.
Proof.
  intros (Gt & Gk & Gs & Gp & Gw & Gb) Hx E Hb Hc Hd Hh Hw.
  unfold conv_call in E. rewrite Gt, Gs, Gp in E.
  unfold conv3d in E. rewrite Hx, Gw in E.
  repeat match type of E with
  | (if ?cnd then _ else _) = Ok _ => destruct cnd; [discriminate E |]
  end.
  injection E as <-.
  assert (HcD : conv_out D 1 1 0 = D) by (apply conv_out_pointwise; lia).
  assert (HcH : conv_out H 1 1 0 = H) by (apply conv_out_pointwise; lia).
  assert (HcW : conv_out W 1 1 0 = W) by (apply conv_out_pointwise; lia).
  rewrite get_tabulate
    by (rewrite HcD, HcH, HcW; repeat constructor; assumption).
  unfold pointwise. cbn [ix nth]. f_equal.
  apply sum_upto_ext. intros ci Hci.
  rewrite !sum_upto_1. unfold at_padded.
  rewrite !Nat.mul_1_r, !Nat.add_0_r, !Nat.sub_0_r.
  cbn [Nat.leb].
  replace (d <? D) with true by (symmetry; apply Nat.ltb_lt; exact Hd).
  replace (h <? H) with true by (symmetry; apply Nat.ltb_lt; exact Hh).
  replace (w <? W) with true by (symmetry; apply Nat.ltb_lt; exact Hw).
  reflexivity.
Qed.

Lemma mix_lt i j N M : i < N -> j < M -> i * M + j < N * M.
Proof. intros Hi Hj. nia. Qed.

Lemma head_row_lt B D H W n b d h w a :
  b < B -> d < D -> h < H -> w < W -> a < n ->
  head_row D H W n b d h w a < B * D * H * W * n.
Proof.
  intros Hb Hd Hh Hw Ha. unfold head_row.
  repeat apply mix_lt; assumption.
Qed.

(** The matrix of heads of a projection: channel-last, split into heads
    and flattened.  Row [head_row b d h w a] holds the channels
    [a * q .. a * q + q - 1] of position [(b, d, h, w)]. *)
Lemma heads_get t0 t1 t2 t3 heads B C D H W n q b d h w a c :
  shape t0 = [B; C; D; H; W] ->
  permute t0 [0; 2; 3; 4; 1] = Ok t1 ->
  split_heads t1 heads = Ok t2 ->
  flatten t2 0 4 = Ok t3 ->
  shape t1 = [B; D; H; W; C] ->
  shape t3 = [B * D * H * W * n; q] -> q * n = C ->
  b < B -> d < D -> h < H -> w < W -> a < n -> c < q ->
  get t3 [head_row D H W n b d h w a; c] = get t0 [b; a * q + c; d; h; w].
Proof.
  intros H0 E1 E2 E3 H1 H3 HC Hb Hd Hh Hw Ha Hc.
  rewrite (heads_matrix_get t1 t3 B D H W C n q b d h w a c H1 H3).
  - apply (permute_channel_last_get t0 t1 B C D H W); try assumption. nia.
  - rewrite (flatten_data _ _ _ _ E3). exact (split_heads_data _ _ _ E2).
  - exact HC.
Qed.

(** Dropout with a probability strictly between 0 and 1, in training:
    every element is dropped or divided by [1 - p]. *)
Lemma dropout_call_scaled m t g t' g' :
  Qeq_bool (dropout_p m) 0 = false -> Qeq_bool (dropout_p m) 1 = false ->
  dropout_training m = true -> wf t -> numel t <> 0 ->
  dropout_call m t g = Ok (t', g') ->
  forall idx, Forall2 lt idx (shape t) ->
    get t' idx = 0%R \/
    get t' idx = Rdiv (get t idx) (Q2R (1 - dropout_p m)).
Proof.
  intros H0 H1 Ht Hwf Hn. unfold dropout_call.
  rewrite H0, Ht, H1.
  replace (numel t =? 0) with false by (symmetry; now apply Nat.eqb_neq).
  cbn [negb orb]. intros E. injection E as <- _.
  intros idx Hidx. unfold get. cbn [shape data].
  pose proof (ravel_lt _ _ Hidx) as Hj. fold (numel t) in Hj.
  rewrite <- Hwf in Hj.
  set (j := ravel (shape t) idx) in *.
  set (F := fun vi : R * nat =>
              Rmult (fst vi)
                (Rdiv (if coin g (cursor g + snd vi) (1 - dropout_p m)%Q
                       then 1%R else 0%R)
                      (Q2R (1 - dropout_p m)))).
  rewrite (nth_indep _ 0%R (F (0%R, 0)))
    by (rewrite length_map, length_combine, length_seq; lia).
  rewrite (map_nth F), combine_nth by now rewrite length_seq.
  unfold F. cbn [fst snd].
  destruct (coin g _ _); [right | left]; unfold Rdiv; ring.
Qed.

(** ** The scale *)

(** C5.  For a positive number of heads, the constructor stores
    [sqrt(key_filters / num_heads)] as the scale.  In every run of
    [forward] the query projection of the input, put channel-last, split
    into heads and flattened, is divided, element by element, by this
    constant, and the quotient is the left operand of the similarity
    product.  On a volume, for a layer built with positive counts, there
    is such a run, and its scaled query matrix holds in row
    [head_row b d h w a], column [c], the channel [a * (key_filters /
    num_heads) + c] of the query projection at position [(b, d, h, w)]
    divided by the scale. *)
Theorem C5_scale_normalization
        (ic kf vf ofl nh : Z) (p : Q) (lt : string) (g0 g1 : Generator)
        (self : multi_head_attention_3d) :
  __init__ ic kf vf ofl nh p lt g0 = Ok (self, g1) ->
  (0 < nh)%Z ->
  heads_divide kf nh /\
  _scale self = sqrt (IZR kf / IZR nh) /\
  (forall mode x g tr g',
      forward_trace (train mode self) x g = Ok (tr, g') ->
      project_query (train mode self) x = Ok (Some (q0 tr)) /\
      permute (q0 tr) [0; 2; 3; 4; 1] = Ok (q1 tr) /\
      split_heads (q1 tr) nh = Ok (q2 tr) /\
      flatten (q2 tr) 0 4 = Ok (q3 tr) /\
      data (q3 tr) = data (q1 tr) /\
      q4 tr = div_scalar (q3 tr) (sqrt (IZR kf / IZR nh)) /\
      shape (q4 tr) = shape (q3 tr) /\
      data (q4 tr)
      = map (fun v => Rdiv v (sqrt (IZR kf / IZR nh))) (data (q1 tr)) /\
      (forall idx,
          get (q4 tr) idx = Rdiv (get (q3 tr) idx) (sqrt (IZR kf / IZR nh))) /\
      exists kT, transpose (k3 tr) 0 1 = Ok kT /\
                 matmul (q4 tr) kT = Ok (A0 tr)) /\
  (forall mode x B D H W g,
      positive_counts ic kf vf ofl nh ->
      volume x B (Z.to_nat ic) D H W ->
      exists tr g',
        forward_trace (train mode self) x g = Ok (tr, g') /\
        shape (q4 tr)
        = [B * query_extent lt D * query_extent lt H * query_extent lt W
           * Z.to_nat nh; Z.to_nat kf / Z.to_nat nh] /\
        forall b d h w a c,
          b < B -> d < query_extent lt D -> h < query_extent lt H ->
          w < query_extent lt W -> a < Z.to_nat nh ->
          c < Z.to_nat kf / Z.to_nat nh ->
          get (q4 tr)
              [head_row (query_extent lt D) (query_extent lt H)
                 (query_extent lt W) (Z.to_nat nh) b d h w a; c]
          = Rdiv (get (q0 tr)
                      [b; a * (Z.to_nat kf / Z.to_nat nh) + c; d; h; w])
                 (sqrt (IZR kf / IZR nh))).
Proof.
  intros Hi Hnh. pose proof (init_built _ _ _ _ _ _ _ _ _ _ Hi) as Hb.
  assert (Hs : _scale self = sqrt (IZR kf / IZR nh)).
  { rewrite (built_scale Hb). unfold pow_half.
    now rewrite (IZR_div_exact kf nh (built_nonzero Hb) (built_key_div Hb)). }
  assert (Hq4 : forall mode x g tr g',
             runs (train mode self) x g tr g' ->
             q4 tr = div_scalar (q3 tr) (sqrt (IZR kf / IZR nh))).
  { intros mode x g tr g' R. pose proof (run_q4 R) as E4.
    cbn [train _scale] in E4. now rewrite Hs in E4. }
  split; [exact (built_key_div Hb) |]. split; [exact Hs |]. split.
  - intros mode x g tr g' E.
    pose proof (forward_trace_inv _ _ _ _ _ E) as R.
    pose proof (Hq4 _ _ _ _ _ R) as E4.
    pose proof (run_q2 R) as E2.
    rewrite (built_heads (train_built _ _ _ _ _ _ _ mode Hb)) in E2.
    assert (Ed : data (q3 tr) = data (q1 tr)).
    { rewrite (flatten_data _ _ _ _ (run_q3 R)).
      exact (split_heads_data _ _ _ E2). }
    split; [exact (run_q0 R) |]. split; [exact (run_q1 R) |].
    split; [exact E2 |]. split; [exact (run_q3 R) |].
    split; [exact Ed |]. split; [exact E4 |].
    split; [now rewrite E4 |].
    split; [rewrite E4; unfold div_scalar; cbn [data]; now rewrite Ed |].
    split; [intros idx; rewrite E4; apply get_div_scalar |].
    exact (run_A0 R).
  - intros mode x B D H W g (Hic & Hkf & Hvf & Hof & _)
           (_ & Hx & HD & HH & HW).
    destruct (forward_trace_Ok _ _ _ _ _ _ _ x g B D H W
                (train_built _ _ _ _ _ _ _ mode Hb)
                Hnh Hic Hkf Hvf Hof Hx HD HH HW) as (tr & g' & E & S).
    pose proof (forward_trace_inv _ _ _ _ _ E) as R.
    exists tr, g'. split; [exact E |]. split; [exact (sh_q4 S) |].
    intros b d h w a c Hlb Hd Hh Hw Ha Hc.
    rewrite (Hq4 _ _ _ _ _ R), get_div_scalar. f_equal.
    apply (heads_get _ _ _ _ _ B _ _ _ _ _ _ b d h w a c
             (sh_q0 S) (run_q1 R) (run_q2 R) (run_q3 R) (sh_q1 S) (sh_q3 S));
      try assumption.
    exact (proj2 (heads_divide_nat kf nh Hnh ltac:(lia) (built_key_div Hb))).
Qed.

Lemma C5_scale_normalization_witness :
  exists self g1 tr g',
    __init__ 1 8 2 3 2 (1 # 2) "DOWN" gen0 = Ok (self, g1) /\
    (0 < 2)%Z /\
    positive_counts 1 8 2 3 2 /\
    volume (ones [1; 1; 2; 2; 2]) 1 1 2 2 2 /\
    _scale self = sqrt (8 / 2) /\
    forward_trace (train true self) (ones [1; 1; 2; 2; 2]) g1 = Ok (tr, g') /\
    project_query (train true self) (ones [1; 1; 2; 2; 2]) = Ok (Some (q0 tr)) /\
    shape (q4 tr) = [2; 4] /\
    get (q4 tr) [head_row 1 1 1 2 0 0 0 0 1; 3]
    = Rdiv (get (q0 tr) [0; 1 * 4 + 3; 0; 0; 0]) (sqrt (8 / 2)).
Proof.
  destruct (__init__ 1 8 2 3 2 (1 # 2) "DOWN" gen0) as [[self g1] | e] eqn:E;
    [| vm_compute in E; discriminate E].
  assert (H2 : (0 < 2)%Z) by lia.
  assert (Hp : positive_counts 1 8 2 3 2) by (unfold positive_counts; lia).
  assert (Hv : volume (ones [1; 1; 2; 2; 2]) 1 (Z.to_nat 1) 2 2 2).
  { unfold volume. repeat split; try lia. }
  destruct (C5_scale_normalization 1 8 2 3 2 (1 # 2) "DOWN" gen0 g1 self E H2)
    as (_ & Hs & Hany & Hrun).
  destruct (Hrun true (ones [1; 1; 2; 2; 2]) 1 2 2 2 g1 Hp Hv)
    as (tr & g' & Et & Sq & Hget).
  exists self, g1, tr, g'.
  split; [reflexivity |]. split; [exact H2 |]. split; [exact Hp |].
  split; [exact Hv |]. split; [exact Hs |]. split; [exact Et |].
  split; [exact (proj1 (Hany true _ _ _ _ Et)) |].
  split; [exact Sq |].
  apply (Hget 0 0 0 0 1 3); vm_compute; lia.
Defined.

Section WhatForwardComputes.

Variables (ic kf vf ofl nh : Z) (p : Q) (lt : string).
Variables (g0 g1 : Generator) (self : multi_head_attention_3d).
Hypothesis built : __init__ ic kf vf ofl nh p lt g0 = Ok (self, g1).
Hypothesis positive : positive_counts ic kf vf ofl nh.

Variables (mode : bool) (x : Tensor) (B D H W : nat) (g : Generator).
Hypothesis vol : volume x B (Z.to_nat ic) D H W.

Lemma built_mode : built_with ic kf vf ofl nh lt (train mode self).
Proof.
  apply train_built. exact (init_built _ _ _ _ _ _ _ _ _ _ built).
Qed.

Lemma ran :
  exists tr g',
    forward_trace (train mode self) x g = Ok (tr, g') /\
    runs (train mode self) x g tr g' /\
    trace_shapes tr B D H W
                 (query_extent lt D) (query_extent lt H) (query_extent lt W)
                 (Z.to_nat nh) (Z.to_nat kf) (Z.to_nat vf) (Z.to_nat ofl).
Proof.
  exact (run_on_volume ic kf vf ofl nh p lt g0 g1 self built positive
           mode x B D H W g vol).
Qed.

Lemma key_per_head :
  Z.to_nat kf / Z.to_nat nh * Z.to_nat nh = Z.to_nat kf.
Proof.
  destruct positive as (_ & Hkf & _ & _ & Hnh).
  exact (proj2 (heads_divide_nat kf nh Hnh ltac:(lia)
                  (built_key_div built_mode))).
Qed.

Lemma value_per_head :
  Z.to_nat vf / Z.to_nat nh * Z.to_nat nh = Z.to_nat vf.
Proof.
  destruct positive as (_ & _ & Hvf & _ & Hnh).
  exact (proj2 (heads_divide_nat vf nh Hnh ltac:(lia)
                  (built_value_div built_mode))).
Qed.

(** X12.  The key, the value and the output projection act on every
    position by itself: an element of their result is the bias of its
    channel plus the sum over the input channels of the input at the same
    position times the weight.  In a SAME layer the same holds for the
    query projection. *)
Theorem X12_projections_are_pointwise :
  exists tr g',
    forward_trace (train mode self) x g = Ok (tr, g') /\
    (forall b c d h w,
        b < B -> c < Z.to_nat kf -> d < D -> h < H -> w < W ->
        get (k0 tr) [b; c; d; h; w]
        = pointwise (KeyTransform self) x (Z.to_nat ic) b c d h w) /\
    (forall b c d h w,
        b < B -> c < Z.to_nat vf -> d < D -> h < H -> w < W ->
        get (v0 tr) [b; c; d; h; w]
        = pointwise (ValueTransform self) x (Z.to_nat ic) b c d h w) /\
    (forall b c d h w,
        b < B -> c < Z.to_nat ofl ->
        d < query_extent lt D -> h < query_extent lt H ->
        w < query_extent lt W ->
        get (O3 tr) [b; c; d; h; w]
        = pointwise (outputConv self) (O2 tr) (Z.to_nat vf) b c d h w) /\
    (lt = "SAME" ->
     exists q, QueryTransform self = Some q /\
       forall b c d h w,
         b < B -> c < Z.to_nat kf -> d < D -> h < H -> w < W ->
         get (q0 tr) [b; c; d; h; w]
         = pointwise q x (Z.to_nat ic) b c d h w).
Proof.
  destruct ran as (tr & g' & E & R & S).
  pose proof built_mode as Hb.
  destruct vol as (_ & Hx & HD & HH & HW).
  exists tr, g'. split; [exact E |].
  split; [| split; [| split]].
  - intros b c d h w Hlb Hc Hd Hh Hw.
    exact (conv_call_pointwise _ x _ _ _ B D H W b c d h w
             (built_key Hb) Hx (run_k0 R) Hlb Hc Hd Hh Hw).
  - intros b c d h w Hlb Hc Hd Hh Hw.
    exact (conv_call_pointwise _ x _ _ _ B D H W b c d h w
             (built_value Hb) Hx (run_v0 R) Hlb Hc Hd Hh Hw).
  - intros b c d h w Hlb Hc Hd Hh Hw.
    exact (conv_call_pointwise _ (O2 tr) _ _ _ B _ _ _ b c d h w
             (built_out Hb) (sh_O2 S) (run_O3 R) Hlb Hc Hd Hh Hw).
  - intros Elt. destruct (built_query Hb) as (q & Eq & Gq).
    exists q. split; [exact Eq |].
    assert (Gq' : conv_geometry q false (Z.to_nat ic) (Z.to_nat kf) 1 1 0).
    { destruct Gq as [(_ & Gq) | [(E' & _) | (E' & _)]];
        [exact Gq | rewrite Elt in E'; discriminate E'
         | rewrite Elt in E'; discriminate E']. }
    pose proof (run_q0 R) as Eq0. unfold project_query in Eq0.
    rewrite (built_type Hb), Elt, Eq in Eq0.
    cbn [String.eqb Ascii.eqb Bool.eqb orb callable rbind] in Eq0.
    destruct (conv_call q x None) as [r |] eqn:Er; [| discriminate Eq0].
    cbn [rbind] in Eq0. injection Eq0 as Eq0.
    intros b c d h w Hlb Hc Hd Hh Hw. rewrite <- Eq0.
    exact (conv_call_pointwise q x r _ _ B D H W b c d h w
             Gq' Hx Er Hlb Hc Hd Hh Hw).
Qed.

(** X13.  The matrices of queries, keys and values hold one row for every
    head of every position of every batch element, and head [a] is the
    group of channels [a * (filters / heads)] to
    [(a + 1) * (filters / heads) - 1] of the projection: element [c] of the
    row is channel [a * (filters / heads) + c] at that position. *)
Theorem X13_heads_are_channel_groups :
  exists tr g',
    forward_trace (train mode self) x g = Ok (tr, g') /\
    (forall b d h w a c,
        b < B -> d < D -> h < H -> w < W -> a < Z.to_nat nh ->
        c < Z.to_nat kf / Z.to_nat nh ->
        get (k3 tr) [head_row D H W (Z.to_nat nh) b d h w a; c]
        = get (k0 tr) [b; a * (Z.to_nat kf / Z.to_nat nh) + c; d; h; w]) /\
    (forall b d h w a c,
        b < B -> d < D -> h < H -> w < W -> a < Z.to_nat nh ->
        c < Z.to_nat vf / Z.to_nat nh ->
        get (v3 tr) [head_row D H W (Z.to_nat nh) b d h w a; c]
        = get (v0 tr) [b; a * (Z.to_nat vf / Z.to_nat nh) + c; d; h; w]) /\
    (forall b d h w a c,
        b < B -> d < query_extent lt D -> h < query_extent lt H ->
        w < query_extent lt W -> a < Z.to_nat nh ->
        c < Z.to_nat kf / Z.to_nat nh ->
        get (q3 tr) [head_row (query_extent lt D) (query_extent lt H)
                       (query_extent lt W) (Z.to_nat nh) b d h w a; c]
        = get (q0 tr) [b; a * (Z.to_nat kf / Z.to_nat nh) + c; d; h; w]).
Proof.
  destruct ran as (tr & g' & E & R & S).
  exists tr, g'. split; [exact E |].
  split; [| split]; intros b d h w a c Hlb Hd Hh Hw Ha Hc.
  - exact (heads_get _ _ _ _ _ B _ D H W _ _ b d h w a c
             (sh_k0 S) (run_k1 R) (run_k2 R) (run_k3 R) (sh_k1 S) (sh_k3 S)
             key_per_head Hlb Hd Hh Hw Ha Hc).
  - exact (heads_get _ _ _ _ _ B _ D H W _ _ b d h w a c
             (sh_v0 S) (run_v1 R) (run_v2 R) (run_v3 R) (sh_v1 S) (sh_v3 S)
             value_per_head Hlb Hd Hh Hw Ha Hc).
  - exact (heads_get _ _ _ _ _ B _ _ _ _ _ _ b d h w a c
             (sh_q0 S) (run_q1 R) (run_q2 R) (run_q3 R) (sh_q1 S) (sh_q3 S)
             key_per_head Hlb Hd Hh Hw Ha Hc).
Qed.

(** X14.  The similarity of a query row and a key row is the dot product
    of the channels of the two heads, divided by the square root of the
    number of key channels of a head; query and key may belong to
    different heads and to different batch elements. *)
Theorem X14_similarity_is_scaled_dot_product :
  exists tr g',
    forward_trace (train mode self) x g = Ok (tr, g') /\
    forall b d h w a b' d' h' w' a',
      b < B -> d < query_extent lt D -> h < query_extent lt H ->
      w < query_extent lt W -> a < Z.to_nat nh ->
      b' < B -> d' < D -> h' < H -> w' < W -> a' < Z.to_nat nh ->
      get (A0 tr)
          [head_row (query_extent lt D) (query_extent lt H)
             (query_extent lt W) (Z.to_nat nh) b d h w a;
           head_row D H W (Z.to_nat nh) b' d' h' w' a']
      = Rdiv
          (sum_upto (Z.to_nat kf / Z.to_nat nh)
             (fun c =>
                Rmult
                  (get (q0 tr)
                       [b; a * (Z.to_nat kf / Z.to_nat nh) + c; d; h; w])
                  (get (k0 tr)
                       [b'; a' * (Z.to_nat kf / Z.to_nat nh) + c; d'; h'; w'])))
          (sqrt (IZR (kf / nh))).
Proof.
  destruct ran as (tr & g' & E & R & S).
  pose proof built_mode as Hb.
  exists tr, g'. split; [exact E |].
  intros b d h w a b' d' h' w' a' Hlb Hd Hh Hw Ha Hlb' Hd' Hh' Hw' Ha'.
  destruct (run_A0 R) as (kT & EkT & EA0).
  destruct (transpose_matrix _ _ _ (sh_k3 S)) as (kT' & EkT' & SkT).
  rewrite EkT in EkT'. injection EkT' as <-.
  pose proof (head_row_lt B _ _ _ _ b d h w a Hlb Hd Hh Hw Ha) as Hr.
  pose proof (head_row_lt B _ _ _ _ b' d' h' w' a' Hlb' Hd' Hh' Hw' Ha') as Hs.
  rewrite (matmul_get _ _ _ _ _ _ _ _ (sh_q4 S) SkT EA0 Hr Hs).
  rewrite <- sum_upto_div. apply sum_upto_ext. intros c Hc.
  rewrite (run_q4 R), get_div_scalar.
  rewrite (transpose_matrix_get _ _ _ _ c _ (sh_k3 S) EkT Hc Hs).
  rewrite (heads_get _ _ _ _ _ B _ _ _ _ _ _ b d h w a c
             (sh_q0 S) (run_q1 R) (run_q2 R) (run_q3 R) (sh_q1 S) (sh_q3 S)
             key_per_head Hlb Hd Hh Hw Ha Hc).
  rewrite (heads_get _ _ _ _ _ B _ D H W _ _ b' d' h' w' a' c
             (sh_k0 S) (run_k1 R) (run_k2 R) (run_k3 R) (sh_k1 S) (sh_k3 S)
             key_per_head Hlb' Hd' Hh' Hw' Ha' Hc).
  rewrite (built_scale Hb). unfold pow_half, Rdiv. ring.
Qed.

(** X25.  The attention matrix is the softmax of the similarity matrix
    along its second axis, the axis of the keys: it has one row for every
    query row and one column for every key row, and the entry of a query row
    and a key row is the exponential of their similarity divided by the sum
    of the exponentials of the similarities of that query row with all the
    key rows. *)
Theorem X25_softmax_over_the_key_axis :
  exists tr g',
    forward_trace (train mode self) x g = Ok (tr, g') /\
    softmax (A0 tr) 1 = Ok (A1 tr) /\
    shape (A1 tr) = shape (A0 tr) /\
    rows (A1 tr)
    = B * query_extent lt D * query_extent lt H * query_extent lt W
      * Z.to_nat nh /\
    cols (A1 tr) = B * D * H * W * Z.to_nat nh /\
    forall r j,
      r < rows (A1 tr) -> j < cols (A1 tr) ->
      get (A1 tr) [r; j]
      = Rdiv (exp (get (A0 tr) [r; j]))
             (sum_upto (cols (A0 tr)) (fun l => exp (get (A0 tr) [r; l]))).
Proof.
  destruct ran as (tr & g' & E & R & S).
  exists tr, g'. split; [exact E |]. split; [exact (run_A1 R) |].
  split; [now rewrite (sh_A1 S), (sh_A0 S) |].
  unfold rows, cols. rewrite (sh_A1 S), (sh_A0 S). cbn [ix nth].
  split; [reflexivity |]. split; [reflexivity |].
  intros r j Hr Hj.
  exact (softmax_rows_get _ _ _ _ r j (sh_A0 S) (run_A1 R) Hr Hj).
Qed.

(** The attention output in the volume that the output projection reads:
    the heads are laid side by side along the channel axis, in the order
    of the heads. *)
Lemma attended_get tr g' b d h w a c :
  runs (train mode self) x g tr g' ->
  trace_shapes tr B D H W
               (query_extent lt D) (query_extent lt H) (query_extent lt W)
               (Z.to_nat nh) (Z.to_nat kf) (Z.to_nat vf) (Z.to_nat ofl) ->
  b < B -> d < query_extent lt D -> h < query_extent lt H ->
  w < query_extent lt W -> a < Z.to_nat nh ->
  c < Z.to_nat vf / Z.to_nat nh ->
  get (O2 tr) [b; a * (Z.to_nat vf / Z.to_nat nh) + c; d; h; w]
  = get (O0 tr) [head_row (query_extent lt D) (query_extent lt H)
                   (query_extent lt W) (Z.to_nat nh) b d h w a; c].
Proof.
  intros R S Hlb Hd Hh Hw Ha Hc.
  pose proof value_per_head as Hv.
  rewrite (permute_channel_first_get (O1 tr) (O2 tr) B _ _ _ _ b _ d h w
             (sh_O1 S) (run_O2 R)) by (try assumption; nia).
  symmetry.
  apply (heads_matrix_get (O1 tr) (O0 tr) B _ _ _ _ _ _ b d h w a c
           (sh_O1 S) (sh_O0 S)); [| exact Hv].
  destruct (run_O1 R) as (? & ? & ? & ? & ? & _ & _ & _ & _ & _ & Ev).
  symmetry. exact (view_data _ _ _ Ev).
Qed.

(** X15.  The volume the output projection reads holds the heads of the
    attention output side by side along its channel axis: channel
    [a * (value_filters / heads) + c] at a position is element [c] of the
    row of head [a] at that position. *)
Theorem X15_heads_are_concatenated :
  exists tr g',
    forward_trace (train mode self) x g = Ok (tr, g') /\
    conv_call (outputConv self) (O2 tr) None = Ok (O3 tr) /\
    forall b d h w a c,
      b < B -> d < query_extent lt D -> h < query_extent lt H ->
      w < query_extent lt W -> a < Z.to_nat nh ->
      c < Z.to_nat vf / Z.to_nat nh ->
      get (O2 tr) [b; a * (Z.to_nat vf / Z.to_nat nh) + c; d; h; w]
      = get (O0 tr) [head_row (query_extent lt D) (query_extent lt H)
                       (query_extent lt W) (Z.to_nat nh) b d h w a; c].
Proof.
  destruct ran as (tr & g' & E & R & S).
  exists tr, g'. split; [exact E |]. split; [exact (run_O3 R) |].
  intros b d h w a c. exact (attended_get tr g' b d h w a c R S).
Qed.

(** X18.  With a dropout probability strictly between 0 and 1 a layer in
    training mode drops entries of the attention matrix or divides them by
    [1 - p]: every entry of the matrix after dropout is zero or the entry
    of the softmax divided by [1 - p]. *)
Theorem X18_dropout_keeps_or_zeroes :
  mode = true -> Qeq_bool p 0 = false -> Qeq_bool p 1 = false ->
  exists tr g',
    forward_trace (train mode self) x g = Ok (tr, g') /\
    forall r s,
      r < rows (A1 tr) -> s < cols (A1 tr) ->
      get (A2 tr) [r; s] = 0%R \/
      get (A2 tr) [r; s] = Rdiv (get (A1 tr) [r; s]) (Q2R (1 - p)).
Proof.
  intros Hm Hp0 Hp1.
  destruct ran as (tr & g' & E & R & S).
  exists tr, g'. split; [exact E |].
  unfold rows, cols. rewrite (sh_A1 S). cbn [ix nth].
  intros r s Hr Hs.
  pose proof (init_dropout_p _ _ _ _ _ _ _ _ _ _ built) as Edp.
  assert (Hwf : wf (A1 tr)).
  { pose proof (run_A1 R) as E1.
    rewrite (softmax_rows_Ok _ _ _ (sh_A0 S)) in E1. injection E1 as <-.
    apply wf_tabulate. }
  assert (Hn : numel (A1 tr) <> 0).
  { unfold numel. rewrite (sh_A1 S). cbn [numel_of fold_right]. nia. }
  destruct (dropout_call_scaled (attention_dropout (train mode self))
              (A1 tr) g (A2 tr) g') with (idx := [r; s]) as [Ez | Es].
  - cbn [train attention_dropout dropout_p]. now rewrite Edp.
  - cbn [train attention_dropout dropout_p]. now rewrite Edp.
  - cbn [train attention_dropout dropout_training]. exact Hm.
  - exact Hwf.
  - exact Hn.
  - exact (run_A2 R).
  - rewrite (sh_A1 S). repeat constructor; assumption.
  - now left.
  - right. rewrite Es. cbn [train attention_dropout dropout_p].
    now rewrite Edp.
Qed.

End WhatForwardComputes.

Lemma X12_projections_are_pointwise_witness :
  exists self g1 tr g',
    __init__ 1 2 2 3 1 (1 # 2) "UP" gen0 = Ok (self, g1) /\
    positive_counts 1 2 2 3 1 /\
    volume (zeros [1; 1; 2; 6; 6]) 1 1 2 6 6 /\
    forward_trace (train true self) (zeros [1; 1; 2; 6; 6]) g1 = Ok (tr, g') /\
    get (k0 tr) [0; 1; 1; 5; 5]
    = pointwise (KeyTransform self) (zeros [1; 1; 2; 6; 6]) 1 0 1 1 5 5.
Proof.
  destruct (__init__ 1 2 2 3 1 (1 # 2) "UP" gen0) as [[self g1] | e] eqn:E;
    [| vm_compute in E; discriminate E].
  assert (Hp : positive_counts 1 2 2 3 1) by (unfold positive_counts; lia).
  assert (Hv : volume (zeros [1; 1; 2; 6; 6]) 1 (Z.to_nat 1) 2 6 6).
  { unfold volume. repeat split; try lia. }
  destruct (X12_projections_are_pointwise 1 2 2 3 1 (1 # 2) "UP" gen0 g1 self
              E Hp true (zeros [1; 1; 2; 6; 6]) 1 2 6 6 g1 Hv)
    as (tr & g' & Et & Hk & _).
  exists self, g1, tr, g'.
  split; [reflexivity |]. split; [exact Hp |]. split; [exact Hv |].
  split; [exact Et |].
  apply Hk; cbn; lia.
Defined.

Lemma X13_heads_are_channel_groups_witness :
  exists self g1 tr g',
    __init__ 1 4 4 3 2 (1 # 2) "DOWN" gen0 = Ok (self, g1) /\
    positive_counts 1 4 4 3 2 /\
    volume (zeros [1; 1; 2; 2; 2]) 1 1 2 2 2 /\
    forward_trace (train true self) (zeros [1; 1; 2; 2; 2]) g1 = Ok (tr, g') /\
    get (k3 tr) [head_row 2 2 2 2 0 1 0 1 1; 1] = get (k0 tr) [0; 3; 1; 0; 1].
Proof.
  destruct (__init__ 1 4 4 3 2 (1 # 2) "DOWN" gen0) as [[self g1] | e] eqn:E;
    [| vm_compute in E; discriminate E].
  assert (Hp : positive_counts 1 4 4 3 2) by (unfold positive_counts; lia).
  assert (Hv : volume (zeros [1; 1; 2; 2; 2]) 1 (Z.to_nat 1) 2 2 2).
  { unfold volume. repeat split; try lia. }
  destruct (X13_heads_are_channel_groups 1 4 4 3 2 (1 # 2) "DOWN" gen0 g1 self
              E Hp true (zeros [1; 1; 2; 2; 2]) 1 2 2 2 g1 Hv)
    as (tr & g' & Et & Hk & _).
  exists self, g1, tr, g'.
  split; [reflexivity |]. split; [exact Hp |]. split; [exact Hv |].
  split; [exact Et |].
  apply (Hk 0 1 0 1 1 1); vm_compute; lia.
Defined.

Lemma X14_similarity_is_scaled_dot_product_witness :
  exists self g1 tr g',
    __init__ 1 4 4 3 2 (1 # 2) "DOWN" gen0 = Ok (self, g1) /\
    positive_counts 1 4 4 3 2 /\
    volume (zeros [1; 1; 2; 2; 2]) 1 1 2 2 2 /\
    forward_trace (train true self) (zeros [1; 1; 2; 2; 2]) g1 = Ok (tr, g') /\
    get (A0 tr) [head_row 1 1 1 2 0 0 0 0 1; head_row 2 2 2 2 0 1 0 1 0]
    = Rdiv
        (sum_upto 2
           (fun c => Rmult (get (q0 tr) [0; 1 * 2 + c; 0; 0; 0])
                           (get (k0 tr) [0; 0 * 2 + c; 1; 0; 1])))
        (sqrt (IZR (4 / 2))).
Proof.
  destruct (__init__ 1 4 4 3 2 (1 # 2) "DOWN" gen0) as [[self g1] | e] eqn:E;
    [| vm_compute in E; discriminate E].
  assert (Hp : positive_counts 1 4 4 3 2) by (unfold positive_counts; lia).
  assert (Hv : volume (zeros [1; 1; 2; 2; 2]) 1 (Z.to_nat 1) 2 2 2).
  { unfold volume. repeat split; try lia. }
  destruct (X14_similarity_is_scaled_dot_product 1 4 4 3 2 (1 # 2) "DOWN" gen0
              g1 self E Hp true (zeros [1; 1; 2; 2; 2]) 1 2 2 2 g1 Hv)
    as (tr & g' & Et & HA).
  exists self, g1, tr, g'.
  split; [reflexivity |]. split; [exact Hp |]. split; [exact Hv |].
  split; [exact Et |].
  apply (HA 0 0 0 0 1 0 1 0 1 0); vm_compute; lia.
Defined.

Lemma X25_softmax_over_the_key_axis_witness :
  exists self g1 tr g',
    __init__ 1 4 4 3 2 (1 # 2) "DOWN" gen0 = Ok (self, g1) /\
    positive_counts 1 4 4 3 2 /\
    volume (zeros [1; 1; 2; 2; 2]) 1 1 2 2 2 /\
    forward_trace (train true self) (zeros [1; 1; 2; 2; 2]) g1 = Ok (tr, g') /\
    rows (A1 tr) = 2 /\ cols (A1 tr) = 16 /\
    get (A1 tr) [1; 5]
    = Rdiv (exp (get (A0 tr) [1; 5]))
           (sum_upto (cols (A0 tr)) (fun l => exp (get (A0 tr) [1; l]))).
Proof.
  destruct (__init__ 1 4 4 3 2 (1 # 2) "DOWN" gen0) as [[self g1] | e] eqn:E;
    [| vm_compute in E; discriminate E].
  assert (Hp : positive_counts 1 4 4 3 2) by (unfold positive_counts; lia).
  assert (Hv : volume (zeros [1; 1; 2; 2; 2]) 1 (Z.to_nat 1) 2 2 2).
  { unfold volume. repeat split; try lia. }
  destruct (X25_softmax_over_the_key_axis 1 4 4 3 2 (1 # 2) "DOWN" gen0
              g1 self E Hp true (zeros [1; 1; 2; 2; 2]) 1 2 2 2 g1 Hv)
    as (tr & g' & Et & _ & _ & Hr & Hc & HA).
  exists self, g1, tr, g'.
  split; [reflexivity |]. split; [exact Hp |]. split; [exact Hv |].
  split; [exact Et |]. split; [exact Hr |]. split; [exact Hc |].
  apply HA; [rewrite Hr | rewrite Hc]; vm_compute; lia.
Defined.

Lemma X15_heads_are_concatenated_witness :
  exists self g1 tr g',
    __init__ 1 4 4 3 2 (1 # 2) "DOWN" gen0 = Ok (self, g1) /\
    positive_counts 1 4 4 3 2 /\
    volume (zeros [1; 1; 2; 2; 2]) 1 1 2 2 2 /\
    forward_trace (train true self) (zeros [1; 1; 2; 2; 2]) g1 = Ok (tr, g') /\
    get (O2 tr) [0; 1 * 2 + 1; 0; 0; 0]
    = get (O0 tr) [head_row 1 1 1 2 0 0 0 0 1; 1].
Proof.
  destruct (__init__ 1 4 4 3 2 (1 # 2) "DOWN" gen0) as [[self g1] | e] eqn:E;
    [| vm_compute in E; discriminate E].
  assert (Hp : positive_counts 1 4 4 3 2) by (unfold positive_counts; lia).
  assert (Hv : volume (zeros [1; 1; 2; 2; 2]) 1 (Z.to_nat 1) 2 2 2).
  { unfold volume. repeat split; try lia. }
  destruct (X15_heads_are_concatenated 1 4 4 3 2 (1 # 2) "DOWN" gen0
              g1 self E Hp true (zeros [1; 1; 2; 2; 2]) 1 2 2 2 g1 Hv)
    as (tr & g' & Et & _ & HO).
  exists self, g1, tr, g'.
  split; [reflexivity |]. split; [exact Hp |]. split; [exact Hv |].
  split; [exact Et |].
  apply (HO 0 0 0 0 1 1); vm_compute; lia.
Defined.

Lemma X18_dropout_keeps_or_zeroes_witness :
  exists self g1 tr g',
    __init__ 1 2 2 3 1 (1 # 2) "SAME" gen0 = Ok (self, g1) /\
    positive_counts 1 2 2 3 1 /\
    volume (ones [1; 1; 1; 1; 2]) 1 1 1 1 2 /\
    Qeq_bool (1 # 2) 0 = false /\ Qeq_bool (1 # 2) 1 = false /\
    forward_trace (train true self) (ones [1; 1; 1; 1; 2]) g1 = Ok (tr, g') /\
    (0 < rows (A1 tr) -> 1 < cols (A1 tr) ->
     get (A2 tr) [0; 1] = 0%R \/
     get (A2 tr) [0; 1] = Rdiv (get (A1 tr) [0; 1]) (Q2R (1 - (1 # 2)))).
Proof.
  destruct (__init__ 1 2 2 3 1 (1 # 2) "SAME" gen0) as [[self g1] | e] eqn:E;
    [| vm_compute in E; discriminate E].
  assert (Hp : positive_counts 1 2 2 3 1) by (unfold positive_counts; lia).
  assert (Hv : volume (ones [1; 1; 1; 1; 2]) 1 (Z.to_nat 1) 1 1 2).
  { unfold volume. repeat split; try lia. }
  assert (H0 : Qeq_bool (1 # 2) 0 = false) by reflexivity.
  assert (H1 : Qeq_bool (1 # 2) 1 = false) by reflexivity.
  destruct (X18_dropout_keeps_or_zeroes 1 2 2 3 1 (1 # 2) "SAME" gen0 g1 self
              E Hp true (ones [1; 1; 1; 1; 2]) 1 1 1 2 g1 Hv eq_refl H0 H1)
    as (tr & g' & Et & HA).
  exists self, g1, tr, g'.
  split; [reflexivity |]. split; [exact Hp |]. split; [exact Hv |].
  split; [exact H0 |]. split; [exact H1 |]. split; [exact Et |].
  intros Hr Hc. exact (HA 0 1 Hr Hc).
Defined.

(** ** Modes *)

(** X19.  A layer built with a dropout probability of 0 computes the same
    in training mode and in evaluation mode: on every input and from every
    state of the generator, [forward] returns the same result or raises
    the same exception, and leaves the generator in the same state. *)
Theorem X19_modes_agree_without_dropout
        (ic kf vf ofl nh : Z) (p : Q) (lt : string) (g0 g1 : Generator)
        (self : multi_head_attention_3d) (x : Tensor) (g : Generator) :
  __init__ ic kf vf ofl nh p lt g0 = Ok (self, g1) ->
  Qeq_bool p 0 = true ->
  forward (train true self) x g = forward (train false self) x g /\
  forward self x g = forward (eval self) x g.
Proof.
  intros Hi Hp.
  pose proof (init_dropout_p _ _ _ _ _ _ _ _ _ _ Hi) as Edp.
  assert (Hoff : forall m t g2,
             dropout_call (mkDropout (dropout_p (attention_dropout self)) m)
                          t g2 = Ok (t, g2)).
  { intros m t g2. apply dropout_call_off. left.
    cbn [dropout_p]. now rewrite Edp. }
  assert (Ht : forall m1 m2,
             forward_trace (train m1 self) x g
             = forward_trace (train m2 self) x g).
  { intros m1 m2. unfold forward_trace, project_query.
    cbn [train num_heads layer_type QueryTransform KeyTransform
         ValueTransform attention_dropout outputConv _scale].
    repeat match goal with
           | |- context [bind (lift ?r) _ _] =>
               destruct r;
               [ rewrite !(bind_lift_Ok _ _ _ _ _ _ eq_refl)
               | rewrite !(bind_lift_Raise _ _ _ _ _ _ eq_refl); reflexivity ]
           end.
    rewrite !(bind_Ok _ _ _ _ _ _ _ (Hoff _ _ _)).
    reflexivity. }
  assert (Hs : train true self = self).
  { destruct (init_inv _ _ _ _ _ _ _ _ _ _ Hi) as (_ & _ & Hd & Htr & _).
    destruct self as [n l q k v d o s t]. cbn in Hd, Htr. subst d t.
    reflexivity. }
  split.
  - unfold forward, bind. now rewrite (Ht true false).
  - unfold eval. rewrite <- Hs at 1. unfold forward, bind.
    now rewrite (Ht true false).
Qed.

Lemma X19_modes_agree_without_dropout_witness :
  exists self g1,
    __init__ 1 2 2 3 1 0 "UP" gen0 = Ok (self, g1) /\
    Qeq_bool 0 0 = true /\
    forward (train true self) (ones [1; 1; 2; 6; 6]) g1
    = forward (train false self) (ones [1; 1; 2; 6; 6]) g1.
Proof.
  destruct (__init__ 1 2 2 3 1 0 "UP" gen0) as [[self g1] | e] eqn:E;
    [| vm_compute in E; discriminate E].
  assert (H0 : Qeq_bool 0 0 = true) by reflexivity.
  exists self, g1. split; [reflexivity |]. split; [exact H0 |].
  exact (proj1 (X19_modes_agree_without_dropout 1 2 2 3 1 0 "UP" gen0 g1 self
                  (ones [1; 1; 2; 6; 6]) g1 E H0)).
Defined.

(** ** The requested output size of an UP layer *)

Lemma conv_transpose_out_up d op :
  0 < d -> conv_transpose_out d 3 2 1 op = Some (d * 2 - 1 + op).
Proof.
  intros H. unfold conv_transpose_out.
  replace (((Z.of_nat d - 1) * Z.of_nat 2 - 2 * Z.of_nat 1 + Z.of_nat 3
            + Z.of_nat op <? 0)%Z) with false
    by (symmetry; apply Z.ltb_ge; lia).
  f_equal. lia.
Qed.

(** The transposed convolution of an UP layer computes every element of
    its result by the same rule, whatever the output padding: the padding
    only adds positions at the end of each axis. *)
Lemma conv_transpose3d_up x w b B cin cout D H W :
  shape x = [B; cin; D; H; W] -> shape w = [cin; cout; 3; 3; 3] ->
  shape b = [cout] ->
  0 < cout -> 0 < cin -> 0 < D -> 0 < H -> 0 < W ->
  exists F, forall op, op < 2 ->
    conv_transpose3d x w b 2 1 [op; op; op]
    = Ok (tabulate [B; cout; D * 2 - 1 + op; H * 2 - 1 + op; W * 2 - 1 + op]
            F).
Proof.
  intros Hx Hw Hb Hco Hci HD HH HW. eexists. intros op Hop.
  unfold conv_transpose3d. rewrite Hx, Hw, Hb.
  replace (cout =? 0) with false by (symmetry; apply Nat.eqb_neq; lia).
  replace (cin =? 0) with false by (symmetry; apply Nat.eqb_neq; lia).
  replace (D =? 0) with false by (symmetry; apply Nat.eqb_neq; lia).
  replace (H =? 0) with false by (symmetry; apply Nat.eqb_neq; lia).
  replace (W =? 0) with false by (symmetry; apply Nat.eqb_neq; lia).
  replace (op <? 2) with true by (symmetry; apply Nat.ltb_lt; lia).
  rewrite Nat.eqb_refl, shape_eqb_refl.
  rewrite !conv_transpose_out_up by assumption.
  cbn [orb negb Nat.eqb andb].
  reflexivity.
Qed.

(** X20.  In an UP layer [forward] asks the transposed convolution of the
    query for the doubled extents, and gets them.  Called without
    [output_size] the same module returns the extents [2 * d - 1]; the
    result of [forward]'s call is that tensor with one more position at the
    end of each spatial axis. *)
Theorem X20_output_size_completes_the_doubling
        (ic kf vf ofl nh : Z) (p : Q) (g0 g1 : Generator)
        (self : multi_head_attention_3d) (x : Tensor) (B D H W : nat) :
  __init__ ic kf vf ofl nh p "UP" g0 = Ok (self, g1) ->
  positive_counts ic kf vf ofl nh ->
  volume x B (Z.to_nat ic) D H W ->
  exists m q q',
    QueryTransform self = Some m /\
    project_query self x = Ok (Some q) /\
    shape q = [B; Z.to_nat kf; 2 * D; 2 * H; 2 * W] /\
    conv_call m x None = Ok q' /\
    shape q' = [B; Z.to_nat kf; 2 * D - 1; 2 * H - 1; 2 * W - 1] /\
    forall b c d h w,
      b < B -> c < Z.to_nat kf ->
      d < 2 * D - 1 -> h < 2 * H - 1 -> w < 2 * W - 1 ->
      get q [b; c; d; h; w] = get q' [b; c; d; h; w].
Proof.
  intros Hi (Hic & Hkf & _) (_ & Hx & HD & HH & HW).
  pose proof (init_built _ _ _ _ _ _ _ _ _ _ Hi) as Hb.
  destruct (built_query Hb) as (m & Em & Gm).
  assert (Gm' : conv_geometry m true (Z.to_nat ic) (Z.to_nat kf) 3 2 1).
  { destruct Gm as [(E' & _) | [(E' & _) | (_ & Gm)]];
      [discriminate E' | discriminate E' | exact Gm]. }
  destruct Gm' as (Gt & Gk & Gs & Gp & Gw & Gb).
  destruct (conv_transpose3d_up x (weight m) (bias m) B _ _ D H W Hx Gw Gb)
    as (F & HF); try lia.
  exists m, (tabulate [B; Z.to_nat kf; D * 2 - 1 + 1; H * 2 - 1 + 1;
                       W * 2 - 1 + 1] F),
         (tabulate [B; Z.to_nat kf; D * 2 - 1 + 0; H * 2 - 1 + 0;
                    W * 2 - 1 + 0] F).
  split; [exact Em |]. split.
  { unfold project_query. rewrite (built_type Hb), Em.
    cbn [String.eqb Ascii.eqb Bool.eqb orb callable rbind].
    unfold shape_at. rewrite Hx. cbn [nth_error rbind].
    unfold conv_call. rewrite Gt, Hx, Gk, Gs, Gp.
    rewrite !output_padding_axis_double_any. cbn [rbind].
    rewrite (HF 1) by lia. reflexivity. }
  split.
  { rewrite shape_tabulate.
    replace (D * 2 - 1 + 1) with (2 * D) by lia.
    replace (H * 2 - 1 + 1) with (2 * H) by lia.
    replace (W * 2 - 1 + 1) with (2 * W) by lia. reflexivity. }
  split.
  { unfold conv_call. rewrite Gt, Gs, Gp. apply (HF 0). lia. }
  split.
  { rewrite shape_tabulate.
    replace (D * 2 - 1 + 0) with (2 * D - 1) by lia.
    replace (H * 2 - 1 + 0) with (2 * H - 1) by lia.
    replace (W * 2 - 1 + 0) with (2 * W - 1) by lia. reflexivity. }
  intros b c d h w Hlb Hc Hd Hh Hw.
  rewrite !get_tabulate by (repeat constructor; lia).
  reflexivity.
Qed.

Lemma X20_output_size_completes_the_doubling_witness :
  exists self g1 m q q',
    __init__ 1 2 2 3 1 (1 # 2) "UP" gen0 = Ok (self, g1) /\
    positive_counts 1 2 2 3 1 /\
    volume (ones [1; 1; 2; 6; 6]) 1 1 2 6 6 /\
    QueryTransform self = Some m /\
    project_query self (ones [1; 1; 2; 6; 6]) = Ok (Some q) /\
    shape q = [1; 2; 4; 12; 12] /\
    conv_call m (ones [1; 1; 2; 6; 6]) None = Ok q' /\
    shape q' = [1; 2; 3; 11; 11].
Proof.
  destruct (__init__ 1 2 2 3 1 (1 # 2) "UP" gen0) as [[self g1] | e] eqn:E;
    [| vm_compute in E; discriminate E].
  assert (Hp : positive_counts 1 2 2 3 1) by (unfold positive_counts; lia).
  assert (Hv : volume (ones [1; 1; 2; 6; 6]) 1 (Z.to_nat 1) 2 6 6).
  { unfold volume. repeat split; try lia. }
  destruct (X20_output_size_completes_the_doubling 1 2 2 3 1 (1 # 2) gen0 g1
              self (ones [1; 1; 2; 6; 6]) 1 2 6 6 E Hp Hv)
    as (m & q & q' & Em & Eq & Sq & Eq' & Sq' & _).
  exists self, g1, m, q, q'.
  split; [reflexivity |]. split; [exact Hp |]. split; [exact Hv |].
  split; [exact Em |]. split; [exact Eq |]. split; [exact Sq |].
  split; [exact Eq' | exact Sq'].
Defined.

(** ** Layers in sequence *)

Lemma query_extent_pos lt d : 0 < d -> 0 < query_extent lt d.
Proof.
  intros H. unfold query_extent, conv_out.
  destruct (String.eqb lt "SAME"); [exact H |].
  destruct (String.eqb lt "DOWN"); lia.
Qed.

Lemma query_extent_DOWN_UP d :
  0 < d -> query_extent "DOWN" (query_extent "UP" d) = d.
Proof.
  unfold query_extent, conv_out. cbn [String.eqb Ascii.eqb Bool.eqb].
  destruct d as [| d]; [lia | intros _].
  replace (S d * 2 + 2 * 1 - 3) with (1 + d * 2) by lia.
  rewrite Nat.div_add by lia. cbn [Nat.div Nat.divmod fst]. lia.
Qed.

Lemma query_extent_UP_DOWN d :
  0 < d -> query_extent "UP" (query_extent "DOWN" d) = d + d mod 2.
Proof.
  intros H. unfold query_extent, conv_out. cbn [String.eqb Ascii.eqb Bool.eqb].
  replace (d + 2 * 1 - 3) with (d - 1) by lia.
  pose proof (Nat.div_mod_eq (d - 1) 2) as E1.
  pose proof (Nat.mod_upper_bound (d - 1) 2 ltac:(lia)) as B1.
  pose proof (Nat.div_mod_eq d 2) as E2.
  pose proof (Nat.mod_upper_bound d 2 ltac:(lia)) as B2.
  lia.
Qed.

(** X21.  The result of a layer is a volume that a second layer accepts
    when its [in_channel] is the [output_filters] of the first; the
    spatial extents follow the two layer types in turn.  A DOWN layer after
    an UP layer gives back the extents of the input; an UP layer after a
    DOWN layer gives them back rounded up to the next even number. *)
Theorem X21_layers_compose
        (ic kf vf ofl nh : Z) (p : Q) (lt : string) (g0 g1 : Generator)
        (self : multi_head_attention_3d)
        (kf' vf' ofl' nh' : Z) (p' : Q) (lt' : string) (g0' g1' : Generator)
        (self' : multi_head_attention_3d)
        (mode mode' : bool) (x : Tensor) (B D H W : nat) (g : Generator) :
  __init__ ic kf vf ofl nh p lt g0 = Ok (self, g1) ->
  positive_counts ic kf vf ofl nh ->
  __init__ ofl kf' vf' ofl' nh' p' lt' g0' = Ok (self', g1') ->
  positive_counts ofl kf' vf' ofl' nh' ->
  volume x B (Z.to_nat ic) D H W ->
  exists y gy z gz,
    forward (train mode self) x g = Ok (y, gy) /\
    forward (train mode' self') y gy = Ok (z, gz) /\
    shape z = [B; Z.to_nat ofl';
               query_extent lt' (query_extent lt D);
               query_extent lt' (query_extent lt H);
               query_extent lt' (query_extent lt W)] /\
    (lt = "UP" -> lt' = "DOWN" -> shape z = [B; Z.to_nat ofl'; D; H; W]) /\
    (lt = "DOWN" -> lt' = "UP" ->
     shape z = [B; Z.to_nat ofl'; D + D mod 2; H + H mod 2; W + W mod 2]).
Proof.
  intros Hi (Hic & Hkf & Hvf & Hof & Hnh) Hi' (_ & Hkf' & Hvf' & Hof' & Hnh')
         (_ & Hx & HD & HH & HW).
  pose proof (train_built _ _ _ _ _ _ _ mode
                (init_built _ _ _ _ _ _ _ _ _ _ Hi)) as Hb.
  pose proof (train_built _ _ _ _ _ _ _ mode'
                (init_built _ _ _ _ _ _ _ _ _ _ Hi')) as Hb'.
  destruct (forward_trace_Ok _ _ _ _ _ _ _ x g B D H W
              Hb Hnh Hic Hkf Hvf Hof Hx HD HH HW) as (tr & gy & E & S).
  destruct (forward_trace_Ok _ _ _ _ _ _ _ (O3 tr) gy B _ _ _
              Hb' Hnh' Hof Hkf' Hvf' Hof' (sh_O3 S)
              (query_extent_pos lt D HD) (query_extent_pos lt H HH)
              (query_extent_pos lt W HW)) as (tr' & gz & E' & S').
  exists (O3 tr), gy, (O3 tr'), gz.
  split; [now apply forward_of_trace |].
  split; [now apply forward_of_trace |].
  split; [exact (sh_O3 S') |].
  rewrite (sh_O3 S'). split.
  - intros -> ->. now rewrite !query_extent_DOWN_UP by assumption.
  - intros -> ->. now rewrite !query_extent_UP_DOWN by assumption.
Qed.

Lemma X21_layers_compose_witness :
  exists self g1 self' g1' y gy z gz,
    __init__ 1 2 2 3 1 (1 # 2) "DOWN" gen0 = Ok (self, g1) /\
    positive_counts 1 2 2 3 1 /\
    __init__ 3 2 2 1 2 (1 # 2) "UP" gen0 = Ok (self', g1') /\
    positive_counts 3 2 2 1 2 /\
    volume (ones [1; 1; 3; 4; 5]) 1 1 3 4 5 /\
    forward (train true self) (ones [1; 1; 3; 4; 5]) gen0 = Ok (y, gy) /\
    forward (train true self') y gy = Ok (z, gz) /\
    shape z = [1; 1; 4; 4; 6].
Proof.
  destruct (__init__ 1 2 2 3 1 (1 # 2) "DOWN" gen0) as [[self g1] | e] eqn:E;
    [| vm_compute in E; discriminate E].
  destruct (__init__ 3 2 2 1 2 (1 # 2) "UP" gen0) as [[self' g1'] | e] eqn:E';
    [| vm_compute in E'; discriminate E'].
  assert (Hp : positive_counts 1 2 2 3 1) by (unfold positive_counts; lia).
  assert (Hp' : positive_counts 3 2 2 1 2) by (unfold positive_counts; lia).
  assert (Hv : volume (ones [1; 1; 3; 4; 5]) 1 (Z.to_nat 1) 3 4 5).
  { unfold volume. repeat split; try lia. }
  destruct (X21_layers_compose 1 2 2 3 1 (1 # 2) "DOWN" gen0 g1 self
              2 2 1 2 (1 # 2) "UP" gen0 g1' self' true true
              (ones [1; 1; 3; 4; 5]) 1 3 4 5 gen0 E Hp E' Hp' Hv)
    as (y & gy & z & gz & Ey & Ez & _ & _ & Hdu).
  exists self, g1, self', g1', y, gy, z, gz.
  split; [reflexivity |]. split; [exact Hp |]. split; [reflexivity |].
  split; [exact Hp' |]. split; [exact Hv |]. split; [exact Ey |].
  split; [exact Ez |]. exact (Hdu eq_refl eq_refl).
Defined.

(** ** The script at the end of the file *)

(** X22.  Whatever numbers the generator draws for the input and for the
    parameters, the script at the end of the file runs to its end and the
    shape it prints is [1, 3, 4, 12, 12]. *)
Theorem X22_main_prints_the_shape (g : Generator) :
  exists g', main g = Ok ([1; 3; 4; 12; 12], g').
Proof.
  unfold main, rand.
  assert (Ed : draw [1; 2; 6; 6] g
               = Ok (mkTensor [1; 2; 6; 6]
                       (map (fun i => uniform g (cursor g + i))
                            (seq 0 (numel_of [1; 2; 6; 6]))),
                     advance g (numel_of [1; 2; 6; 6]))) by reflexivity.
  run Ed. unfold unsqueeze. cbn [shape length Nat.leb firstn skipn app data].
  rewrite (bind_lift_Ok _ _ _ _ _ _ eq_refl).
  set (g2 := advance g (numel_of [1; 2; 6; 6])).
  set (inputs := mkTensor [1; 1; 2; 6; 6] _).
  destruct (allocate_Ok 1 2 2 3 1 (1 # 2) "UP" g2) as (self & g3 & Ea);
    try lia; try (right; right; left; reflexivity);
    try (unfold channel_count, int64_max; lia);
    try (unfold Qle; cbn; lia).
  assert (Ei : __init__ 1 2 2 3 1 (1 # 2) "UP" g2 = Ok (self, g3)).
  { rewrite init_checks by lia. exact Ea. }
  run Ei.
  destruct (forward_trace_Ok 1 2 2 3 1 "UP" self inputs g3 1 2 6 6
              (init_built _ _ _ _ _ _ _ _ _ _ Ei))
    as (tr & g4 & Et & S); try lia; try reflexivity.
  run (forward_of_trace _ _ _ _ _ Et).
  exists g4. unfold ret. rewrite (sh_O3 S). reflexivity.
Qed.

(** ** The branches of [forward] and the errors of the sub-modules *)

Lemma bind_Raise A B (m : M A) (k : A -> M B) g e :
  m g = Raise e -> bind m k g = Raise e.
Proof. intros E. unfold bind. now rewrite E. Qed.

(** X23.  [forward] has no branch for a layer type other than the three
    names: if the attribute is changed after construction, [forward]
    computes no query, computes the key and the value projection, and
    raises an [UnboundLocalError] where it first reads the query. *)
Theorem X23_forward_unknown_layer_type
        (ic kf vf ofl nh : Z) (p : Q) (lt : string) (g0 g1 : Generator)
        (self : multi_head_attention_3d) (s : string)
        (x : Tensor) (B D H W : nat) (g : Generator) :
  __init__ ic kf vf ofl nh p lt g0 = Ok (self, g1) ->
  positive_counts ic kf vf ofl nh ->
  volume x B (Z.to_nat ic) D H W ->
  ~ known_layer_type s ->
  project_query (set_layer_type s self) x = Ok None /\
  forward (set_layer_type s self) x g = Raise UnboundLocalError.
Proof.
  intros Hi (Hic & Hkf & Hvf & _) (_ & Hx & HD & HH & HW) Hs.
  pose proof (init_built _ _ _ _ _ _ _ _ _ _ Hi) as Hb.
  assert (Eq : project_query (set_layer_type s self) x = Ok None).
  { unfold project_query. cbn [set_layer_type layer_type].
    destruct (String.eqb_spec s "SAME") as [-> | _];
      [exfalso; apply Hs; left; reflexivity |].
    destruct (String.eqb_spec s "DOWN") as [-> | _];
      [exfalso; apply Hs; right; left; reflexivity |].
    destruct (String.eqb_spec s "UP") as [-> | _];
      [exfalso; apply Hs; right; right; left; reflexivity |].
    reflexivity. }
  split; [exact Eq |].
  apply forward_raise. unfold forward_trace.
  run Eq. cbn [set_layer_type KeyTransform ValueTransform].
  destruct (conv_call_plain _ x _ _ 1 1 0 B D H W (built_key Hb) Hx)
    as (k & Ek & Sk); try lia.
  run Ek.
  destruct (permute_channel_last k _ _ _ _ _ Sk) as (k' & Ek' & _).
  run Ek'.
  destruct (conv_call_plain _ x _ _ 1 1 0 B D H W (built_value Hb) Hx)
    as (v & Ev & Sv); try lia.
  run Ev.
  destruct (permute_channel_last v _ _ _ _ _ Sv) as (v' & Ev' & _).
  run Ev'.
  reflexivity.
Qed.

Lemma X23_forward_unknown_layer_type_witness :
  exists self g1,
    __init__ 1 2 2 3 1 (1 # 2) "UP" gen0 = Ok (self, g1) /\
    positive_counts 1 2 2 3 1 /\
    volume (ones [1; 1; 2; 6; 6]) 1 1 2 6 6 /\
    ~ known_layer_type "up" /\
    forward (set_layer_type "up" self) (ones [1; 1; 2; 6; 6]) g1
    = Raise UnboundLocalError.
Proof.
  destruct (__init__ 1 2 2 3 1 (1 # 2) "UP" gen0) as [[self g1] | e] eqn:E;
    [| vm_compute in E; discriminate E].
  assert (Hp : positive_counts 1 2 2 3 1) by (unfold positive_counts; lia).
  assert (Hv : volume (ones [1; 1; 2; 6; 6]) 1 (Z.to_nat 1) 2 6 6).
  { unfold volume. repeat split; try lia. }
  assert (Hs : ~ known_layer_type "up").
  { apply str_in_not_In. reflexivity. }
  exists self, g1.
  split; [reflexivity |]. split; [exact Hp |]. split; [exact Hv |].
  split; [exact Hs |].
  exact (proj2 (X23_forward_unknown_layer_type 1 2 2 3 1 (1 # 2) "UP" gen0 g1
                  self "up" (ones [1; 1; 2; 6; 6]) 1 2 6 6 g1 E Hp Hv Hs)).
Defined.

Lemma Conv3d_negative cin cout k s p g :
  fits_int64 cin = true -> fits_int64 cout = true ->
  (cin < 0)%Z \/ (cout < 0)%Z ->
  Conv3d cin cout k s p g
  = Raise (RuntimeError "Trying to create tensor with negative dimension").
Proof.
  intros Fi Fo H. unfold Conv3d. rewrite Fi, Fo. cbn [andb negb].
  replace ((cin <? 0) || (cout <? 0))%Z with true; [reflexivity |].
  symmetry. apply Bool.orb_true_iff.
  destruct H; [left | right]; now apply Z.ltb_lt.
Qed.

Lemma ConvTranspose3d_negative cin cout k s p g :
  fits_int64 cin = true -> fits_int64 cout = true ->
  (cin < 0)%Z \/ (cout < 0)%Z ->
  ConvTranspose3d cin cout k s p g
  = Raise (RuntimeError "Trying to create tensor with negative dimension").
Proof.
  intros Fi Fo H. unfold ConvTranspose3d. rewrite Fi, Fo. cbn [andb negb].
  replace ((cin <? 0) || (cout <? 0))%Z with true; [reflexivity |].
  symmetry. apply Bool.orb_true_iff.
  destruct H; [left | right]; now apply Z.ltb_lt.
Qed.

Lemma Conv3d_TypeError cin cout k s p g :
  fits_int64 cin = false \/ fits_int64 cout = false ->
  Conv3d cin cout k s p g = Raise TypeError.
Proof.
  intros H. unfold Conv3d.
  replace (fits_int64 cin && fits_int64 cout) with false; [reflexivity |].
  symmetry. apply Bool.andb_false_iff. exact H.
Qed.

Lemma ConvTranspose3d_TypeError cin cout k s p g :
  fits_int64 cin = false \/ fits_int64 cout = false ->
  ConvTranspose3d cin cout k s p g = Raise TypeError.
Proof.
  intros H. unfold ConvTranspose3d.
  replace (fits_int64 cin && fits_int64 cout) with false; [reflexivity |].
  symmetry. apply Bool.andb_false_iff. exact H.
Qed.

Lemma channel_count_fits z :
  fits_int64 z = true -> (0 <= z)%Z -> channel_count z.
Proof.
  intros F H. apply fits_int64_iff in F. unfold channel_count. lia.
Qed.

(** The query module of a layer with admissible channel counts. *)
Lemma allocate_query_Ok ic kf lt g :
  known_layer_type lt -> channel_count ic -> channel_count kf ->
  exists q gq,
    (if String.eqb lt "SAME" then
       c <~ Conv3d ic kf 1 1 0 ;; ret (Some c)
     else if String.eqb lt "DOWN" then
       c <~ Conv3d ic kf 3 2 1 ;; ret (Some c)
     else if String.eqb lt "UP" then
       c <~ ConvTranspose3d ic kf 3 2 1 ;; ret (Some c)
     else ret None) g = Ok (q, gq).
Proof.
  intros Hlt Hic Hkf.
  destruct Hlt as [<- | [<- | [<- | []]]]; cbn [String.eqb Ascii.eqb Bool.eqb].
  - run (Conv3d_Ok ic kf 1 1 0 g Hic Hkf). eexists _, _. reflexivity.
  - run (Conv3d_Ok ic kf 3 2 1 g Hic Hkf). eexists _, _. reflexivity.
  - run (ConvTranspose3d_Ok ic kf 3 2 1 g Hic Hkf).
    eexists _, _. reflexivity.
Qed.

(** X24.  When the three checks of the constructor pass, the sub-modules
    can still refuse the arguments.  An [in_channel] or a [key_filters]
    that is not a 64-bit integer raises a [TypeError].  With the four
    channel counts 64-bit integers, a negative [in_channel], [key_filters]
    or [value_filters] raises a [RuntimeError], and so does, with a
    dropout probability in [0, 1], a negative [output_filters]. *)
Theorem X24_constructor_submodule_errors
        (ic kf vf ofl nh : Z) (p : Q) (lt : string) (g : Generator) :
  nh <> 0%Z -> heads_divide kf nh -> heads_divide vf nh ->
  known_layer_type lt ->
  (fits_int64 ic = false \/ fits_int64 kf = false ->
   construct ic kf vf ofl nh p lt g = Raise TypeError) /\
  (fits_int64 ic = true -> fits_int64 kf = true -> fits_int64 vf = true ->
   (ic < 0 \/ kf < 0 \/ vf < 0)%Z ->
   raises_RuntimeError (construct ic kf vf ofl nh p lt g)) /\
  (fits_int64 ic = true -> fits_int64 kf = true -> fits_int64 vf = true ->
   fits_int64 ofl = true ->
   (0 <= ic)%Z -> (0 <= kf)%Z -> (0 <= vf)%Z ->
   (0 <= p)%Q -> (p <= 1)%Q -> (ofl < 0)%Z ->
   raises_RuntimeError (construct ic kf vf ofl nh p lt g)).
Proof.
  intros Hnh Hk Hv Hlt.
  assert (Ec : forall e,
             allocate ic kf vf ofl nh p lt g = Raise e ->
             construct ic kf vf ofl nh p lt g = Raise e).
  { intros e Ea. rewrite (construct_checks _ _ _ _ _ _ _ _ Hnh).
    unfold heads_divide in Hk, Hv. rewrite Hk, Hv.
    pose proof (proj2 (str_in_In lt _) Hlt) as El. rewrite El.
    cbn [Z.eqb negb]. now rewrite Ea. }
  split; [| split].
  - intros Hout. apply Ec. unfold allocate. apply bind_Raise.
    destruct Hlt as [<- | [<- | [<- | []]]];
      cbn [String.eqb Ascii.eqb Bool.eqb]; apply bind_Raise;
      (apply Conv3d_TypeError || apply ConvTranspose3d_TypeError);
      exact Hout.
  - intros Fi Fk Fv Hneg.
    destruct (Z.ltb_spec ic 0) as [Hic | Hic];
      [| destruct (Z.ltb_spec kf 0) as [Hkf | Hkf]].
    + exists "Trying to create tensor with negative dimension".
      apply Ec. unfold allocate. apply bind_Raise.
      destruct Hlt as [<- | [<- | [<- | []]]];
        cbn [String.eqb Ascii.eqb Bool.eqb]; apply bind_Raise;
        (apply Conv3d_negative || apply ConvTranspose3d_negative);
        try assumption; left; exact Hic.
    + exists "Trying to create tensor with negative dimension".
      apply Ec. unfold allocate. apply bind_Raise.
      destruct Hlt as [<- | [<- | [<- | []]]];
        cbn [String.eqb Ascii.eqb Bool.eqb]; apply bind_Raise;
        (apply Conv3d_negative || apply ConvTranspose3d_negative);
        try assumption; right; exact Hkf.
    + assert (Hvf : (vf < 0)%Z) by lia.
      pose proof (channel_count_fits ic Fi Hic) as Cic.
      pose proof (channel_count_fits kf Fk Hkf) as Ckf.
      exists "Trying to create tensor with negative dimension".
      apply Ec. unfold allocate.
      destruct (allocate_query_Ok ic kf lt g Hlt Cic Ckf) as (q & gq & Eq).
      run Eq. run (Conv3d_Ok ic kf 1 1 0 gq Cic Ckf).
      apply bind_Raise. apply Conv3d_negative; try assumption.
      right. exact Hvf.
  - intros Fi Fk Fv Fo Hic Hkf Hvf H0 H1 Hof.
    pose proof (channel_count_fits ic Fi Hic) as Cic.
    pose proof (channel_count_fits kf Fk Hkf) as Ckf.
    pose proof (channel_count_fits vf Fv Hvf) as Cvf.
    exists "Trying to create tensor with negative dimension".
    apply Ec. unfold allocate.
    destruct (allocate_query_Ok ic kf lt g Hlt Cic Ckf) as (q & gq & Eq).
    run Eq. run (Conv3d_Ok ic kf 1 1 0 gq Cic Ckf).
    run (Conv3d_Ok ic vf 1 1 0 _ Cic Cvf).
    run (Dropout_new_Ok p H0 H1).
    apply bind_Raise. apply Conv3d_negative; try assumption.
    right. exact Hof.
Qed.

Lemma X24_constructor_submodule_errors_witness :
  (2 <> 0)%Z /\ heads_divide 4 2 /\ known_layer_type "DOWN" /\
  fits_int64 9223372036854775808 = false /\
  construct 1 9223372036854775808 4 8 2 (1 # 2) "DOWN" gen0 = Raise TypeError /\
  raises_RuntimeError (construct 1 4 (-4) 8 2 (1 # 2) "DOWN" gen0).
Proof.
  assert (Hn : (2 <> 0)%Z) by lia.
  assert (Hd : heads_divide 4 2) by reflexivity.
  assert (Hd' : heads_divide (-4) 2) by reflexivity.
  assert (Hb : heads_divide 9223372036854775808 2) by reflexivity.
  assert (Hl : known_layer_type "DOWN") by (right; left; reflexivity).
  assert (Hf : fits_int64 9223372036854775808 = false) by reflexivity.
  split; [exact Hn |]. split; [exact Hd |]. split; [exact Hl |].
  split; [exact Hf |]. split.
  - apply (proj1 (X24_constructor_submodule_errors
                    1 9223372036854775808 4 8 2 (1 # 2) "DOWN" gen0
                    Hn Hb Hd Hl)).
    right. exact Hf.
  - apply (proj1 (proj2 (X24_constructor_submodule_errors
                           1 4 (-4) 8 2 (1 # 2) "DOWN" gen0 Hn Hd Hd' Hl)));
      try reflexivity. lia.
Defined.
